(** * custom_orm: a shallow embedding of the ORM core and its specification

    The development follows the Python package [orm]:
    - [orm/fields.py]: the typed field descriptors ([Field] and its
      subclasses), their validation and the descriptor protocol;
    - [orm/models.py]: the [model_fields] decorator, [Model.__init__] and the
      persistence operations [save], [_insert], [_update], [delete], [get];
    - [orm/query.py]: the query builder, whose objects live in a heap because
      the builder's contract is about which object is mutated;
    - [orm/db.py]: the [Database] wrapper; the SQL engine behind it
      ([sqlite3]) is a parameter of the development. *)

From Stdlib Require Import ZArith String Ascii List PrimFloat Lia.
From stdpp Require Import base list strings pretty.

(** ** Python values *)

(** [datetime.datetime] objects: the ORM only tests for the type. *)
Record datetime := {
  year : Z; month : Z; day : Z;
  hour : Z; minute : Z; second : Z; microsecond : Z
}.

(** The values a field can be given.  Python's [int] is unbounded ([Z]);
    [str] is a sequence of characters and [len] counts them. *)
Inductive Value :=
| VNone
| VInt (n : Z)
| VStr (s : string)
| VBool (b : bool)
| VDateTime (d : datetime)
| VFloat (x : float).

(** [value is None] *)
Definition is_None (value : Value) : bool :=
  match value with VNone => true | _ => false end.

(** [isinstance(value, int)]: [bool] is a subclass of [int]. *)
Definition isinstance_int (value : Value) : bool :=
  match value with VInt _ | VBool _ => true | _ => false end.

Definition isinstance_bool (value : Value) : bool :=
  match value with VBool _ => true | _ => false end.

Definition isinstance_str (value : Value) : bool :=
  match value with VStr _ => true | _ => false end.

Definition isinstance_float (value : Value) : bool :=
  match value with VFloat _ => true | _ => false end.

Definition isinstance_datetime (value : Value) : bool :=
  match value with VDateTime _ => true | _ => false end.

(** The integer an [int] instance stands for ([True == 1], [False == 0]). *)
Definition int_of (value : Value) : Z :=
  match value with
  | VInt n => n
  | VBool b => Z.b2z b
  | _ => 0%Z
  end.

(** [len(value)] of a [str]. *)
Definition len (value : Value) : Z :=
  match value with VStr s => Z.of_nat (String.length s) | _ => 0%Z end.

(** [str(n)] of an [int], as an f-string formats it. *)
Definition str_of_int (n : Z) : string := pretty n.

(** ** Exceptions and results *)

Inductive Exn :=
| ValueError (msg : string)
| TypeError (msg : string)
| RuntimeError (msg : string)
| AttributeError (msg : string)
| DatabaseError (msg : string).  (* [sqlite3.Error], raised by the engine *)

Inductive result (A : Type) :=
| Ok (a : A)
| Raise (e : Exn).
Arguments Ok {A} a.
Arguments Raise {A} e.

Definition rbind {A B} (r : result A) (k : A -> result B) : result B :=
  match r with
  | Ok a => k a
  | Raise e => Raise e
  end.

Definition is_Ok {A} (r : result A) : bool :=
  match r with Ok _ => true | Raise _ => false end.

(** State and exceptions: a raised exception keeps the state reached. *)
Definition M (S A : Type) : Type := S -> result A * S.

Definition ret {S A} (a : A) : M S A := fun s => (Ok a, s).
Definition raise {S A} (e : Exn) : M S A := fun s => (Raise e, s).
Definition bind {S A B} (m : M S A) (k : A -> M S B) : M S B :=
  fun s =>
    match m s with
    | (Ok a, s') => k a s'
    | (Raise e, s') => (Raise e, s')
    end.
Definition lift {S A} (r : result A) : M S A := fun s => (r, s).
Definition gets {S A} (f : S -> A) : M S A := fun s => (Ok (f s), s).
Definition modify {S} (f : S -> S) : M S unit := fun s => (Ok tt, f s).

(** Running a computation on one component of a pair of states. *)
Definition on_fst {S T A} (m : M S A) : M (S * T) A :=
  fun st => let '(r, s') := m (fst st) in (r, (s', snd st)).
Definition on_snd {S T A} (m : M T A) : M (S * T) A :=
  fun st => let '(r, t') := m (snd st) in (r, (fst st, t')).

Declare Scope py_scope.
Delimit Scope py_scope with py.
Notation "x <- m ;; k" := (bind m (fun x => k))
  (at level 100, m at next level, right associativity) : py_scope.
Notation "m ;;; k" := (bind m (fun _ => k))
  (at level 100, right associativity) : py_scope.

(** ** Dictionaries

    A Python [dict] keeps its keys unique and in insertion order: an
    association list, updated in place when the key is there. *)

Fixpoint dict_get {V} (k : string) (d : list (string * V)) : option V :=
  match d with
  | [] => None
  | (k', v) :: rest => if String.eqb k k' then Some v else dict_get k rest
  end.

Definition dict_contains {V} (k : string) (d : list (string * V)) : bool :=
  match dict_get k d with Some _ => true | None => false end.

(** [d[k] = v] *)
Fixpoint dict_set {V} (k : string) (v : V) (d : list (string * V))
  : list (string * V) :=
  match d with
  | [] => [(k, v)]
  | (k', v') :: rest =>
      if String.eqb k k' then (k, v) :: rest else (k', v') :: dict_set k v rest
  end.

(** [del d[k]] when the key is there *)
Definition dict_del {V} (k : string) (d : list (string * V))
  : list (string * V) :=
  List.filter (fun kv => negb (String.eqb k (fst kv))) d.

(** [d.get(k, dflt)] *)
Definition dict_get_default {V} (k : string) (dflt : V)
    (d : list (string * V)) : V :=
  match dict_get k d with Some v => v | None => dflt end.

(** [d.pop(k, dflt)]: the value and the dictionary left *)
Definition dict_pop {V} (k : string) (dflt : V) (d : list (string * V))
  : V * list (string * V) :=
  (dict_get_default k dflt d, dict_del k d).

(** [list(d.keys())] *)
Definition dict_keys {V} (d : list (string * V)) : list string := map fst d.

(** [d.values()] *)
Definition dict_values {V} (d : list (string * V)) : list V := map snd d.

(** ** [repr] of a list of strings, as an f-string prints [list(d.keys())]

    Exact on ASCII; characters above 127 are kept as they are. *)

Definition quote1 : ascii := ascii_of_nat 39.
Definition quote2 : ascii := ascii_of_nat 34.
Definition backslash : ascii := ascii_of_nat 92.

Fixpoint str_contains (c : ascii) (s : string) : bool :=
  match s with
  | EmptyString => false
  | String c' rest => if Ascii.eqb c c' then true else str_contains c rest
  end.

Definition hex_digit (n : nat) : ascii :=
  match String.get n "0123456789abcdef" with
  | Some c => c
  | None => "0"%char
  end.

Definition repr_char (q c : ascii) : string :=
  let n := nat_of_ascii c in
  if Ascii.eqb c backslash then String backslash (String backslash EmptyString)
  else if Ascii.eqb c q then String backslash (String q EmptyString)
  else if Nat.eqb n 10 then String backslash "n"
  else if Nat.eqb n 13 then String backslash "r"
  else if Nat.eqb n 9 then String backslash "t"
  else if (Nat.ltb n 32 || Nat.eqb n 127)%bool then
    String backslash
      (String "x" (String (hex_digit (n / 16)) (String (hex_digit (n mod 16)) EmptyString)))
  else String c EmptyString.

Fixpoint repr_chars (q : ascii) (s : string) : string :=
  match s with
  | EmptyString => EmptyString
  | String c rest => repr_char q c +:+ repr_chars q rest
  end.

(** [repr(s)]: single quotes, unless [s] has a single quote and no double
    quote. *)
Definition repr_str (s : string) : string :=
  let q := if (str_contains quote1 s && negb (str_contains quote2 s))%bool
           then quote2 else quote1 in
  String q (repr_chars q s +:+ String q EmptyString).

Definition repr_str_list (l : list string) : string :=
  "[" +:+ String.concat ", " (map repr_str l) +:+ "]".

(** [s.lower()], on ASCII letters. *)
Definition lower_char (c : ascii) : ascii :=
  let n := nat_of_ascii c in
  if (Nat.leb 65 n && Nat.leb n 90)%bool then ascii_of_nat (n + 32) else c.

Fixpoint lower (s : string) : string :=
  match s with
  | EmptyString => EmptyString
  | String c rest => String (lower_char c) (lower rest)
  end.

(** ** Fields ([orm/fields.py]) *)

(** The field classes; a subclass's own constructor arguments come with it. *)
Inductive FieldClass :=
| BaseField                                    (* [Field] itself *)
| IntegerField
| StringField (max_length : Z)
| BooleanField
| DateTimeField (auto_now auto_now_add : bool)
| FloatField.

(** What a field constructor is called with: [name=None], [primary_key=False],
    [nullable=True], [default=None] unless given. *)
Record FieldArgs := {
  arg_class : FieldClass;
  arg_name : option string;
  arg_primary_key : bool;
  arg_nullable : bool;
  arg_default : Value
}.

(** A field descriptor once the class statement has bound it to an attribute
    ([Field.__set_name__] has run). *)
Record Field := {
  field_class : FieldClass;
  name : string;
  primary_key : bool;
  nullable : bool;
  default : Value;
  _attr_name : string
}.

(** [Field.__set_name__(self, owner, name)] on a freshly constructed field *)
Definition __set_name__ (self : FieldArgs) (attr : string) : Field :=
  {| field_class := arg_class self;
     name := match arg_name self with Some n => n | None => attr end;
     primary_key := arg_primary_key self;
     nullable := arg_nullable self;
     default := arg_default self;
     _attr_name := attr |}.

(** A declared record type, after [model_fields]. *)
Record Class := {
  __name__ : string;
  __table__ : string;
  __fields__ : list (string * Field);
  __primary_key__ : option Field
}.

(** A record: an instance of a declared type with its attribute dictionary. *)
Record Model := {
  __class__ : Class;
  __dict__ : list (string * Value)
}.

(** [validate], per field class *)
Definition validate (self : Field) (value : Value) : result unit :=
  match field_class self with
  | BaseField => Ok tt
  | IntegerField =>
      if (negb (is_None value) && negb (isinstance_int value))%bool
      then Raise (ValueError (_attr_name self +:+ " must be an integer"))
      else Ok tt
  | StringField max_length =>
      if negb (is_None value) then
        if negb (isinstance_str value)
        then Raise (ValueError (_attr_name self +:+ " must be a string"))
        else if (len value >? max_length)%Z
        then Raise (ValueError (_attr_name self +:+ " cannot exceed "
                                +:+ str_of_int max_length +:+ " characters"))
        else Ok tt
      else Ok tt
  | BooleanField =>
      if negb (is_None value) then
        if negb (isinstance_bool value || isinstance_int value)%bool
        then Raise (ValueError (_attr_name self +:+ " must be a boolean or integer"))
        else if (isinstance_int value
                 && negb ((int_of value =? 0)%Z || (int_of value =? 1)%Z))%bool
        then Raise (ValueError (_attr_name self +:+ " must be 0, 1, True, or False"))
        else Ok tt
      else Ok tt
  | DateTimeField _ _ =>
      if (negb (is_None value) && negb (isinstance_datetime value))%bool
      then Raise (ValueError (_attr_name self +:+ " must be a datetime object"))
      else Ok tt
  | FloatField =>
      if (negb (is_None value)
          && negb (isinstance_int value || isinstance_float value))%bool
      then Raise (ValueError (_attr_name self +:+ " must be a number"))
      else Ok tt
  end.

(** [instance.__dict__[self._attr_name] = value] *)
Definition store_attr (instance : Model) (attr : string) (value : Value) : Model :=
  {| __class__ := __class__ instance;
     __dict__ := dict_set attr value (__dict__ instance) |}.

(** [Field.__get__(self, instance, owner)] on an instance *)
Definition __get__ (self : Field) (instance : Model) : Value :=
  dict_get_default (_attr_name self) (default self) (__dict__ instance).

(** [Field.__set__]; the instance is untouched when it raises. *)
Definition Field___set__ (self : Field) (instance : Model) (value : Value)
  : result Model :=
  if (negb (nullable self) && is_None value)%bool
  then Raise (ValueError (_attr_name self +:+ " cannot be None"))
  else
    rbind (validate self value) (fun _ =>
    Ok (store_attr instance (_attr_name self) value)).

(** [bool(value)] of an [int] *)
Definition bool_of (value : Value) : bool := negb (int_of value =? 0)%Z.

(** [BooleanField.__set__] *)
Definition BooleanField___set__ (self : Field) (instance : Model) (value : Value)
  : result Model :=
  if (negb (nullable self) && is_None value)%bool
  then Raise (ValueError (_attr_name self +:+ " cannot be None"))
  else
    rbind (validate self value) (fun _ =>
    let value := if isinstance_int value then VBool (bool_of value) else value in
    Ok (store_attr instance (_attr_name self) value)).

(** The [__set__] the field's class provides. *)
Definition __set__ (self : Field) (instance : Model) (value : Value)
  : result Model :=
  match field_class self with
  | BooleanField => BooleanField___set__ self instance value
  | _ => Field___set__ self instance value
  end.

(** [getattr(instance, field._attr_name)] and
    [setattr(instance, field._attr_name, value)]: the attribute of that name
    is the data descriptor [field], which [__set_name__] bound there. *)
Definition getattr (instance : Model) (field : Field) : Value :=
  __get__ field instance.

Definition setattr (instance : Model) (field : Field) (value : Value)
  : result Model :=
  __set__ field instance value.

(** [db_type], per field class *)
Definition db_type (self : Field) : result string :=
  match field_class self with
  | BaseField => Raise (RuntimeError "NotImplementedError")
  | IntegerField => Ok "INTEGER"
  | StringField max_length => Ok ("VARCHAR(" +:+ str_of_int max_length +:+ ")")
  | BooleanField => Ok "BOOLEAN"
  | DateTimeField _ _ => Ok "DATETIME"
  | FloatField => Ok "FLOAT"
  end.

(** ** Declaring a record type ([model_fields], [orm/models.py]) *)

(** An attribute of a class body: a field, or anything else (a method, a
    constant). *)
Inductive Attr (F : Type) :=
| AField (f : F)
| AOther.
Arguments AField {F} f.
Arguments AOther {F}.

(** A class statement deriving from [Model]: its name, the [__table__] it
    assigns if any, and the other assignments of its body in order. *)
Record ClassDef := {
  def_name : string;
  def_table : option string;
  def_body : list (string * Attr FieldArgs)
}.

(** The class object the statement creates, as the decorator receives it. *)
Record PyClass := {
  cls_name : string;
  cls_table : option string;
  cls_dict : list (string * Attr Field)
}.

(** Executing the body fills the class namespace, one assignment at a time. *)
Definition namespace (body : list (string * Attr FieldArgs))
  : list (string * Attr FieldArgs) :=
  fold_left (fun ns kv => dict_set (fst kv) (snd kv) ns) body [].

(** Class creation calls [__set_name__] on every attribute that has it. *)
Definition bind_attr (kv : string * Attr FieldArgs) : string * Attr Field :=
  match snd kv with
  | AField f => (fst kv, AField (__set_name__ f (fst kv)))
  | AOther => (fst kv, AOther)
  end.

Definition type_new (def : ClassDef) : PyClass :=
  {| cls_name := def_name def;
     cls_table := def_table def;
     cls_dict := map bind_attr (namespace (def_body def)) |}.

(** The loop of [model_fields] over [cls.__dict__.items()] *)
Fixpoint collect_fields (items : list (string * Attr Field))
    (fields : list (string * Field)) (primary_key_ : option Field)
  : list (string * Field) * option Field :=
  match items with
  | [] => (fields, primary_key_)
  | (attr_name, attr) :: rest =>
      match attr with
      | AField f =>
          let fields := dict_set attr_name f fields in
          let primary_key_ := if primary_key f then Some f else primary_key_ in
          collect_fields rest fields primary_key_
      | AOther => collect_fields rest fields primary_key_
      end
  end.

(** [model_fields(cls)]: no statement of the decorator raises. *)
Definition model_fields (cls : PyClass) : result Class :=
  let '(fields, primary_key_) := collect_fields (cls_dict cls) [] None in
  Ok {| __name__ := cls_name cls;
        __table__ := match cls_table cls with
                     | Some t => t
                     | None => lower (cls_name cls) +:+ "s"
                     end;
        __fields__ := fields;
        __primary_key__ := primary_key_ |}.

(** A class statement under the decorator. *)
Definition declare (def : ClassDef) : result Class :=
  model_fields (type_new def).

(** ** Constructing a record ([Model.__init__]) *)

(** The loop over [__fields__.items()]: each field is set to
    [kwargs.pop(field_name, field.default)]. *)
Fixpoint init_fields (items : list (string * Field)) (self : Model)
    (kwargs : list (string * Value)) : result (Model * list (string * Value)) :=
  match items with
  | [] => Ok (self, kwargs)
  | (field_name, field) :: rest =>
      let '(value, kwargs) := dict_pop field_name (default field) kwargs in
      rbind (setattr self field value) (fun self =>
      init_fields rest self kwargs)
  end.

(** A new record of class [cls], before [__init__] has set anything. *)
Definition blank (cls : Class) : Model := {| __class__ := cls; __dict__ := [] |}.

(** Calling the class with keyword arguments [kwargs]: [Model.__init__] *)
Definition Model___init__ (cls : Class) (kwargs : list (string * Value))
  : result Model :=
  rbind (init_fields (__fields__ cls) (blank cls) kwargs)
    (fun '(self, kwargs) =>
       match kwargs with
       | [] => Ok self
       | _ :: _ =>
           Raise (TypeError ("Unexpected keyword arguments: "
                             +:+ repr_str_list (dict_keys kwargs)))
       end).

(** [to_dict] *)
Definition to_dict (self : Model) : list (string * Value) :=
  map (fun kv => (fst kv, getattr self (snd kv))) (__fields__ (__class__ self)).

(** ** Query objects ([orm/query.py])

    A [Query] is a mutable object holding references to two list objects;
    [_clone] copies the lists.  Objects live in a heap (a location is an
    index, allocation appends) so that sharing between a query and its
    clones is visible. *)

Abbreviation loc := nat (only parsing).

Record Query := {
  model_class : Class;
  _filters : loc;           (* a list of [str] *)
  _filter_params : loc;     (* a list of values *)
  _order_by : option string;
  _limit : option Z;
  _offset : option Z
}.

Inductive Obj :=
| OStrList (l : list string)
| OValList (l : list Value)
| OQuery (q : Query).

Definition alloc (o : Obj) : M (list Obj) loc :=
  fun h => (Ok (length h), h ++ [o]).

Definition load_query (l : loc) : M (list Obj) Query :=
  fun h =>
    match h !! l with
    | Some (OQuery q) => (Ok q, h)
    | _ => (Raise (AttributeError "not a Query object"), h)
    end.

Definition load_strs (l : loc) : M (list Obj) (list string) :=
  fun h =>
    match h !! l with
    | Some (OStrList x) => (Ok x, h)
    | _ => (Raise (AttributeError "not a list of str"), h)
    end.

Definition load_vals (l : loc) : M (list Obj) (list Value) :=
  fun h =>
    match h !! l with
    | Some (OValList x) => (Ok x, h)
    | _ => (Raise (AttributeError "not a list"), h)
    end.

Definition store (l : loc) (o : Obj) : M (list Obj) unit :=
  modify (fun h => <[l := o]> h).

(** [self.a]: reading an attribute of the query at [self] *)
Definition attr {A} (self : loc) (a : Query -> A) : M (list Obj) A :=
  fun h =>
    match load_query self h with
    | (Ok q, h') => (Ok (a q), h')
    | (Raise e, h') => (Raise e, h')
    end.

(** [query.a = v]: assigning an attribute of the query at [query] *)
Definition set_attr (query : loc) (upd : Query -> Query) : M (list Obj) unit :=
  fun h =>
    match load_query query h with
    | (Ok q, h') => store query (OQuery (upd q)) h'
    | (Raise e, h') => (Raise e, h')
    end.

Definition with_filters (v : loc) (q : Query) : Query :=
  {| model_class := model_class q; _filters := v;
     _filter_params := _filter_params q; _order_by := _order_by q;
     _limit := _limit q; _offset := _offset q |}.
Definition with_filter_params (v : loc) (q : Query) : Query :=
  {| model_class := model_class q; _filters := _filters q;
     _filter_params := v; _order_by := _order_by q;
     _limit := _limit q; _offset := _offset q |}.
Definition with_order_by (v : option string) (q : Query) : Query :=
  {| model_class := model_class q; _filters := _filters q;
     _filter_params := _filter_params q; _order_by := v;
     _limit := _limit q; _offset := _offset q |}.
Definition with_limit (v : option Z) (q : Query) : Query :=
  {| model_class := model_class q; _filters := _filters q;
     _filter_params := _filter_params q; _order_by := _order_by q;
     _limit := v; _offset := _offset q |}.
Definition with_offset (v : option Z) (q : Query) : Query :=
  {| model_class := model_class q; _filters := _filters q;
     _filter_params := _filter_params q; _order_by := _order_by q;
     _limit := _limit q; _offset := v |}.

Local Open Scope py_scope.

(** [Query(model_class, db)]: two fresh empty lists, no order, limit or
    offset.  There is one [Database] object, which every query refers to. *)
Definition Query___init__ (model_class_ : Class) : M (list Obj) loc :=
  filters <- alloc (OStrList []) ;;
  filter_params <- alloc (OValList []) ;;
  alloc (OQuery {| model_class := model_class_; _filters := filters;
                   _filter_params := filter_params; _order_by := None;
                   _limit := None; _offset := None |}).

(** [Model.select(cls, db)] *)
Definition Model_select (cls : Class) : M (list Obj) loc := Query___init__ cls.

(** [l.copy()] of a list object *)
Definition copy_strs (l : loc) : M (list Obj) loc :=
  x <- load_strs l ;; alloc (OStrList x).
Definition copy_vals (l : loc) : M (list Obj) loc :=
  x <- load_vals l ;; alloc (OValList x).

Definition _clone (self : loc) : M (list Obj) loc :=
  cls <- attr self model_class ;;
  query <- Query___init__ cls ;;
  self_filters <- attr self _filters ;;
  filters <- copy_strs self_filters ;;
  set_attr query (with_filters filters) ;;;
  self_filter_params <- attr self _filter_params ;;
  filter_params <- copy_vals self_filter_params ;;
  set_attr query (with_filter_params filter_params) ;;;
  order_by_ <- attr self _order_by ;;
  set_attr query (with_order_by order_by_) ;;;
  limit_ <- attr self _limit ;;
  set_attr query (with_limit limit_) ;;;
  offset_ <- attr self _offset ;;
  set_attr query (with_offset offset_) ;;;
  ret query.

(** [l.extend(xs)] and [l.append(x)] on list objects *)
Definition extend_strs (l : loc) (xs : list string) : M (list Obj) unit :=
  x <- load_strs l ;; store l (OStrList (x ++ xs)).
Definition append_str (l : loc) (s : string) : M (list Obj) unit :=
  x <- load_strs l ;; store l (OStrList (x ++ [s])).
Definition append_val (l : loc) (v : Value) : M (list Obj) unit :=
  x <- load_vals l ;; store l (OValList (x ++ [v])).

(** [filter(self, *conditions)] *)
Definition Query_filter (self : loc) (conditions : list string) : M (list Obj) loc :=
  query <- _clone self ;;
  filters <- attr query _filters ;;
  extend_strs filters conditions ;;;
  ret query.

(** The loop of [filter_by] over [kwargs.items()] *)
Fixpoint filter_by_loop (self query : loc) (items : list (string * Value))
  : M (list Obj) unit :=
  match items with
  | [] => ret tt
  | (attr_name, value) :: rest =>
      cls <- attr self model_class ;;
      match dict_get attr_name (__fields__ cls) with
      | None =>
          raise (ValueError (__name__ cls +:+ " has no field named " +:+ attr_name))
      | Some field =>
          filters <- attr query _filters ;;
          append_str filters (name field +:+ " = ?") ;;;
          filter_params <- attr query _filter_params ;;
          append_val filter_params value ;;;
          filter_by_loop self query rest
      end
  end.

(** [filter_by(self, **kwargs)] *)
Definition Query_filter_by (self : loc) (kwargs : list (string * Value))
  : M (list Obj) loc :=
  query <- _clone self ;;
  filter_by_loop self query kwargs ;;;
  ret query.

(** [order_by(self, field_name, ascending=True)] *)
Definition Query_order_by (self : loc) (field_name : string) (ascending : bool)
  : M (list Obj) loc :=
  query <- _clone self ;;
  cls <- attr self model_class ;;
  match dict_get field_name (__fields__ cls) with
  | None =>
      raise (ValueError (__name__ cls +:+ " has no field named " +:+ field_name))
  | Some field =>
      let direction := if ascending then "ASC" else "DESC" in
      set_attr query (with_order_by (Some (name field +:+ " " +:+ direction))) ;;;
      ret query
  end.

(** [limit(self, limit)] *)
Definition Query_limit (self : loc) (limit_ : Z) : M (list Obj) loc :=
  query <- _clone self ;;
  set_attr query (with_limit (Some limit_)) ;;;
  ret query.

(** [offset(self, offset)] *)
Definition Query_offset (self : loc) (offset_ : Z) : M (list Obj) loc :=
  query <- _clone self ;;
  set_attr query (with_offset (Some offset_)) ;;;
  ret query.

(** Truth value of an optional string ([None] and the empty string are
    false). *)
Definition truthy_str (s : option string) : bool :=
  match s with
  | Some (String _ _) => true
  | _ => false
  end.

(** The statement [_build_sql] puts together from the attributes read. *)
Definition build_parts (cls : Class) (filters : list string)
    (order_by_ : option string) (limit_ offset_ : option Z) : list string :=
  let fields := map (fun kv => name (snd kv)) (__fields__ cls) in
  let select_sql :=
    "SELECT " +:+ String.concat ", " fields +:+ " FROM " +:+ __table__ cls in
  let sql_parts := [select_sql] in
  let sql_parts :=
    match filters with
    | [] => sql_parts
    | _ :: _ => sql_parts ++ ["WHERE " +:+ String.concat " AND " filters]
    end in
  let sql_parts :=
    if truthy_str order_by_
    then sql_parts ++ ["ORDER BY " +:+ match order_by_ with Some s => s | None => "" end]
    else sql_parts in
  let sql_parts :=
    match limit_ with
    | Some n => sql_parts ++ ["LIMIT " +:+ str_of_int n]
    | None => sql_parts
    end in
  let sql_parts :=
    match offset_ with
    | Some m =>
        let sql_parts :=
          match limit_ with
          | None => sql_parts ++ ["LIMIT -1"]
          | Some _ => sql_parts
          end in
        sql_parts ++ ["OFFSET " +:+ str_of_int m]
    | None => sql_parts
    end in
  sql_parts.

(** [_build_sql(self)]: the statement and its parameters *)
Definition _build_sql (self : loc) : M (list Obj) (string * list Value) :=
  cls <- attr self model_class ;;
  filters_ref <- attr self _filters ;;
  filters <- load_strs filters_ref ;;
  order_by_ <- attr self _order_by ;;
  limit_ <- attr self _limit ;;
  offset_ <- attr self _offset ;;
  params_ref <- attr self _filter_params ;;
  params <- load_vals params_ref ;;
  ret (String.concat " " (build_parts cls filters order_by_ limit_ offset_),
       params).

(** The loop of [_row_to_model]: the keyword arguments taken from a row *)
Fixpoint row_kwargs (items : list (string * Field)) (row : list (string * Value))
    (model_kwargs : list (string * Value)) : list (string * Value) :=
  match items with
  | [] => model_kwargs
  | (field_name, field) :: rest =>
      match dict_get (name field) row with
      | Some v => row_kwargs rest row (dict_set field_name v model_kwargs)
      | None => row_kwargs rest row model_kwargs
      end
  end.

(** [_row_to_model(self, row)], for the class of the query *)
Definition _row_to_model (cls : Class) (row : list (string * Value))
  : result Model :=
  Model___init__ cls (row_kwargs (__fields__ cls) row []).

(** ** The storage interface ([orm/db.py]) and what runs on it *)

(** What [sqlite3]'s cursor holds after a statement: the row identifier of the
    last insert and the rows to fetch, each a sequence of named columns. *)
Record Cursor := {
  lastrowid : Z;
  rows : list (list (string * Value))
}.

(** [dict(row)] of an [sqlite3.Row] *)
Definition dict_of_row (row : list (string * Value)) : list (string * Value) :=
  fold_left (fun d kv => dict_set (fst kv) (snd kv) d) row [].

(** [cursor.fetchone()] *)
Definition fetchone (cursor : Cursor) : option (list (string * Value)) :=
  head (rows cursor).

(** Truth value of a row or of a dictionary: it has an entry. *)
Definition truthy_row (row : list (string * Value)) : bool :=
  match row with [] => false | _ :: _ => true end.

Section Storage.

(** The SQL engine: its state, and what executing a statement with its
    parameters gives. *)
Variable Store : Type.
Variable sqlite_execute :
  Store -> string -> list Value -> result Cursor * Store.

(** A [Database] object; [_cursor] is [None] until [connect]. *)
Record Database := {
  db_url : string;
  _cursor : option Store
}.

(** [Database.execute(sql, params)] *)
Definition Database_execute (sql : string) (params : list Value)
  : M Database Cursor :=
  fun self =>
    match _cursor self with
    | None => (Raise (RuntimeError "Database connection not established"), self)
    | Some st =>
        let '(r, st') := sqlite_execute st sql params in
        (r, {| db_url := db_url self; _cursor := Some st' |})
    end.

(** [Database.fetch_one(sql, params)] *)
Definition Database_fetch_one (sql : string) (params : list Value)
  : M Database (option (list (string * Value))) :=
  cursor <- Database_execute sql params ;;
  match fetchone cursor with
  | Some row => if truthy_row row then ret (Some (dict_of_row row)) else ret None
  | None => ret None
  end.

(** [Database.fetch_all(sql, params)] *)
Definition Database_fetch_all (sql : string) (params : list Value)
  : M Database (list (list (string * Value))) :=
  cursor <- Database_execute sql params ;;
  ret (map dict_of_row (rows cursor)).

(** *** Persistence of a record ([orm/models.py])

    The state is the record [self] and the database. *)

(** [setattr(self, field._attr_name, value)] on the record of the state *)
Definition set_self (field : Field) (value : Value) : M (Model * Database) unit :=
  fun st =>
    match setattr (fst st) field value with
    | Ok self => (Ok tt, (self, snd st))
    | Raise e => (Raise e, st)
    end.

(** The fields [_insert] lists: all but a primary-key field still [None] *)
Definition insert_fields (self : Model) : list Field :=
  List.filter
    (fun field => negb (primary_key field && is_None (getattr self field)))
    (dict_values (__fields__ (__class__ self))).

Definition insert_sql (self : Model) : string :=
  let fields := insert_fields self in
  let field_names := map name fields in
  let placeholders := String.concat ", " (repeat "?" (length fields)) in
  "INSERT INTO " +:+ __table__ (__class__ self) +:+ " ("
    +:+ String.concat ", " field_names +:+ ") VALUES (" +:+ placeholders +:+ ")".

Definition _insert : M (Model * Database) unit :=
  self <- gets fst ;;
  let fields := insert_fields self in
  let values := map (getattr self) fields in
  cursor <- on_snd (Database_execute (insert_sql self) values) ;;
  self <- gets fst ;;
  match __primary_key__ (__class__ self) with
  | Some pk =>
      if is_None (getattr self pk)
      then set_self pk (VInt (lastrowid cursor))
      else ret tt
  | None => ret tt
  end.

Definition update_sql (self : Model) (pk : Field) : string :=
  let update_fields :=
    List.filter (fun field => negb (primary_key field))
      (dict_values (__fields__ (__class__ self))) in
  let update_set :=
    String.concat ", " (map (fun field => name field +:+ " = ?") update_fields) in
  "UPDATE " +:+ __table__ (__class__ self) +:+ " SET " +:+ update_set
    +:+ " WHERE " +:+ name pk +:+ " = ?".

Definition _update : M (Model * Database) unit :=
  self <- gets fst ;;
  match __primary_key__ (__class__ self) with
  | None => raise (ValueError (__name__ (__class__ self) +:+ " has no primary key"))
  | Some pk =>
      let update_fields :=
        List.filter (fun field => negb (primary_key field))
          (dict_values (__fields__ (__class__ self))) in
      let values := map (getattr self) update_fields in
      let pk_value := getattr self pk in
      on_snd (Database_execute (update_sql self pk) (values ++ [pk_value])) ;;;
      ret tt
  end.

(** [Model.save(self, db)] *)
Definition Model_save : M (Model * Database) unit :=
  self <- gets fst ;;
  match __primary_key__ (__class__ self) with
  | Some pk =>
      let pk_value := getattr self pk in
      if is_None pk_value then _insert else _update
  | None => _insert
  end.

Definition delete_sql (cls : Class) (pk : Field) : string :=
  "DELETE FROM " +:+ __table__ cls +:+ " WHERE " +:+ name pk +:+ " = ?".

(** [Model.delete(self, db)] *)
Definition Model_delete : M (Model * Database) unit :=
  self <- gets fst ;;
  match __primary_key__ (__class__ self) with
  | None => raise (ValueError (__name__ (__class__ self) +:+ " has no primary key"))
  | Some pk =>
      let pk_value := getattr self pk in
      on_snd (Database_execute (delete_sql (__class__ self) pk) [pk_value]) ;;;
      set_self pk VNone
  end.

(** *** Running a query

    The state is the heap of query objects and the database. *)

(** [Query.all(self)] *)
Definition Query_all (self : loc) : M (list Obj * Database) (list Model) :=
  built <- on_fst (_build_sql self) ;;
  let '(sql, params) := built in
  rows_ <- on_snd (Database_fetch_all sql params) ;;
  cls <- on_fst (attr self model_class) ;;
  lift (fold_right (fun row acc =>
          rbind (_row_to_model cls row) (fun m =>
          rbind acc (fun ms => Ok (m :: ms)))) (Ok []) rows_).

(** [Query.first(self)] *)
Definition Query_first (self : loc) : M (list Obj * Database) (option Model) :=
  query <- on_fst (_clone self) ;;
  on_fst (set_attr query (with_limit (Some 1%Z))) ;;;
  built <- on_fst (_build_sql query) ;;
  let '(sql, params) := built in
  row <- on_snd (Database_fetch_one sql params) ;;
  match row with
  | Some row =>
      if truthy_row row then
        cls <- on_fst (attr self model_class) ;;
        m <- lift (_row_to_model cls row) ;;
        ret (Some m)
      else ret None
  | None => ret None
  end.

(** [Model.get(cls, db, id)] *)
Definition Model_get (cls : Class) (id : Value)
  : M (list Obj * Database) (option Model) :=
  match __primary_key__ cls with
  | None => raise (ValueError (__name__ cls +:+ " has no primary key"))
  | Some pk =>
      query0 <- on_fst (Model_select cls) ;;
      query <- on_fst (Query_filter_by query0 [(_attr_name pk, id)]) ;;
      Query_first query
  end.

(** The statement of the specification for [get]: select, filter by the
    primary key, take the first. *)
Definition get_spec (cls : Class) (pk : Field) (id : Value)
  : M (list Obj * Database) (option Model) :=
  base <- on_fst (Model_select cls) ;;
  filtered <- on_fst (Query_filter_by base [(_attr_name pk, id)]) ;;
  Query_first filtered.

End Storage.

Arguments Database : clear implicits.
Arguments db_url {Store} _.
Arguments _cursor {Store} _.
Arguments Build_Database {Store} _ _.
Arguments Database_execute {Store} sqlite_execute sql params _.
Arguments Database_fetch_one {Store} sqlite_execute sql params _.
Arguments Database_fetch_all {Store} sqlite_execute sql params _.
Arguments set_self {Store} field value _.
Arguments _insert {Store} sqlite_execute _.
Arguments _update {Store} sqlite_execute _.
Arguments Model_save {Store} sqlite_execute _.
Arguments Model_delete {Store} sqlite_execute _.
Arguments Query_all {Store} sqlite_execute self _.
Arguments Query_first {Store} sqlite_execute self _.
Arguments Model_get {Store} sqlite_execute cls id _.
Arguments get_spec {Store} sqlite_execute cls pk id _.

(** ** What the specification says, in its own terms *)

(** The state of a query: what its object and its two lists hold. *)
Record QueryState := {
  target : Class;
  filters_of : list string;
  params_of : list Value;
  order_of : option string;
  limit_of : option Z;
  offset_of : option Z
}.

(** The state of the query at [q] in heap [h], when [q] is a query whose
    lists are there. *)
Definition view (h : list Obj) (q : loc) : option QueryState :=
  match h !! q with
  | Some (OQuery o) =>
      match h !! _filters o, h !! _filter_params o with
      | Some (OStrList fs), Some (OValList ps) =>
          Some {| target := model_class o; filters_of := fs; params_of := ps;
                  order_of := _order_by o; limit_of := _limit o;
                  offset_of := _offset o |}
      | _, _ => None
      end
  | _ => None
  end.

(** The requested changes of state, one per builder call. *)
Definition add_filters (conditions : list string) (v : QueryState) : QueryState :=
  {| target := target v; filters_of := filters_of v ++ conditions;
     params_of := params_of v; order_of := order_of v;
     limit_of := limit_of v; offset_of := offset_of v |}.

Definition add_equalities (columns : list string) (values : list Value)
    (v : QueryState) : QueryState :=
  {| target := target v;
     filters_of := filters_of v ++ map (fun c => c +:+ " = ?") columns;
     params_of := params_of v ++ values; order_of := order_of v;
     limit_of := limit_of v; offset_of := offset_of v |}.

Definition replace_order (o : string) (v : QueryState) : QueryState :=
  {| target := target v; filters_of := filters_of v; params_of := params_of v;
     order_of := Some o; limit_of := limit_of v; offset_of := offset_of v |}.

Definition replace_limit (n : Z) (v : QueryState) : QueryState :=
  {| target := target v; filters_of := filters_of v; params_of := params_of v;
     order_of := order_of v; limit_of := Some n; offset_of := offset_of v |}.

Definition replace_offset (n : Z) (v : QueryState) : QueryState :=
  {| target := target v; filters_of := filters_of v; params_of := params_of v;
     order_of := order_of v; limit_of := limit_of v; offset_of := Some n |}.

(** Resolving the keys of [filter_by] against the schema: the column of each
    key, or the error of the first key that is no field. *)
Fixpoint resolve (cls : Class) (keys : list string) : result (list string) :=
  match keys with
  | [] => Ok []
  | k :: rest =>
      match dict_get k (__fields__ cls) with
      | None => Raise (ValueError (__name__ cls +:+ " has no field named " +:+ k))
      | Some f => rbind (resolve cls rest) (fun cols => Ok (name f :: cols))
      end
  end.

(** The heap is only extended: every object there before is as it was. *)
Definition extends (h h' : list Obj) : Prop := exists ext, h' = h ++ ext.

(** The clauses of a compiled [SELECT], in the order of the specification. *)
Definition select_clause (cls : Class) : string :=
  "SELECT " +:+ String.concat ", " (map name (dict_values (__fields__ cls)))
    +:+ " FROM " +:+ __table__ cls.

Definition where_clause (filters : list string) : list string :=
  match filters with
  | [] => []
  | _ :: _ => ["WHERE " +:+ String.concat " AND " filters]
  end.

Definition order_clause (order : option string) : list string :=
  match order with
  | Some o => ["ORDER BY " +:+ o]
  | None => []
  end.

Definition limit_clause (limit_ offset_ : option Z) : list string :=
  match limit_, offset_ with
  | Some n, _ => ["LIMIT " +:+ str_of_int n]
  | None, Some _ => ["LIMIT -1"]
  | None, None => []
  end.

Definition offset_clause (offset_ : option Z) : list string :=
  match offset_ with
  | Some m => ["OFFSET " +:+ str_of_int m]
  | None => []
  end.

Definition select_statement (v : QueryState) : string :=
  String.concat " "
    (select_clause (target v)
       :: where_clause (filters_of v) ++ order_clause (order_of v)
       ++ limit_clause (limit_of v) (offset_of v) ++ offset_clause (offset_of v)).

(** An ordering that is set names a column: [order_by] never stores the
    empty string. *)
Definition order_set (v : QueryState) : Prop := order_of v <> Some "".

(** What [__set__] stores for a value it accepts. *)
Definition stored (f : Field) (value : Value) : Value :=
  match field_class f with
  | BooleanField => if isinstance_int value then VBool (bool_of value) else value
  | _ => value
  end.

(** The keyword arguments that name no declared field. *)
Definition unexpected (cls : Class) (kwargs : list (string * Value)) : list string :=
  List.filter (fun k => negb (dict_contains k (__fields__ cls))) (dict_keys kwargs).

(** The keyword arguments that name a declared field. *)
Definition expected (cls : Class) (kwargs : list (string * Value))
  : list (string * Value) :=
  List.filter (fun kv => dict_contains (fst kv) (__fields__ cls)) kwargs.

(** The last field marked as primary key, in declaration order. *)
Definition last_primary_key (fields : list (string * Field)) : option Field :=
  last (List.filter primary_key (dict_values fields)).

(** The invariant of a declared class. *)
Definition wf_class (cls : Class) : Prop :=
  List.NoDup (dict_keys (__fields__ cls))
  /\ (forall k f, In (k, f) (__fields__ cls) -> _attr_name f = k)
  /\ __primary_key__ cls = last_primary_key (__fields__ cls).

(** The fields of a class dictionary, in order. *)
Fixpoint field_items (items : list (string * Attr Field)) : list (string * Field) :=
  match items with
  | [] => []
  | (k, AField f) :: rest => (k, f) :: field_items rest
  | (_, AOther) :: rest => field_items rest
  end.

(** ** The record types of the test suite and of the demonstration *)

(** A field constructor call without [name]. *)
Definition new_field (c : FieldClass) (pk nullable_ : bool) (default_ : Value)
  : FieldArgs :=
  {| arg_class := c; arg_name := None; arg_primary_key := pk;
     arg_nullable := nullable_; arg_default := default_ |}.

Definition no_class : Class :=
  {| __name__ := ""; __table__ := ""; __fields__ := []; __primary_key__ := None |}.

Definition class_of (def : ClassDef) : Class :=
  match declare def with Ok cls => cls | Raise _ => no_class end.

(** [TestModel] of [tests/test_orm.py] *)
Definition TestModel_def : ClassDef :=
  {| def_name := "TestModel";
     def_table := Some "test_models";
     def_body :=
       [("id", AField (new_field IntegerField true true VNone));
        ("name", AField (new_field (StringField 100) false false VNone));
        ("description", AField (new_field (StringField 500) false true VNone));
        ("active", AField (new_field BooleanField false true (VBool true)));
        ("price", AField (new_field FloatField false true (VFloat 0%float)))] |}.

Definition TestModel : Class := Eval vm_compute in class_of TestModel_def.

(** [User] of [main.py] *)
Definition User_def : ClassDef :=
  {| def_name := "User";
     def_table := Some "users";
     def_body :=
       [("id", AField (new_field IntegerField true true VNone));
        ("username", AField (new_field (StringField 50) false false VNone));
        ("email", AField (new_field (StringField 100) false false VNone));
        ("password", AField (new_field (StringField 100) false false VNone));
        ("is_active", AField (new_field BooleanField false true (VBool true)));
        ("created_at", AField (new_field (DateTimeField false true) false true VNone));
        ("updated_at", AField (new_field (DateTimeField false true) false true VNone));
        ("balance", AField (new_field FloatField false true (VFloat 0%float)))] |}.

Definition User : Class := Eval vm_compute in class_of User_def.

(** A record type with two fields marked as primary key. *)
Definition Pair_def : ClassDef :=
  {| def_name := "Pair";
     def_table := None;
     def_body :=
       [("left", AField (new_field IntegerField true true VNone));
        ("right", AField (new_field IntegerField true true VNone))] |}.

Definition Pair : Class := Eval vm_compute in class_of Pair_def.

(** A record type whose primary key is a string. *)
Definition Tag_def : ClassDef :=
  {| def_name := "Tag";
     def_table := None;
     def_body :=
       [("code", AField (new_field (StringField 10) true true VNone));
        ("label", AField (new_field (StringField 50) false true VNone))] |}.

Definition Tag : Class := Eval vm_compute in class_of Tag_def.

(** A record type whose primary key is declared not nullable. *)
Definition Strict_def : ClassDef :=
  {| def_name := "Strict";
     def_table := None;
     def_body :=
       [("id", AField (new_field IntegerField true false VNone));
        ("label", AField (new_field (StringField 50) false true VNone))] |}.

Definition Strict : Class := Eval vm_compute in class_of Strict_def.

(** A record type without a primary key. *)
Definition Note_def : ClassDef :=
  {| def_name := "Note";
     def_table := None;
     def_body :=
       [("text", AField (new_field (StringField 50) false true VNone));
        ("helper", AOther)] |}.

Definition Note : Class := Eval vm_compute in class_of Note_def.

(** A storage engine that records the statements it is given, numbers the
    rows it inserts and answers every statement with the rows [reply]. *)
Definition recording (reply : list (list (string * Value)))
    (st : list (string * list Value)) (sql : string) (params : list Value)
  : result Cursor * list (string * list Value) :=
  (Ok {| lastrowid := Z.of_nat (length st) + 1; rows := reply |},
   st ++ [(sql, params)]).

(** A connected database with nothing recorded yet. *)
Definition fresh_db : Database (list (string * list Value)) :=
  {| db_url := "test.db"; _cursor := Some [] |}.

Definition field_of (cls : Class) (k : string) : Field :=
  match dict_get k (__fields__ cls) with
  | Some f => f
  | None => __set_name__ (new_field BaseField false true VNone) k
  end.

(** The heap after [_clone]: the two lists [Query.__init__] made, the new
    query, and the copies of the lists of the original. *)
Definition cloned (h : list Obj) (q : Query) (fs : list string)
    (ps : list Value) : list Obj :=
  [OStrList []; OValList [];
   OQuery {| model_class := model_class q; _filters := length h + 3;
             _filter_params := length h + 4; _order_by := _order_by q;
             _limit := _limit q; _offset := _offset q |};
   OStrList fs; OValList ps].

(** A builder call that returns: the result is a query that was not in the
    heap before, its state is [v'], every object of the heap before is as it
    was, and so the query it was called on has the state it had. *)
Definition returns_new (h : list Obj) (self : loc)
    (run : result loc * list Obj) (v' : QueryState) : Prop :=
  exists q h',
    run = (Ok q, h')
    /\ length h <= q
    /\ extends h h'
    /\ view h' q = Some v'
    /\ view h' self = view h self.

(** A builder call that raises: the heap before is as it was. *)
Definition raises_unchanged (h : list Obj) (self : loc)
    (run : result loc * list Obj) (e : Exn) : Prop :=
  exists h',
    run = (Raise e, h')
    /\ extends h h'
    /\ view h' self = view h self.

(** The state of a query just made by [select]. *)
Definition initial (cls : Class) : QueryState :=
  {| target := cls; filters_of := []; params_of := []; order_of := None;
     limit_of := None; offset_of := None |}.

(** The fields a class statement marks as primary key, in declaration order. *)
Definition marked_primary_key (def : ClassDef) : list Field :=
  List.filter primary_key (dict_values (field_items (cls_dict (type_new def)))).

(** The heap after [TestModel.select(db)] on an empty heap: the query is at
    location 2. *)
Definition selected_heap : list Obj :=
  Eval vm_compute in snd (Model_select TestModel []).

(** The heap after [offset(2)] on that query: the new query is at location 5. *)
Definition paged_heap : list Obj :=
  Eval vm_compute in snd (Query_offset 2 2 selected_heap).

(** A row of the table of [TestModel], as the storage returns it. *)
Definition item_row : list (string * Value) :=
  [("id", VInt 7); ("name", VStr "Test Item"); ("description", VNone);
   ("active", VInt 1); ("price", VFloat 10.5%float)].

(** ** The rest of the package *)

(** *** [Query.count], [Query.exists], the dynamic [filter_by_<field>] *)

(** The outcome of a dictionary subscript [d[key]]: the value, or the
    [KeyError] a missing key raises. *)
Inductive keyed (A : Type) :=
| Got (a : A)
| KeyError (key : string).
Arguments Got {A} a.
Arguments KeyError {A} key.

(** The statement of [count]: the filters and nothing else. *)
Definition count_sql (cls : Class) (filters : list string) : string :=
  let sql := "SELECT COUNT(*) FROM " +:+ __table__ cls in
  match filters with
  | [] => sql
  | _ :: _ => sql +:+ " WHERE " +:+ String.concat " AND " filters
  end.

(** [name[n:]] *)
Fixpoint str_drop (n : nat) (s : string) : string :=
  match n, s with
  | O, _ => s
  | S n, String _ rest => str_drop n rest
  | S _, EmptyString => EmptyString
  end.

(** [Query.__getattr__(self, name)], which Python calls for a name that is no
    attribute of the query: the function it returns, or [AttributeError]. *)
Definition Query___getattr__ (self : loc) (name_ : string)
  : result (list (string * Value) -> M (list Obj) loc) :=
  if String.prefix "filter_by_" name_ then
    let field_name := str_drop 10 name_ in
    Ok (fun kwargs =>
          match dict_get field_name kwargs with
          | None => raise (ValueError ("Missing required parameter " +:+ field_name))
          | Some value => Query_filter_by self [(field_name, value)]
          end)
  else Raise (AttributeError ("Query object has no attribute " +:+ name_)).

(** [value > 0], as [exists] compares what [count] returned. *)
Definition greater_than_zero (value : Value) : result bool :=
  match value with
  | VInt n => Ok (0 <? n)%Z
  | VBool b => Ok b
  | VFloat x => Ok (PrimFloat.ltb 0%float x)
  | VNone =>
      Raise (TypeError "'>' not supported between instances of 'NoneType' and 'int'")
  | VStr _ =>
      Raise (TypeError "'>' not supported between instances of 'str' and 'int'")
  | VDateTime _ =>
      Raise (TypeError "'>' not supported between instances of 'datetime.datetime' and 'int'")
  end.

(** *** The life of a connection, and the tables ([orm/db.py], [orm/models.py]) *)

Section Lifecycle.

Variable Store : Type.
Variable sqlite_execute :
  Store -> string -> list Value -> result Cursor * Store.
(** Opening the database file, committing and rolling back a connection. *)
Variable sqlite_connect : string -> result Store.
Variable sqlite_commit : Store -> result unit * Store.
Variable sqlite_rollback : Store -> result unit * Store.
(** [str] of a float and of a datetime, as an f-string formats them. *)
Variable str_float : float -> string.
Variable str_datetime : datetime -> string.

(** [Query.count(self)] *)
Definition Query_count (self : loc)
  : M (list Obj * Database Store) (keyed Value) :=
  cls <- on_fst (attr self model_class) ;;
  params_ref <- on_fst (attr self _filter_params) ;;
  params <- on_fst (load_vals params_ref) ;;
  filters_ref <- on_fst (attr self _filters) ;;
  filters <- on_fst (load_strs filters_ref) ;;
  row <- on_snd (Database_fetch_one sqlite_execute (count_sql cls filters) params) ;;
  match row with
  | Some row =>
      if truthy_row row then
        match dict_get "COUNT(*)" row with
        | Some value => ret (Got value)
        | None => ret (KeyError "COUNT(*)")
        end
      else ret (Got (VInt 0))
  | None => ret (Got (VInt 0))
  end.

(** [Query.exists(self)] *)
Definition Query_exists (self : loc)
  : M (list Obj * Database Store) (keyed bool) :=
  counted <- Query_count self ;;
  match counted with
  | Got value => b <- lift (greater_than_zero value) ;; ret (Got b)
  | KeyError key => ret (KeyError key)
  end.

(** [Database(db_url)]: not connected. *)
Definition Database___init__ (url : string) : Database Store :=
  {| db_url := url; _cursor := None |}.

(** [Database.connect(self)]: the connection and its cursor are set
    together, and cleared together by [close]. *)
Definition Database_connect : M (Database Store) unit :=
  fun self =>
    match sqlite_connect (db_url self) with
    | Ok st => (Ok tt, {| db_url := db_url self; _cursor := Some st |})
    | Raise e => (Raise e, self)
    end.

(** [Database.close(self)] *)
Definition Database_close : M (Database Store) unit :=
  fun self => (Ok tt, {| db_url := db_url self; _cursor := None |}).

(** [Database.commit(self)] *)
Definition Database_commit : M (Database Store) unit :=
  fun self =>
    match _cursor self with
    | None => (Raise (RuntimeError "Database connection not established"), self)
    | Some st =>
        let '(r, st') := sqlite_commit st in
        (r, {| db_url := db_url self; _cursor := Some st' |})
    end.

(** [Database.rollback(self)] *)
Definition Database_rollback : M (Database Store) unit :=
  fun self =>
    match _cursor self with
    | None => (Raise (RuntimeError "Database connection not established"), self)
    | Some st =>
        let '(r, st') := sqlite_rollback st in
        (r, {| db_url := db_url self; _cursor := Some st' |})
    end.

(** [Database.get_cursor(self)] *)
Definition Database_get_cursor : M (Database Store) Store :=
  fun self =>
    match _cursor self with
    | None => (Raise (RuntimeError "Database connection not established"), self)
    | Some st => (Ok st, self)
    end.

(** [Database.__enter__(self)] *)
Definition Database___enter__ : M (Database Store) unit := Database_connect.

(** [Database.__exit__(self, exc_type, exc_val, exc_tb)]; [failed] says that
    [exc_type] is not [None].  The connection's own [rollback] and [commit]
    are called, without the guard of the methods above. *)
Definition Database___exit__ (failed : bool) : M (Database Store) unit :=
  fun self =>
    match _cursor self with
    | None =>
        (Raise (AttributeError
                  (if failed
                   then "'NoneType' object has no attribute 'rollback'"
                   else "'NoneType' object has no attribute 'commit'")), self)
    | Some st =>
        let '(r, st') := (if failed then sqlite_rollback st else sqlite_commit st) in
        match r with
        | Ok _ => Database_close {| db_url := db_url self; _cursor := Some st' |}
        | Raise e => (Raise e, {| db_url := db_url self; _cursor := Some st' |})
        end
    end.

(** The statement [with Database(url) as db: body], next to a state [S] of
    the program: [__enter__], the body, then [__exit__], which returns
    [None], so that an exception of the body is raised again. *)
Definition with_Database {S A} (url : string) (body : M (S * Database Store) A)
  : M (S * Database Store) A :=
  fun st =>
    match Database___enter__ (Database___init__ url) with
    | (Raise e, db) => (Raise e, (fst st, db))
    | (Ok _, db) =>
        match body (fst st, db) with
        | (Ok a, (s, db)) =>
            match Database___exit__ false db with
            | (Ok _, db) => (Ok a, (s, db))
            | (Raise e, db) => (Raise e, (s, db))
            end
        | (Raise e, (s, db)) =>
            match Database___exit__ true db with
            | (Ok _, db) => (Raise e, (s, db))
            | (Raise e', db) => (Raise e', (s, db))
            end
        end
    end.

(** [str(default)] of a default that is no string *)
Definition str_of_default (value : Value) : string :=
  match value with
  | VInt n => str_of_int n
  | VBool b => if b then "True" else "False"
  | VFloat x => str_float x
  | VDateTime d => str_datetime d
  | VStr s => s
  | VNone => "None"
  end.

(** The column definition [create_table] writes for a field *)
Definition column_sql (field : Field) : result string :=
  rbind (db_type field) (fun type_ =>
  let field_sql := name field +:+ " " +:+ type_ in
  let field_sql :=
    if primary_key field then field_sql +:+ " PRIMARY KEY" else field_sql in
  let field_sql :=
    if negb (nullable field) then field_sql +:+ " NOT NULL" else field_sql in
  let field_sql :=
    if negb (is_None (default field)) then
      if isinstance_str (default field)
      then field_sql +:+ " DEFAULT '" +:+ str_of_default (default field) +:+ "'"
      else field_sql +:+ " DEFAULT " +:+ str_of_default (default field)
    else field_sql in
  Ok field_sql).

(** The loop of [create_table] over the fields *)
Fixpoint columns_sql (fields : list Field) : result (list string) :=
  match fields with
  | [] => Ok []
  | field :: rest =>
      rbind (column_sql field) (fun field_sql =>
      rbind (columns_sql rest) (fun fields_sql =>
      Ok (field_sql :: fields_sql)))
  end.

(** [Model.create_table(cls, db)] *)
Definition create_table (cls : Class) : M (Database Store) unit :=
  fields_sql <- lift (columns_sql (dict_values (__fields__ cls))) ;;
  let create_sql :=
    "CREATE TABLE IF NOT EXISTS " +:+ __table__ cls +:+ " ("
      +:+ String.concat ", " fields_sql +:+ ")" in
  Database_execute sqlite_execute create_sql [] ;;;
  Database_commit.

(** [Model.drop_table(cls, db)] *)
Definition drop_table (cls : Class) : M (Database Store) unit :=
  Database_execute sqlite_execute ("DROP TABLE IF EXISTS " +:+ __table__ cls) [] ;;;
  ret tt.

End Lifecycle.

Arguments Query_count {Store} sqlite_execute self _.
Arguments Query_exists {Store} sqlite_execute self _.
Arguments Database___init__ {Store} url.
Arguments Database_connect {Store} sqlite_connect _.
Arguments Database_close {Store} _.
Arguments Database_commit {Store} sqlite_commit _.
Arguments Database_rollback {Store} sqlite_rollback _.
Arguments Database_get_cursor {Store} _.
Arguments Database___enter__ {Store} sqlite_connect _.
Arguments Database___exit__ {Store} sqlite_commit sqlite_rollback failed _.
Arguments with_Database {Store} sqlite_connect sqlite_commit sqlite_rollback {S A} url body _.
Arguments create_table {Store} sqlite_execute sqlite_commit str_float str_datetime cls _.
Arguments drop_table {Store} sqlite_execute cls _.

(** *** Further notions for the properties *)

(** The row that holds the column values of a record. *)
Definition row_of (self : Model) : list (string * Value) :=
  map (fun kv => (name (snd kv), getattr self (snd kv)))
    (__fields__ (__class__ self)).

(** The value the constructor gives the field under key [k]. *)
Definition given (kwargs : list (string * Value)) (k : string) (f : Field) : Value :=
  dict_get_default k (default f) kwargs.

(** A record holds, for every field of its class, a value the field
    accepts, in the form the field stores. *)
Definition well_typed (self : Model) : Prop :=
  forall k f,
    In (k, f) (__fields__ (__class__ self)) ->
    validate f (getattr self f) = Ok tt
    /\ (nullable f = false -> getattr self f <> VNone)
    /\ stored f (getattr self f) = getattr self f.

(** A record holds exactly the declared fields, in declaration order. *)
Definition holds_fields (self : Model) : Prop :=
  dict_keys (__dict__ self) = dict_keys (__fields__ (__class__ self)).

(** The value a row gives a field: the one under the field's column name,
    and the field's default when the row has no such column. *)
Definition column_value (row : list (string * Value)) (f : Field) : Value :=
  dict_get_default (name f) (default f) row.

(** A field accepts a value: its validation passes, and the value is not
    [None] when the field is not nullable. *)
Definition accepts (f : Field) (value : Value) : Prop :=
  validate f value = Ok tt /\ (nullable f = false -> value <> VNone).

(** Every declared field accepts the value the row gives it. *)
Definition row_accepted (cls : Class) (row : list (string * Value)) : Prop :=
  forall k f, In (k, f) (__fields__ cls) -> accepts f (column_value row f).

(** The record hydrated from a row: it holds the declared fields, in
    declaration order, each with the value the row gives it in the form the
    field stores. *)
Definition hydrated (cls : Class) (row : list (string * Value)) : Model :=
  {| __class__ := cls;
     __dict__ :=
       map (fun kv => (fst kv, stored (snd kv) (column_value row (snd kv))))
         (__fields__ cls) |}.

(** The statement of a count, clause by clause: the table, then the filters. *)
Definition count_statement (v : QueryState) : string :=
  String.concat " "
    (("SELECT COUNT(*) FROM " +:+ __table__ (target v))
       :: where_clause (filters_of v)).

(** What every operation raises on a database that is not connected. *)
Definition not_connected : Exn :=
  RuntimeError "Database connection not established".

(** The states of two queries that differ at most in order, limit and
    offset. *)
Definition same_filters (v1 v2 : QueryState) : Prop :=
  target v1 = target v2
  /\ filters_of v1 = filters_of v2
  /\ params_of v1 = params_of v2.

(** A builder call that returns a query of state [v']. *)
Definition yields (run : result loc * list Obj) (v' : QueryState) : Prop :=
  exists q h', run = (Ok q, h') /\ view h' q = Some v'.

(** An engine as [recording], with a connection that starts empty and
    records commits and rollbacks as statements. *)
Definition recording_connect (url : string)
  : result (list (string * list Value)) := Ok [].
Definition recording_commit (st : list (string * list Value))
  : result unit * list (string * list Value) := (Ok tt, st ++ [("COMMIT", [])]).
Definition recording_rollback (st : list (string * list Value))
  : result unit * list (string * list Value) := (Ok tt, st ++ [("ROLLBACK", [])]).

(** A [TestModel] record as the constructor builds it, the same after its
    first [save] on [fresh_db], and a record with a key of its own. *)
Definition new_item : Model :=
  Eval vm_compute in
    match Model___init__ TestModel [("name", VStr "Item 1")] with
    | Ok m => m
    | Raise _ => blank TestModel
    end.

Definition saved_item : Model * Database (list (string * list Value)) :=
  Eval vm_compute in snd (Model_save (recording []) (new_item, fresh_db)).

Definition keyed_item : Model :=
  Eval vm_compute in
    match Model___init__ TestModel [("id", VInt 7); ("name", VStr "Item 1")] with
    | Ok m => m
    | Raise _ => blank TestModel
    end.


(** The heap after [filter_by(active=1)] on the query with an offset: the new
    query is at location 10. *)
Definition filtered_heap : list Obj :=
  Eval vm_compute in snd (Query_filter_by 5 [("active", VInt 1)] paged_heap).

(** A row of the table of [User] whose [created_at] column holds text. *)
Definition user_row : list (string * Value) :=
  [("id", VInt 1); ("username", VStr "alice"); ("email", VStr "alice@example.com");
   ("password", VStr "secret"); ("is_active", VInt 1);
   ("created_at", VStr "2024-01-15 10:30:00"); ("updated_at", VNone);
   ("balance", VFloat 100%float)].

(** * Properties *)

(** ** Dictionaries *)

Section DictFacts.
Context {V : Type}.
Implicit Types (d : list (string * V)) (k : string) (v : V).

Lemma dict_get_In k v d : dict_get k d = Some v -> In (k, v) d.
Proof.
  induction d as [|[k' v'] d IH]; simpl; [discriminate|].
  destruct (String.eqb_spec k k') as [->|Hne].
  - intros [= ->]. now left.
  - intros H. right. now apply IH.
Qed.

Lemma dict_get_None k d : dict_get k d = None <-> ~ In k (dict_keys d).
Proof.
  induction d as [|[k' v'] d IH]; simpl.
  - tauto.
  - destruct (String.eqb_spec k k') as [->|Hne].
    + split; [discriminate|]. intros H. exfalso. apply H. now left.
    + rewrite IH. split; [intros H [E|I]; [congruence|tauto] | tauto].
Qed.

Lemma dict_get_Some_key k v d : dict_get k d = Some v -> In k (dict_keys d).
Proof.
  intros H. apply dict_get_In in H. apply (in_map fst) in H. exact H.
Qed.

Lemma In_dict_get k v d :
  List.NoDup (dict_keys d) -> In (k, v) d -> dict_get k d = Some v.
Proof.
  induction d as [|[k' v'] d IH]; simpl; [tauto|].
  intros Hnd [E|I].
  - injection E as -> ->. now rewrite String.eqb_refl.
  - apply NoDup_cons_iff in Hnd as [Hk Hnd].
    destruct (String.eqb_spec k k') as [->|Hne].
    + exfalso. apply Hk. apply (in_map fst) in I. exact I.
    + now apply IH.
Qed.

Lemma dict_contains_In k d :
  dict_contains k d = true <-> In k (dict_keys d).
Proof.
  unfold dict_contains. destruct (dict_get k d) eqn:E.
  - split; [intros _; eapply dict_get_Some_key; eauto | reflexivity].
  - apply dict_get_None in E. split; [discriminate | tauto].
Qed.

Lemma dict_set_fresh k v d :
  ~ In k (dict_keys d) -> dict_set k v d = d ++ [(k, v)].
Proof.
  induction d as [|[k' v'] d IH]; simpl; [reflexivity|].
  intros H. destruct (String.eqb_spec k k') as [->|Hne]; [tauto|].
  rewrite IH; [reflexivity | tauto].
Qed.

Lemma dict_set_keys k v d :
  forall k', In k' (dict_keys (dict_set k v d)) <-> k' = k \/ In k' (dict_keys d).
Proof.
  induction d as [|[k0 v0] d IH]; simpl; intros k'.
  - intuition congruence.
  - destruct (String.eqb_spec k k0) as [->|Hne]; simpl.
    + intuition congruence.
    + rewrite IH. intuition congruence.
Qed.

Lemma dict_set_NoDup k v d :
  List.NoDup (dict_keys d) -> List.NoDup (dict_keys (dict_set k v d)).
Proof.
  induction d as [|[k0 v0] d IH]; simpl; intros Hnd.
  - constructor; [simpl; tauto | constructor].
  - apply NoDup_cons_iff in Hnd as [Hk Hnd].
    destruct (String.eqb_spec k k0) as [->|Hne]; simpl.
    + now constructor.
    + constructor; [|now apply IH].
      rewrite dict_set_keys. intros [E|I]; [congruence|tauto].
Qed.

Lemma dict_get_set k' k v d :
  dict_get k' (dict_set k v d) = if String.eqb k' k then Some v else dict_get k' d.
Proof.
  induction d as [|[k0 v0] d IH]; simpl.
  - reflexivity.
  - destruct (String.eqb_spec k k0) as [->|Hne]; simpl.
    + destruct (String.eqb k' k0); reflexivity.
    + rewrite IH. destruct (String.eqb_spec k' k0) as [->|Hne'].
      * destruct (String.eqb_spec k0 k); [congruence|reflexivity].
      * reflexivity.
Qed.

Lemma dict_get_del k' k d :
  dict_get k' (dict_del k d) = if String.eqb k k' then None else dict_get k' d.
Proof.
  unfold dict_del. induction d as [|[k0 v0] d IH]; simpl.
  - now destruct (String.eqb k k').
  - destruct (String.eqb_spec k k0) as [->|Hne]; simpl.
    + rewrite IH. destruct (String.eqb_spec k0 k') as [->|Hne'].
      * reflexivity.
      * destruct (String.eqb_spec k' k0); [congruence|reflexivity].
    + rewrite IH. destruct (String.eqb_spec k' k0) as [->|Hne'].
      * destruct (String.eqb_spec k k0); [congruence|reflexivity].
      * reflexivity.
Qed.

Lemma dict_del_keys k d :
  dict_keys (dict_del k d)
  = List.filter (fun k' => negb (String.eqb k k')) (dict_keys d).
Proof.
  unfold dict_del, dict_keys. induction d as [|[k0 v0] d IH]; simpl; [reflexivity|].
  destruct (String.eqb k k0); simpl; now rewrite IH.
Qed.

Lemma dict_set_nonempty k v d : dict_set k v d <> [].
Proof.
  destruct d as [|[k0 v0] d]; simpl; [discriminate|].
  destruct (String.eqb k k0); discriminate.
Qed.

End DictFacts.

(** ** Declared classes *)

Lemma namespace_NoDup body : List.NoDup (dict_keys (namespace body)).
Proof.
  unfold namespace.
  assert (H : forall (acc : list (string * Attr FieldArgs)),
             List.NoDup (dict_keys acc) ->
             List.NoDup (dict_keys
               (fold_left (fun ns kv => dict_set (fst kv) (snd kv) ns) body acc))).
  { induction body as [|[k a] body IH]; simpl; intros acc Hacc; [exact Hacc|].
    apply IH. now apply dict_set_NoDup. }
  apply H. constructor.
Qed.

Lemma bind_attr_keys items : dict_keys (map bind_attr items) = dict_keys items.
Proof.
  unfold dict_keys. rewrite map_map. apply map_ext.
  intros [k [f|]]; reflexivity.
Qed.

Lemma field_items_keys items k :
  In k (dict_keys (field_items items)) -> In k (dict_keys items).
Proof.
  induction items as [|[k0 [f|]] items IH]; simpl; tauto.
Qed.

Lemma field_items_NoDup items :
  List.NoDup (dict_keys items) -> List.NoDup (dict_keys (field_items items)).
Proof.
  induction items as [|[k0 [f|]] items IH]; simpl; intros Hnd.
  - constructor.
  - apply NoDup_cons_iff in Hnd as [Hk Hnd].
    constructor; [|now apply IH].
    intros H. apply Hk. now apply field_items_keys.
  - apply NoDup_cons_iff in Hnd as [_ Hnd]. now apply IH.
Qed.

Lemma field_items_bound body k f :
  In (k, f) (field_items (map bind_attr body)) -> _attr_name f = k.
Proof.
  induction body as [|[k0 [a|]] body IH]; simpl; [tauto| |exact IH].
  unfold bind_attr at 1; simpl. intros [E|I]; [|now apply IH].
  injection E as <- <-. reflexivity.
Qed.

Lemma last_primary_key_cons k f fields :
  last_primary_key ((k, f) :: fields)
  = match last_primary_key fields with
    | Some p => Some p
    | None => if primary_key f then Some f else None
    end.
Proof.
  unfold last_primary_key. simpl.
  destruct (primary_key f); [|now destruct (last _)].
  destruct (List.filter primary_key (dict_values fields)) as [|p l] eqn:E.
  - reflexivity.
  - rewrite last_cons. destruct (last (p :: l)) eqn:El; [reflexivity|].
    apply last_None in El. discriminate.
Qed.

Lemma collect_fields_spec items :
  List.NoDup (dict_keys items) ->
  forall fields pk,
    (forall k, In k (dict_keys items) -> ~ In k (dict_keys fields)) ->
    collect_fields items fields pk
    = (fields ++ field_items items,
       match last_primary_key (field_items items) with
       | Some p => Some p
       | None => pk
       end).
Proof.
  induction items as [|[k [f|]] items IH]; simpl; intros Hnd fields pk Hfresh.
  - now rewrite app_nil_r.
  - apply NoDup_cons_iff in Hnd as [Hk Hnd].
    rewrite dict_set_fresh by (apply Hfresh; now left).
    rewrite IH; [| exact Hnd |].
    + rewrite <- app_assoc. simpl. rewrite last_primary_key_cons.
      destruct (last_primary_key (field_items items)); [reflexivity|].
      destruct (primary_key f); reflexivity.
    + intros k' Hk'. unfold dict_keys. rewrite map_app, in_app_iff. simpl.
      intros [I|[E|[]]]; [|congruence].
      eapply Hfresh; [right; exact Hk'|exact I].
  - apply NoDup_cons_iff in Hnd as [Hk Hnd].
    apply IH; [exact Hnd|]. intros k' Hk'. apply Hfresh. now right.
Qed.

(** The decorator keeps the fields of the class body in declaration order and
    takes the last one marked as the primary key. *)
Lemma declare_fields def cls :
  declare def = Ok cls ->
  __fields__ cls = field_items (map bind_attr (namespace (def_body def)))
  /\ __primary_key__ cls = last_primary_key (__fields__ cls).
Proof.
  unfold declare, model_fields, type_new; simpl.
  rewrite collect_fields_spec.
  - intros [= <-]; simpl. split; [reflexivity|].
    now destruct (last_primary_key _).
  - rewrite bind_attr_keys. apply namespace_NoDup.
  - intros k _ [].
Qed.

Lemma declare_wf def cls : declare def = Ok cls -> wf_class cls.
Proof.
  intros H. destruct (declare_fields _ _ H) as [Hf Hpk].
  split; [|split].
  - rewrite Hf. apply field_items_NoDup.
    rewrite bind_attr_keys. apply namespace_NoDup.
  - intros k f. rewrite Hf. apply field_items_bound.
  - exact Hpk.
Qed.

Lemma last_In {A} (l : list A) x : last l = Some x -> In x l.
Proof.
  induction l as [|a l IH]; simpl; [discriminate|].
  destruct l as [|b l]; [intros [= ->]; now left|].
  intros H. right. now apply IH.
Qed.

Lemma wf_primary_key cls pk :
  wf_class cls -> __primary_key__ cls = Some pk ->
  In (_attr_name pk, pk) (__fields__ cls) /\ primary_key pk = true.
Proof.
  intros (Hnd & Hattr & Hpk) H. rewrite Hpk in H.
  apply last_In in H. apply filter_In in H as [Hin Hflag].
  unfold dict_values in Hin. apply in_map_iff in Hin as ([k f] & <- & Hin).
  simpl in *. rewrite (Hattr _ _ Hin). tauto.
Qed.

Lemma wf_no_primary_key cls k f :
  wf_class cls -> __primary_key__ cls = None ->
  In (k, f) (__fields__ cls) -> primary_key f = false.
Proof.
  intros (Hnd & Hattr & Hpk) H Hin. rewrite Hpk in H.
  apply last_None in H.
  destruct (primary_key f) eqn:E; [|reflexivity].
  assert (I : In f (List.filter primary_key (dict_values (__fields__ cls)))).
  { apply filter_In. split; [|exact E].
    unfold dict_values. apply in_map_iff. now exists (k, f). }
  rewrite H in I. destruct I.
Qed.

Lemma wf_lookup cls k f :
  wf_class cls -> In (k, f) (__fields__ cls) ->
  dict_get k (__fields__ cls) = Some f.
Proof. intros (Hnd & _ & _) Hin. now apply In_dict_get. Qed.

(** ** Setting a field *)

Lemma validate_ValueError f v e :
  validate f v = Raise e -> exists msg, e = ValueError msg.
Proof.
  unfold validate. destruct (field_class f); intros H;
    repeat match type of H with
           | (if ?c then _ else _) = _ => destruct c
           end;
    first [discriminate | injection H as <-; eauto].
Qed.

Lemma validate_None f : validate f VNone = Ok tt.
Proof. unfold validate. now destruct (field_class f). Qed.

Lemma setattr_ValueError inst f v e :
  setattr inst f v = Raise e -> exists msg, e = ValueError msg.
Proof.
  unfold setattr, __set__, BooleanField___set__, Field___set__.
  intros H.
  assert (G : (if (negb (nullable f) && is_None v)%bool
               then Raise (ValueError (_attr_name f +:+ " cannot be None"))
               else rbind (validate f v) (fun _ => Ok inst)) = Raise e).
  { destruct (field_class f); destruct (negb (nullable f) && is_None v)%bool;
      try exact H; destruct (validate f v); simpl in *; congruence. }
  destruct (negb (nullable f) && is_None v)%bool.
  - injection G as <-. eauto.
  - destruct (validate f v) eqn:E; simpl in G; [discriminate|].
    injection G as <-. eapply validate_ValueError; eauto.
Qed.

Lemma setattr_Ok inst f v inst' :
  setattr inst f v = Ok inst' ->
  inst' = store_attr inst (_attr_name f) (stored f v).
Proof.
  unfold setattr, __set__, BooleanField___set__, Field___set__, stored.
  destruct (field_class f); destruct (negb (nullable f) && is_None v)%bool;
    try discriminate; destruct (validate f v); simpl; congruence.
Qed.

(** Whether a value is accepted does not depend on the record it is set on. *)
Lemma setattr_any inst1 inst2 f v :
  match setattr inst1 f v, setattr inst2 f v with
  | Ok _, Ok _ => True
  | Raise e1, Raise e2 => e1 = e2
  | _, _ => False
  end.
Proof.
  unfold setattr, __set__, BooleanField___set__, Field___set__.
  destruct (field_class f); destruct (negb (nullable f) && is_None v)%bool;
    try reflexivity; destruct (validate f v); simpl; auto.
Qed.

Lemma setattr_None_not_nullable inst f :
  nullable f = false ->
  setattr inst f VNone = Raise (ValueError (_attr_name f +:+ " cannot be None")).
Proof.
  intros H. unfold setattr, __set__, BooleanField___set__, Field___set__.
  rewrite H. now destruct (field_class f).
Qed.

Lemma setattr_None_nullable inst f :
  nullable f = true ->
  setattr inst f VNone = Ok (store_attr inst (_attr_name f) VNone).
Proof.
  intros H. unfold setattr, __set__, BooleanField___set__, Field___set__.
  rewrite H, validate_None. now destruct (field_class f).
Qed.

Lemma getattr_store inst f v :
  getattr (store_attr inst (_attr_name f) v) f = v.
Proof.
  unfold getattr, __get__, store_attr, dict_get_default; simpl.
  now rewrite dict_get_set, String.eqb_refl.
Qed.

(** ** Constructing a record *)

Lemma init_fields_ValueError items : forall self kw e,
  init_fields items self kw = Raise e -> exists msg, e = ValueError msg.
Proof.
  induction items as [|[k f] items IH]; simpl; intros self kw e; [discriminate|].
  destruct (setattr self f _) eqn:E; simpl.
  - apply IH.
  - intros [= <-]. eapply setattr_ValueError; eauto.
Qed.

Lemma init_fields_class items : forall self kw self' kw',
  init_fields items self kw = Ok (self', kw') -> __class__ self' = __class__ self.
Proof.
  induction items as [|[k f] items IH]; simpl; intros self kw self' kw'.
  - now intros [= <- _].
  - destruct (setattr self f _) eqn:E; simpl; [|discriminate].
    intros H. apply IH in H. apply setattr_Ok in E. subst a. exact H.
Qed.

(** The keyword arguments left are those that name no field processed. *)
Lemma init_fields_rest items : forall self kw self' kw',
  init_fields items self kw = Ok (self', kw') ->
  kw' = List.filter (fun kv => negb (dict_contains (fst kv) items)) kw.
Proof.
  induction items as [|[k f] items IH]; simpl; intros self kw self' kw'.
  - intros [= _ <-]. induction kw as [|kv kw IHkw]; simpl; congruence.
  - destruct (setattr self f _) eqn:E; simpl; [|discriminate].
    intros H. apply IH in H. subst kw'. unfold dict_del.
    clear. induction kw as [|[k0 v0] kw IHkw]; simpl; [reflexivity|].
    unfold dict_contains at 2; simpl.
    rewrite (String.eqb_sym k0 k).
    destruct (String.eqb k k0); simpl; [exact IHkw|].
    fold (dict_contains k0 items).
    destruct (dict_contains k0 items); simpl; now rewrite IHkw.
Qed.

(** Two sets of keyword arguments that give the fields the same values are
    processed alike. *)
Lemma init_fields_agree items : forall self kw1 kw2,
  (forall k, In k (dict_keys items) -> dict_get k kw1 = dict_get k kw2) ->
  match init_fields items self kw1, init_fields items self kw2 with
  | Ok (s1, _), Ok (s2, _) => s1 = s2
  | Raise e1, Raise e2 => e1 = e2
  | _, _ => False
  end.
Proof.
  induction items as [|[k f] items IH]; simpl; intros self kw1 kw2 Hag.
  - reflexivity.
  - unfold dict_get_default. rewrite (Hag k) by now left.
    destruct (setattr self f _) eqn:E; simpl; [|reflexivity].
    apply IH. intros k' Hk'. rewrite !dict_get_del.
    destruct (String.eqb k k'); [reflexivity|]. apply Hag. now right.
Qed.

Lemma dict_get_filter_key {V} (g : string -> bool) k (d : list (string * V)) :
  dict_get k (List.filter (fun kv => g (fst kv)) d)
  = if g k then dict_get k d else None.
Proof.
  induction d as [|[k0 v0] d IH]; simpl.
  - now destruct (g k).
  - destruct (g k0) eqn:G; simpl.
    + destruct (String.eqb_spec k k0) as [->|Hne]; [now rewrite G|exact IH].
    + destruct (String.eqb_spec k k0) as [->|Hne]; [now rewrite IH, G|exact IH].
Qed.

(** What a record holds after its fields have been set: each field the
    value given for it, or its default, as [__set__] stores it. *)
Lemma init_fields_stored items : forall self kw self' kw',
  List.NoDup (dict_keys items) ->
  (forall k f, In (k, f) items -> _attr_name f = k) ->
  init_fields items self kw = Ok (self', kw') ->
  (forall k f, In (k, f) items ->
     getattr self' f = stored f (dict_get_default k (default f) kw))
  /\ (forall k, ~ In k (dict_keys items) ->
        dict_get k (__dict__ self') = dict_get k (__dict__ self)).
Proof.
  induction items as [|[k0 f0] items IH]; simpl; intros self kw self' kw' Hnd Hb.
  - intros [= <- _]. split; [tauto|reflexivity].
  - apply NoDup_cons_iff in Hnd as [Hk Hnd].
    destruct (setattr self f0 _) eqn:E; simpl; [|discriminate].
    intros H. apply setattr_Ok in E. subst a.
    assert (Hf0 : _attr_name f0 = k0) by (apply Hb; now left).
    rewrite Hf0 in H.
    destruct (IH _ _ _ _ Hnd (fun k f I => Hb k f (or_intror I)) H) as [IH1 IH2].
    split.
    + intros k f [Eq|I].
      * injection Eq as <- <-. unfold getattr, __get__, dict_get_default.
        rewrite Hf0, (IH2 k0 Hk). simpl.
        now rewrite dict_get_set, String.eqb_refl.
      * rewrite (IH1 k f I). unfold dict_get_default. rewrite dict_get_del.
        destruct (String.eqb_spec k0 k) as [->|Hne]; [|reflexivity].
        exfalso. apply Hk. apply (in_map fst) in I. exact I.
    + intros k Hk'. rewrite IH2 by tauto. simpl. rewrite dict_get_set.
      destruct (String.eqb_spec k k0) as [->|Hne]; [tauto|reflexivity].
Qed.

(** A field whose value is rejected makes the construction fail. *)
Lemma init_fields_rejected items : forall self kw k f,
  List.NoDup (dict_keys items) ->
  In (k, f) items ->
  (forall inst, is_Ok (setattr inst f (dict_get_default k (default f) kw)) = false) ->
  exists msg, init_fields items self kw = Raise (ValueError msg).
Proof.
  induction items as [|[k0 f0] items IH]; simpl; intros self kw k f Hnd Hin Hrej.
  - destruct Hin.
  - apply NoDup_cons_iff in Hnd as [Hk Hnd]. destruct Hin as [Eq|I].
    + injection Eq as -> ->. specialize (Hrej self).
      destruct (setattr self f _) eqn:E; [discriminate|]. simpl.
      destruct (setattr_ValueError _ _ _ _ E) as [msg ->]. eauto.
    + destruct (setattr self f0 _) eqn:E; simpl.
      * apply (IH _ _ k f Hnd I). unfold dict_get_default in *.
        rewrite dict_get_del.
        destruct (String.eqb_spec k0 k) as [->|Hne]; [|exact Hrej].
        exfalso. apply Hk. apply (in_map fst) in I. exact I.
      * destruct (setattr_ValueError _ _ _ _ E) as [msg ->]. eauto.
Qed.

Lemma init_rejected cls k f kwargs :
  List.NoDup (dict_keys (__fields__ cls)) ->
  In (k, f) (__fields__ cls) ->
  (forall inst, is_Ok (setattr inst f (dict_get_default k (default f) kwargs)) = false) ->
  exists msg, Model___init__ cls kwargs = Raise (ValueError msg).
Proof.
  intros Hnd Hin Hrej.
  destruct (init_fields_rejected _ (blank cls) kwargs k f Hnd Hin Hrej) as [msg E].
  exists msg. unfold Model___init__. now rewrite E.
Qed.

Lemma init_fields_app pre : forall post self kw,
  init_fields (pre ++ post) self kw
  = rbind (init_fields pre self kw) (fun sk => init_fields post (fst sk) (snd sk)).
Proof.
  induction pre as [|[k f] pre IH]; simpl; intros post self kw; [reflexivity|].
  destruct (setattr self f _); simpl; [apply IH|reflexivity].
Qed.

Lemma init_fields_pre_rest pre : forall self kw self' kw' k,
  init_fields pre self kw = Ok (self', kw') ->
  ~ In k (dict_keys pre) -> dict_get k kw' = dict_get k kw.
Proof.
  intros self kw self' kw' k H Hk. rewrite (init_fields_rest _ _ _ _ _ H).
  rewrite (dict_get_filter_key (fun k => negb (dict_contains k pre))).
  destruct (dict_contains k pre) eqn:E; [|reflexivity].
  apply dict_contains_In in E. tauto.
Qed.

Lemma filter_key_keys {V} (g : string -> bool) (d : list (string * V)) :
  dict_keys (List.filter (fun kv => g (fst kv)) d) = List.filter g (dict_keys d).
Proof.
  unfold dict_keys. induction d as [|[k v] d IH]; simpl; [reflexivity|].
  destruct (g k); simpl; now rewrite IH.
Qed.

Lemma filter_key_disjoint {V} (g : string -> bool) (d : list (string * V)) :
  List.filter (fun kv => negb (g (fst kv))) (List.filter (fun kv => g (fst kv)) d) = [].
Proof.
  induction d as [|[k v] d IH]; simpl; [reflexivity|].
  destruct (g k) eqn:G; simpl; [now rewrite G|exact IH].
Qed.

(** The construction, once the declared fields have been processed. *)
Lemma init_expected cls kwargs :
  Model___init__ cls (expected cls kwargs)
  = rbind (init_fields (__fields__ cls) (blank cls) (expected cls kwargs))
      (fun sk => Ok (fst sk)).
Proof.
  unfold Model___init__.
  destruct (init_fields _ _ _) as [[s rest]|e] eqn:E; simpl; [|reflexivity].
  apply init_fields_rest in E. unfold expected in E.
  rewrite (filter_key_disjoint (fun k => dict_contains k (__fields__ cls))) in E.
  now subst rest.
Qed.

(** ** Claims about declaration and construction *)

(** C1, as the code has it: declaring a record type never fails, also with
    two or more fields marked as primary key.  The class keeps every declared
    field, in declaration order, and its primary key is the last field
    marked. *)
Theorem model_fields_last_primary_key (def : ClassDef) :
  exists cls,
    declare def = Ok cls
    /\ __fields__ cls = field_items (cls_dict (type_new def))
    /\ __primary_key__ cls = last (marked_primary_key def).
Proof.
  destruct (declare def) as [cls|e] eqn:E.
  - exists cls. destruct (declare_fields _ _ E) as [Hf Hpk].
    split; [reflexivity|]. split; [exact Hf|].
    rewrite Hpk. unfold last_primary_key, marked_primary_key. now rewrite Hf.
  - unfold declare, model_fields in E.
    destruct (collect_fields _ _ _); discriminate.
Qed.

(** C1, the claim refuted: the record type [Pair] marks two fields as primary
    key and its declaration returns the class; no error is raised. *)
Lemma Pair_declared_with_two_primary_keys :
  length (marked_primary_key Pair_def) = 2%nat
  /\ declare Pair_def = Ok Pair
  /\ (forall e, declare Pair_def <> Raise e).
Proof.
  split; [reflexivity|]. split; [reflexivity|]. intros e. discriminate.
Qed.

(** C2, the code at the failing input: [User.created_at] is a
    [DateTimeField(auto_now_add=True)]; constructing a [User] without a value
    for it leaves the field [None], no timestamp is taken. *)
Lemma auto_now_add_not_applied :
  declare User_def = Ok User
  /\ field_class (field_of User "created_at") = DateTimeField false true
  /\ exists self,
       Model___init__ User
         [("username", VStr "johndoe"); ("email", VStr "john@example.com");
          ("password", VStr "secure123"); ("balance", VFloat 100.5%float)]
       = Ok self
       /\ getattr self (field_of User "created_at") = VNone.
Proof.
  split; [reflexivity|]. split; [reflexivity|].
  eexists. split; reflexivity.
Qed.

(** C6: a field declared [nullable=False] rejects [None] with the
    not-nullable error whatever its class, on every assignment (the
    constructor and later mutation go through the same [setattr]).  In a
    declared record type, a construction that gives such a field [None], or
    omits it while its default is [None], fails with a validation error: the
    not-nullable error of that field as soon as the fields declared before it
    have been accepted. *)
Theorem not_nullable_rejects_None :
  (forall f inst,
     nullable f = false ->
     setattr inst f VNone
     = Raise (ValueError (_attr_name f +:+ " cannot be None")))
  /\ (forall def cls k f kwargs,
        declare def = Ok cls ->
        In (k, f) (__fields__ cls) ->
        nullable f = false ->
        dict_get_default k (default f) kwargs = VNone ->
        (exists msg, Model___init__ cls kwargs = Raise (ValueError msg))
        /\ (forall pre post s kw,
              __fields__ cls = pre ++ (k, f) :: post ->
              init_fields pre (blank cls) kwargs = Ok (s, kw) ->
              Model___init__ cls kwargs
              = Raise (ValueError (_attr_name f +:+ " cannot be None")))).
Proof.
  split; [intros f inst; apply setattr_None_not_nullable|].
  intros def cls k f kwargs Hd Hin Hn Hv.
  destruct (declare_wf _ _ Hd) as (Hnd & Hb & _).
  split.
  - apply (init_rejected cls k f kwargs Hnd Hin).
    intros inst. now rewrite Hv, setattr_None_not_nullable.
  - intros pre post s kw Hsplit Hpre.
    unfold Model___init__. rewrite Hsplit, init_fields_app, Hpre. simpl.
    assert (Hk : ~ In k (dict_keys pre)).
    { rewrite Hsplit in Hnd. unfold dict_keys in Hnd. rewrite map_app in Hnd.
      simpl in Hnd. apply NoDup_remove_2 in Hnd.
      intros I. apply Hnd. apply in_app_iff. now left. }
    unfold dict_get_default in *.
    rewrite (init_fields_pre_rest _ _ _ _ _ k Hpre Hk), Hv.
    now rewrite setattr_None_not_nullable.
Qed.

(** On [TestModel]: [name] is not nullable, and a construction that omits it
    fails on it. *)
Lemma not_nullable_rejects_None_witness :
  setattr (blank TestModel) (field_of TestModel "name") VNone
  = Raise (ValueError "name cannot be None")
  /\ (exists msg, Model___init__ TestModel [("price", VInt 3)] = Raise (ValueError msg))
  /\ Model___init__ TestModel [("price", VInt 3)]
     = Raise (ValueError "name cannot be None").
Proof.
  destruct not_nullable_rejects_None as [Hset Hinit].
  split; [apply (Hset (field_of TestModel "name")); reflexivity|].
  destruct (Hinit TestModel_def TestModel "name" (field_of TestModel "name")
              [("price", VInt 3)]) as [Hfail Hmsg].
  - reflexivity.
  - right; left; reflexivity.
  - reflexivity.
  - reflexivity.
  - split; [exact Hfail|].
    eapply (Hmsg [("id", field_of TestModel "id")]); reflexivity.
Defined.

(** C9: on a [BooleanField], the integers 1 and 0 are stored as [True] and
    [False], any other integer is a validation error, and a boolean is stored
    as it is; the same holds for the value a constructor is given for the
    field. *)
Theorem boolean_field_coercion :
  (forall f inst,
     field_class f = BooleanField ->
     setattr inst f (VInt 1) = Ok (store_attr inst (_attr_name f) (VBool true))
     /\ setattr inst f (VInt 0) = Ok (store_attr inst (_attr_name f) (VBool false))
     /\ (forall n, n <> 0%Z -> n <> 1%Z ->
           setattr inst f (VInt n)
           = Raise (ValueError (_attr_name f +:+ " must be 0, 1, True, or False")))
     /\ (forall b,
           setattr inst f (VBool b) = Ok (store_attr inst (_attr_name f) (VBool b))))
  /\ (forall def cls k f kwargs,
        declare def = Ok cls ->
        In (k, f) (__fields__ cls) ->
        field_class f = BooleanField ->
        (dict_get k kwargs = Some (VInt 1) ->
           forall self, Model___init__ cls kwargs = Ok self ->
                        getattr self f = VBool true)
        /\ (dict_get k kwargs = Some (VInt 0) ->
              forall self, Model___init__ cls kwargs = Ok self ->
                           getattr self f = VBool false)
        /\ (forall b, dict_get k kwargs = Some (VBool b) ->
              forall self, Model___init__ cls kwargs = Ok self ->
                           getattr self f = VBool b)
        /\ (forall n, n <> 0%Z -> n <> 1%Z ->
              dict_get k kwargs = Some (VInt n) ->
              exists msg, Model___init__ cls kwargs = Raise (ValueError msg))).
Proof.
  split.
  - intros f inst Hc.
    unfold setattr, __set__, BooleanField___set__, validate. rewrite Hc.
    repeat split.
    + now destruct (nullable f).
    + now destruct (nullable f).
    + intros n H0 H1. simpl.
      destruct (Z.eqb_spec n 0); [contradiction|].
      destruct (Z.eqb_spec n 1); [contradiction|].
      now destruct (nullable f).
    + intros b. destruct (nullable f); simpl; now destruct b.
  - intros def cls k f kwargs Hd Hin Hc.
    destruct (declare_wf _ _ Hd) as (Hnd & Hb & _).
    assert (Hget : forall v self,
               dict_get k kwargs = Some v -> Model___init__ cls kwargs = Ok self ->
               getattr self f = stored f v).
    { intros v self Hv. unfold Model___init__.
      destruct (init_fields _ _ _) as [[s rest]|e] eqn:E; simpl; [|discriminate].
      destruct rest; [|discriminate]. intros [= <-].
      destruct (init_fields_stored _ _ _ _ _ Hnd Hb E) as [Hs _].
      rewrite (Hs k f Hin). unfold dict_get_default. now rewrite Hv. }
    unfold stored in Hget. rewrite Hc in Hget.
    repeat split.
    + intros Hv self Hs. now rewrite (Hget _ _ Hv Hs).
    + intros Hv self Hs. now rewrite (Hget _ _ Hv Hs).
    + intros b Hv self Hs. rewrite (Hget _ _ Hv Hs). simpl. now destruct b.
    + intros n H0 H1 Hv. apply (init_rejected cls k f kwargs Hnd Hin).
      intros inst. unfold dict_get_default. rewrite Hv.
      unfold setattr, __set__, BooleanField___set__, validate. rewrite Hc. simpl.
      destruct (Z.eqb_spec n 0); [contradiction|].
      destruct (Z.eqb_spec n 1); [contradiction|].
      now destruct (nullable f).
Qed.

(** On [TestModel]: [active=1] is stored as [True], [active=2] is rejected. *)
Lemma boolean_field_coercion_witness :
  setattr (blank TestModel) (field_of TestModel "active") (VInt 1)
  = Ok (store_attr (blank TestModel) "active" (VBool true))
  /\ (exists self,
        Model___init__ TestModel [("name", VStr "Item 1"); ("active", VInt 1)]
        = Ok self
        /\ getattr self (field_of TestModel "active") = VBool true)
  /\ (exists msg,
        Model___init__ TestModel [("name", VStr "Item 1"); ("active", VInt 2)]
        = Raise (ValueError msg)).
Proof.
  destruct boolean_field_coercion as [Hset Hinit].
  split; [apply (Hset (field_of TestModel "active")); reflexivity|].
  assert (Hd : declare TestModel_def = Ok TestModel) by reflexivity.
  assert (Hin : In ("active", field_of TestModel "active") (__fields__ TestModel))
    by (do 3 right; left; reflexivity).
  split.
  - destruct (Hinit _ _ _ _ [("name", VStr "Item 1"); ("active", VInt 1)]
                Hd Hin eq_refl) as (H1 & _).
    eexists. split; [reflexivity|]. apply H1; reflexivity.
  - destruct (Hinit _ _ _ _ [("name", VStr "Item 1"); ("active", VInt 2)]
                Hd Hin eq_refl) as (_ & _ & _ & Hn).
    apply (Hn 2%Z); [lia|lia|reflexivity].
Defined.

(** C10: a construction whose keyword arguments name something that is no
    declared field fails.  The declared fields are processed first: if one
    of them rejects its value, that validation error is raised, as it is
    without the extra arguments; otherwise a [TypeError] lists the unexpected
    names in the order given. *)
Theorem init_unexpected_kwargs (cls : Class) (kwargs : list (string * Value)) :
  unexpected cls kwargs <> [] ->
  match Model___init__ cls (expected cls kwargs) with
  | Ok _ =>
      Model___init__ cls kwargs
      = Raise (TypeError ("Unexpected keyword arguments: "
                          +:+ repr_str_list (unexpected cls kwargs)))
  | Raise e =>
      Model___init__ cls kwargs = Raise e /\ exists msg, e = ValueError msg
  end.
Proof.
  intros Hun. rewrite init_expected.
  pose proof (init_fields_agree (__fields__ cls) (blank cls)
                (expected cls kwargs) kwargs) as Hag.
  assert (Hsame : forall k, In k (dict_keys (__fields__ cls)) ->
            dict_get k (expected cls kwargs) = dict_get k kwargs).
  { intros k Hk. unfold expected.
    rewrite (dict_get_filter_key (fun k => dict_contains k (__fields__ cls))).
    apply dict_contains_In in Hk. now rewrite Hk. }
  specialize (Hag Hsame). unfold Model___init__.
  destruct (init_fields _ _ (expected cls kwargs)) as [[s1 r1]|e1] eqn:E1;
    destruct (init_fields _ _ kwargs) as [[s2 r2]|e2] eqn:E2;
    simpl; try contradiction.
  - apply init_fields_rest in E2.
    assert (Hkeys : dict_keys r2 = unexpected cls kwargs).
    { subst r2. unfold unexpected.
      apply (filter_key_keys (fun k => negb (dict_contains k (__fields__ cls)))). }
    destruct r2 as [|kv r2]; [now rewrite <- Hkeys in Hun|].
    now rewrite Hkeys.
  - subst e2. split; [reflexivity|]. eapply init_fields_ValueError; eauto.
Qed.

(** On [TestModel]: [colour] and [size] are no fields. *)
Lemma init_unexpected_kwargs_witness :
  Model___init__ TestModel
    [("name", VStr "Test Item"); ("colour", VStr "red"); ("size", VInt 3)]
  = Raise (TypeError "Unexpected keyword arguments: ['colour', 'size']").
Proof.
  apply (init_unexpected_kwargs TestModel
           [("name", VStr "Test Item"); ("colour", VStr "red"); ("size", VInt 3)]).
  discriminate.
Defined.

(** ** Claims about persistence *)


Lemma setattr_rowid inst f n :
  field_class f = IntegerField \/ field_class f = FloatField ->
  setattr inst f (VInt n) = Ok (store_attr inst (_attr_name f) (VInt n)).
Proof.
  unfold setattr, __set__, Field___set__, validate.
  intros [-> | ->]; simpl; now destruct (nullable f).
Qed.

Section Persistence.

Context {Store : Type}.
Variable exec : Store -> string -> list Value -> result Cursor * Store.

Lemma insert_run (self : Model) (db : Database Store) :
  _insert exec (self, db)
  = match Database_execute exec (insert_sql self)
            (map (getattr self) (insert_fields self)) db with
    | (Ok cursor, db') =>
        match __primary_key__ (__class__ self) with
        | Some pk =>
            if is_None (getattr self pk)
            then set_self pk (VInt (lastrowid cursor)) (self, db')
            else (Ok tt, (self, db'))
        | None => (Ok tt, (self, db'))
        end
    | (Raise e, db') => (Raise e, (self, db'))
    end.
Proof.
  unfold _insert, bind, gets, on_snd; simpl.
  destruct (Database_execute _ _ _ db) as [[cursor|e] db']; simpl; [|reflexivity].
  destruct (__primary_key__ (__class__ self)) as [pk|]; [|reflexivity].
  now destruct (is_None (getattr self pk)).
Qed.

Lemma update_run (self : Model) (db : Database Store) pk :
  __primary_key__ (__class__ self) = Some pk ->
  _update exec (self, db)
  = match Database_execute exec (update_sql self pk)
            (map (getattr self)
               (List.filter (fun field => negb (primary_key field))
                  (dict_values (__fields__ (__class__ self))))
             ++ [getattr self pk]) db with
    | (Ok _, db') => (Ok tt, (self, db'))
    | (Raise e, db') => (Raise e, (self, db'))
    end.
Proof.
  intros Hpk. unfold _update, bind, gets, on_snd, ret; simpl. rewrite Hpk; simpl.
  now destruct (Database_execute _ _ _ db) as [[cursor|e] db'].
Qed.


(** C8, as the code has it: on a record whose schema has a primary key,
    whatever the key field, [delete] executes
    [DELETE FROM <table> WHERE <column> = ?] with the key value.  A failure
    of the statement is raised and leaves the record as it was.  When the
    statement succeeds and the key field is nullable, the key is reset to
    [None]; when it is not nullable the reset is refused and the key keeps
    its value.  Without a primary key [delete] raises and the database is not
    used. *)
Theorem delete_resets_nullable_key (self : Model) (db : Database Store) :
  (forall pk,
     __primary_key__ (__class__ self) = Some pk ->
     match Database_execute exec
             ("DELETE FROM " +:+ __table__ (__class__ self) +:+ " WHERE "
              +:+ name pk +:+ " = ?") [getattr self pk] db with
     | (Ok _, db') =>
         if nullable pk then
           Model_delete exec (self, db)
           = (Ok tt, (store_attr self (_attr_name pk) VNone, db'))
           /\ getattr (store_attr self (_attr_name pk) VNone) pk = VNone
         else
           Model_delete exec (self, db)
           = (Raise (ValueError (_attr_name pk +:+ " cannot be None")), (self, db'))
     | (Raise e, db') => Model_delete exec (self, db) = (Raise e, (self, db'))
     end)
  /\ (__primary_key__ (__class__ self) = None ->
      Model_delete exec (self, db)
      = (Raise (ValueError (__name__ (__class__ self) +:+ " has no primary key")),
         (self, db))).
Proof.
  split.
  - intros pk Hpk.
    change ("DELETE FROM " +:+ __table__ (__class__ self) +:+ " WHERE "
            +:+ name pk +:+ " = ?") with (delete_sql (__class__ self) pk).
    unfold Model_delete, bind, gets, on_snd; cbn [fst snd].
    rewrite Hpk; cbn [fst snd].
    destruct (Database_execute _ _ _ db) as [[cursor|e] db']; [|reflexivity].
    unfold set_self; cbn [fst snd].
    destruct (nullable pk) eqn:Hn.
    + rewrite (setattr_None_nullable _ _ Hn).
      split; [reflexivity|apply getattr_store].
    + now rewrite (setattr_None_not_nullable _ _ Hn).
  - intros Hpk. unfold Model_delete, bind, gets; cbn [fst snd]. now rewrite Hpk.
Qed.

End Persistence.



(** Deleting a [TestModel] record resets its [id]; deleting a [Strict]
    record executes the statement as well; a [Note] has no primary key to
    delete by. *)
Lemma delete_resets_nullable_key_witness :
  Model_delete (recording []) (keyed_item, fresh_db)
  = (Ok tt,
     (store_attr keyed_item "id" VNone,
      {| db_url := "test.db";
         _cursor := Some [("DELETE FROM test_models WHERE id = ?", [VInt 7])] |}))
  /\ snd (snd (Model_delete (recording [])
                ({| __class__ := Strict;
                    __dict__ := [("id", VInt 5); ("label", VNone)] |}, fresh_db)))
     = {| db_url := "test.db";
          _cursor := Some [("DELETE FROM stricts WHERE id = ?", [VInt 5])] |}
  /\ Model_delete (recording [])
       ({| __class__ := Note; __dict__ := [("text", VStr "a")] |}, fresh_db)
     = (Raise (ValueError "Note has no primary key"),
        ({| __class__ := Note; __dict__ := [("text", VStr "a")] |}, fresh_db)).
Proof.
  split; [|split].
  - destruct (delete_resets_nullable_key (recording []) keyed_item fresh_db)
      as [Hdel _].
    exact (proj1 (Hdel (field_of TestModel "id") eq_refl)).
  - destruct (delete_resets_nullable_key (recording [])
                {| __class__ := Strict;
                   __dict__ := [("id", VInt 5); ("label", VNone)] |} fresh_db)
      as [Hdel _].
    exact (f_equal (fun run => snd (snd run)) (Hdel (field_of Strict "id") eq_refl)).
  - destruct (delete_resets_nullable_key (recording [])
                {| __class__ := Note; __dict__ := [("text", VStr "a")] |} fresh_db)
      as [_ Hno].
    apply Hno. reflexivity.
Defined.

(** C8, the claim refuted: [Strict] declares its primary key not nullable.
    Deleting a [Strict] record executes the [DELETE], and the reset of the
    key is then rejected: the key keeps its value. *)
Lemma delete_keeps_not_nullable_key :
  declare Strict_def = Ok Strict
  /\ exists self,
       Model___init__ Strict [("id", VInt 5)] = Ok self
       /\ Model_delete (recording []) (self, fresh_db)
          = (Raise (ValueError "id cannot be None"),
             (self,
              {| db_url := "test.db";
                 _cursor := Some [("DELETE FROM stricts WHERE id = ?", [VInt 5])] |}))
       /\ getattr self (field_of Strict "id") = VInt 5.
Proof.
  split; [reflexivity|]. eexists. repeat split; reflexivity.
Qed.

(** ** The heap of query objects *)

Lemma bind_Ok {S A B} (m : M S A) (k : A -> M S B) s a s' :
  m s = (Ok a, s') -> bind m k s = k a s'.
Proof. intros H. unfold bind. now rewrite H. Qed.

Lemma bind_Raise {S A B} (m : M S A) (k : A -> M S B) s e s' :
  m s = (Raise e, s') -> bind m k s = (Raise e, s').
Proof. intros H. unfold bind. now rewrite H. Qed.

Lemma lookup_old (h ext : list Obj) l o :
  h !! l = Some o -> (h ++ ext) !! l = Some o.
Proof. apply lookup_app_l_Some. Qed.

Lemma lookup_new (h ext : list Obj) k :
  (h ++ ext) !! (length h + k) = ext !! k.
Proof. rewrite lookup_app_r by lia. f_equal. lia. Qed.

Lemma insert_new (h ext : list Obj) k o :
  <[length h + k := o]> (h ++ ext) = h ++ <[k := o]> ext.
Proof. apply insert_app_r. Qed.

Lemma alloc_new (h ext : list Obj) o :
  alloc o (h ++ ext) = (Ok (length h + length ext), h ++ (ext ++ [o])).
Proof. unfold alloc. now rewrite length_app, <- app_assoc. Qed.

Lemma attr_base {A} (h : list Obj) l q (a : Query -> A) :
  h !! l = Some (OQuery q) -> attr l a h = (Ok (a q), h).
Proof. intros H. unfold attr, load_query. now rewrite H. Qed.

Lemma attr_old {A} (h ext : list Obj) l q (a : Query -> A) :
  h !! l = Some (OQuery q) -> attr l a (h ++ ext) = (Ok (a q), h ++ ext).
Proof. intros H. apply attr_base. now apply lookup_old. Qed.

Lemma attr_new {A} (h ext : list Obj) k q (a : Query -> A) :
  ext !! k = Some (OQuery q) ->
  attr (length h + k) a (h ++ ext) = (Ok (a q), h ++ ext).
Proof. intros H. apply attr_base. now rewrite lookup_new. Qed.

Lemma set_attr_new (h ext : list Obj) k q upd :
  ext !! k = Some (OQuery q) ->
  set_attr (length h + k) upd (h ++ ext)
  = (Ok tt, h ++ <[k := OQuery (upd q)]> ext).
Proof.
  intros H. unfold set_attr, load_query, store, modify.
  now rewrite lookup_new, H, insert_new.
Qed.

Lemma copy_strs_old (h ext : list Obj) l x :
  h !! l = Some (OStrList x) ->
  copy_strs l (h ++ ext)
  = (Ok (length h + length ext), h ++ (ext ++ [OStrList x])).
Proof.
  intros H. unfold copy_strs. erewrite bind_Ok; [apply alloc_new|].
  unfold load_strs. now rewrite (lookup_old _ _ _ _ H).
Qed.

Lemma copy_vals_old (h ext : list Obj) l x :
  h !! l = Some (OValList x) ->
  copy_vals l (h ++ ext)
  = (Ok (length h + length ext), h ++ (ext ++ [OValList x])).
Proof.
  intros H. unfold copy_vals. erewrite bind_Ok; [apply alloc_new|].
  unfold load_vals. now rewrite (lookup_old _ _ _ _ H).
Qed.

Lemma extend_strs_new (h ext : list Obj) k x xs :
  ext !! k = Some (OStrList x) ->
  extend_strs (length h + k) xs (h ++ ext)
  = (Ok tt, h ++ <[k := OStrList (x ++ xs)]> ext).
Proof.
  intros H. unfold extend_strs, bind, load_strs, store, modify.
  now rewrite lookup_new, H, insert_new.
Qed.

Lemma append_str_new (h ext : list Obj) k x s :
  ext !! k = Some (OStrList x) ->
  append_str (length h + k) s (h ++ ext)
  = (Ok tt, h ++ <[k := OStrList (x ++ [s])]> ext).
Proof.
  intros H. unfold append_str, bind, load_strs, store, modify.
  now rewrite lookup_new, H, insert_new.
Qed.

Lemma append_val_new (h ext : list Obj) k x v :
  ext !! k = Some (OValList x) ->
  append_val (length h + k) v (h ++ ext)
  = (Ok tt, h ++ <[k := OValList (x ++ [v])]> ext).
Proof.
  intros H. unfold append_val, bind, load_vals, store, modify.
  now rewrite lookup_new, H, insert_new.
Qed.

Lemma Query_init_run cls (h : list Obj) :
  Query___init__ cls h
  = (Ok (length h + 2),
     h ++ [OStrList []; OValList [];
           OQuery {| model_class := cls; _filters := length h;
                     _filter_params := length h + 1; _order_by := None;
                     _limit := None; _offset := None |}]).
Proof.
  unfold Query___init__, bind, alloc. rewrite !length_app, <- !app_assoc. simpl.
  now replace (length h + 1 + 1) with (length h + 2) by lia.
Qed.

Ltac run_step lem := erewrite bind_Ok; [|lem]; cbv beta.

Lemma clone_run (h : list Obj) self q fs ps :
  h !! self = Some (OQuery q) ->
  h !! _filters q = Some (OStrList fs) ->
  h !! _filter_params q = Some (OValList ps) ->
  _clone self h = (Ok (length h + 2), h ++ cloned h q fs ps).
Proof.
  intros Hq Hfs Hps. unfold _clone.
  run_step ltac:(apply attr_base; exact Hq).
  run_step ltac:(apply Query_init_run).
  run_step ltac:(apply attr_old; exact Hq).
  run_step ltac:(apply copy_strs_old; exact Hfs).
  run_step ltac:(apply set_attr_new; reflexivity).
  run_step ltac:(apply attr_old; exact Hq).
  run_step ltac:(apply copy_vals_old; exact Hps).
  run_step ltac:(apply set_attr_new; reflexivity).
  run_step ltac:(apply attr_old; exact Hq).
  run_step ltac:(apply set_attr_new; reflexivity).
  run_step ltac:(apply attr_old; exact Hq).
  run_step ltac:(apply set_attr_new; reflexivity).
  run_step ltac:(apply attr_old; exact Hq).
  run_step ltac:(apply set_attr_new; reflexivity).
  reflexivity.
Qed.

Lemma view_inv (h : list Obj) q v :
  view h q = Some v ->
  exists o,
    h !! q = Some (OQuery o)
    /\ h !! _filters o = Some (OStrList (filters_of v))
    /\ h !! _filter_params o = Some (OValList (params_of v))
    /\ target v = model_class o /\ order_of v = _order_by o
    /\ limit_of v = _limit o /\ offset_of v = _offset o.
Proof.
  unfold view. destruct (h !! q) as [[| |o]|] eqn:Hq; try discriminate.
  destruct (h !! _filters o) as [[fs| |]|] eqn:Hfs; try discriminate.
  destruct (h !! _filter_params o) as [[|ps|]|] eqn:Hps; try discriminate.
  intros [= <-]. exists o. simpl. repeat split; assumption || reflexivity.
Qed.

Lemma view_extends (h ext : list Obj) q v :
  view h q = Some v -> view (h ++ ext) q = Some v.
Proof.
  intros H. destruct (view_inv _ _ _ H) as (o & Hq & Hfs & Hps & _).
  revert H. unfold view.
  now rewrite Hq, Hfs, Hps, (lookup_old _ ext _ _ Hq),
    (lookup_old _ ext _ _ Hfs), (lookup_old _ ext _ _ Hps).
Qed.

Lemma view_keeps (h ext : list Obj) q :
  is_Some (view h q) -> view (h ++ ext) q = view h q.
Proof. intros [v H]. rewrite H. now apply view_extends. Qed.

Lemma view_new (h : list Obj) e0 e1 qc fs ps :
  _filters qc = length h + 3 ->
  _filter_params qc = length h + 4 ->
  view (h ++ [e0; e1; OQuery qc; OStrList fs; OValList ps]) (length h + 2)
  = Some {| target := model_class qc; filters_of := fs; params_of := ps;
            order_of := _order_by qc; limit_of := _limit qc;
            offset_of := _offset qc |}.
Proof.
  intros Hf Hp. unfold view. rewrite lookup_new. simpl.
  now rewrite Hf, Hp, !lookup_new.
Qed.

Lemma extends_app (h ext : list Obj) : extends h (h ++ ext).
Proof. now exists ext. Qed.

Lemma select_run cls (h : list Obj) :
  exists h',
    Model_select cls h = (Ok (length h + 2), h')
    /\ extends h h'
    /\ view h' (length h + 2) = Some (initial cls).
Proof.
  eexists. split; [apply Query_init_run|]. split; [apply extends_app|].
  unfold view. rewrite lookup_new. simpl.
  replace (length h) with (length h + 0) at 1 by lia.
  now rewrite !lookup_new.
Qed.

(** *** The builder calls, on a query whose state is [v] *)

Section Builders.

Variables (h : list Obj) (self : loc) (v : QueryState).
Hypothesis Hview : view h self = Some v.

Lemma filter_run conditions :
  returns_new h self (Query_filter self conditions h) (add_filters conditions v).
Proof.
  destruct (view_inv _ _ _ Hview) as (o & Hq & Hfs & Hps & Ht & Ho & Hl & Hoff).
  exists (length h + 2). eexists. split; [|split; [lia|split; [apply extends_app|]]].
  - unfold Query_filter.
    run_step ltac:(apply clone_run; eassumption).
    run_step ltac:(apply attr_new; reflexivity).
    run_step ltac:(apply extend_strs_new; reflexivity).
    reflexivity.
  - split; [|apply view_keeps; now rewrite Hview].
    simpl. rewrite view_new by reflexivity. unfold add_filters; simpl.
    now rewrite Ht, Ho, Hl, Hoff.
Qed.

Lemma limit_run n :
  returns_new h self (Query_limit self n h) (replace_limit n v).
Proof.
  destruct (view_inv _ _ _ Hview) as (o & Hq & Hfs & Hps & Ht & Ho & Hl & Hoff).
  exists (length h + 2). eexists. split; [|split; [lia|split; [apply extends_app|]]].
  - unfold Query_limit.
    run_step ltac:(apply clone_run; eassumption).
    run_step ltac:(apply set_attr_new; reflexivity).
    reflexivity.
  - split; [|apply view_keeps; now rewrite Hview].
    simpl. rewrite view_new by reflexivity. unfold replace_limit; simpl.
    now rewrite Ht, Ho, Hoff.
Qed.

Lemma offset_run n :
  returns_new h self (Query_offset self n h) (replace_offset n v).
Proof.
  destruct (view_inv _ _ _ Hview) as (o & Hq & Hfs & Hps & Ht & Ho & Hl & Hoff).
  exists (length h + 2). eexists. split; [|split; [lia|split; [apply extends_app|]]].
  - unfold Query_offset.
    run_step ltac:(apply clone_run; eassumption).
    run_step ltac:(apply set_attr_new; reflexivity).
    reflexivity.
  - split; [|apply view_keeps; now rewrite Hview].
    simpl. rewrite view_new by reflexivity. unfold replace_offset; simpl.
    now rewrite Ht, Ho, Hl.
Qed.

Lemma order_by_run field_name ascending :
  match dict_get field_name (__fields__ (target v)) with
  | Some f =>
      returns_new h self (Query_order_by self field_name ascending h)
        (replace_order (name f +:+ " " +:+ (if ascending then "ASC" else "DESC")) v)
  | None =>
      raises_unchanged h self (Query_order_by self field_name ascending h)
        (ValueError (__name__ (target v) +:+ " has no field named " +:+ field_name))
  end.
Proof.
  destruct (view_inv _ _ _ Hview) as (o & Hq & Hfs & Hps & Ht & Ho & Hl & Hoff).
  rewrite Ht.
  destruct (dict_get field_name (__fields__ (model_class o))) as [f|] eqn:E.
  - exists (length h + 2). eexists.
    split; [|split; [lia|split; [apply extends_app|]]].
    + unfold Query_order_by.
      run_step ltac:(apply clone_run; eassumption).
      run_step ltac:(apply attr_old; exact Hq).
      rewrite E.
      run_step ltac:(apply set_attr_new; reflexivity).
      reflexivity.
    + split; [|apply view_keeps; now rewrite Hview].
      simpl. rewrite view_new by reflexivity. unfold replace_order; simpl.
      now rewrite Ht, Hl, Hoff.
  - eexists. split; [|split; [apply extends_app|]].
    + unfold Query_order_by.
      run_step ltac:(apply clone_run; eassumption).
      run_step ltac:(apply attr_old; exact Hq).
      rewrite E. reflexivity.
    + apply view_keeps. now rewrite Hview.
Qed.

End Builders.

Lemma filter_by_loop_run (h : list Obj) self o e0 e1 qc :
  h !! self = Some (OQuery o) ->
  _filters qc = length h + 3 ->
  _filter_params qc = length h + 4 ->
  forall items fs ps,
    match resolve (model_class o) (dict_keys items) with
    | Ok cols =>
        filter_by_loop self (length h + 2) items
          (h ++ [e0; e1; OQuery qc; OStrList fs; OValList ps])
        = (Ok tt,
           h ++ [e0; e1; OQuery qc;
                 OStrList (fs ++ map (fun c => c +:+ " = ?") cols);
                 OValList (ps ++ dict_values items)])
    | Raise e =>
        exists fs' ps',
          filter_by_loop self (length h + 2) items
            (h ++ [e0; e1; OQuery qc; OStrList fs; OValList ps])
          = (Raise e, h ++ [e0; e1; OQuery qc; OStrList fs'; OValList ps'])
    end.
Proof.
  intros Hq Hf Hp. induction items as [|[k x] items IH]; intros fs ps.
  - simpl. now rewrite !app_nil_r.
  - cbn [dict_keys map fst resolve filter_by_loop].
    destruct (dict_get k (__fields__ (model_class o))) as [f|] eqn:E.
    + specialize (IH (fs ++ [name f +:+ " = ?"]) (ps ++ [x])).
      assert (Hrun : forall r,
                filter_by_loop self (length h + 2) items
                  (h ++ [e0; e1; OQuery qc; OStrList (fs ++ [name f +:+ " = ?"]);
                         OValList (ps ++ [x])]) = r ->
                filter_by_loop self (length h + 2) ((k, x) :: items)
                  (h ++ [e0; e1; OQuery qc; OStrList fs; OValList ps]) = r).
      { intros r Hr. cbn [filter_by_loop].
        run_step ltac:(apply attr_old; exact Hq). rewrite E.
        run_step ltac:(apply attr_new; reflexivity). rewrite Hf.
        run_step ltac:(apply append_str_new; reflexivity).
        run_step ltac:(apply attr_new; reflexivity). rewrite Hp.
        run_step ltac:(apply append_val_new; reflexivity).
        exact Hr. }
      fold (dict_keys items).
      destruct (resolve (model_class o) (dict_keys items)) as [cols|e]; simpl.
      * apply Hrun. rewrite IH. now rewrite <- !app_assoc.
      * destruct IH as (fs' & ps' & IH). exists fs', ps'. now apply Hrun.
    + exists fs, ps. run_step ltac:(apply attr_old; exact Hq). now rewrite E.
Qed.

Section BuildersBy.

Variables (h : list Obj) (self : loc) (v : QueryState).
Hypothesis Hview : view h self = Some v.

Lemma filter_by_run kwargs :
  match resolve (target v) (dict_keys kwargs) with
  | Ok cols =>
      returns_new h self (Query_filter_by self kwargs h)
        (add_equalities cols (dict_values kwargs) v)
  | Raise e => raises_unchanged h self (Query_filter_by self kwargs h) e
  end.
Proof.
  destruct (view_inv _ _ _ Hview) as (o & Hq & Hfs & Hps & Ht & Ho & Hl & Hoff).
  rewrite Ht.
  pose proof (filter_by_loop_run h self o (OStrList []) (OValList [])
                {| model_class := model_class o; _filters := length h + 3;
                   _filter_params := length h + 4; _order_by := _order_by o;
                   _limit := _limit o; _offset := _offset o |}
                Hq eq_refl eq_refl kwargs (filters_of v) (params_of v)) as Hloop.
  destruct (resolve (model_class o) (dict_keys kwargs)) as [cols|e].
  - exists (length h + 2). eexists.
    split; [|split; [lia|split; [apply extends_app|]]].
    + unfold Query_filter_by.
      run_step ltac:(apply clone_run; eassumption).
      run_step ltac:(apply Hloop).
      reflexivity.
    + split; [|apply view_keeps; now rewrite Hview].
      rewrite view_new by reflexivity. unfold add_equalities; simpl.
      now rewrite Ht, Ho, Hl, Hoff.
  - destruct Hloop as (fs' & ps' & Hloop). eexists.
    split; [|split; [apply extends_app|]].
    + unfold Query_filter_by.
      run_step ltac:(apply clone_run; eassumption).
      erewrite bind_Raise; [reflexivity|apply Hloop].
    + apply view_keeps. now rewrite Hview.
Qed.

End BuildersBy.

(** *** Compiling a query *)

Lemma load_strs_base (h : list Obj) l x :
  h !! l = Some (OStrList x) -> load_strs l h = (Ok x, h).
Proof. intros H. unfold load_strs. now rewrite H. Qed.

Lemma load_vals_base (h : list Obj) l x :
  h !! l = Some (OValList x) -> load_vals l h = (Ok x, h).
Proof. intros H. unfold load_vals. now rewrite H. Qed.

Lemma build_parts_clauses cls fs o l off :
  o <> Some "" ->
  build_parts cls fs o l off
  = select_clause cls
      :: where_clause fs ++ order_clause o ++ limit_clause l off
      ++ offset_clause off.
Proof.
  intros Ho. unfold build_parts, select_clause, dict_values.
  rewrite map_map.
  destruct fs as [|c fs]; destruct o as [[|a o]|]; try contradiction;
    destruct l as [n|]; destruct off as [m|]; reflexivity.
Qed.

Lemma build_sql_view (h : list Obj) q v :
  view h q = Some v -> order_set v ->
  _build_sql q h = (Ok (select_statement v, params_of v), h).
Proof.
  intros Hv Hset.
  destruct (view_inv _ _ _ Hv) as (o & Hq & Hfs & Hps & Ht & Ho & Hl & Hoff).
  unfold _build_sql.
  run_step ltac:(apply attr_base; exact Hq).
  run_step ltac:(apply attr_base; exact Hq).
  run_step ltac:(apply load_strs_base; exact Hfs).
  run_step ltac:(apply attr_base; exact Hq).
  run_step ltac:(apply attr_base; exact Hq).
  run_step ltac:(apply attr_base; exact Hq).
  run_step ltac:(apply attr_base; exact Hq).
  run_step ltac:(apply load_vals_base; exact Hps).
  unfold ret, select_statement. rewrite build_parts_clauses.
  - now rewrite Ht, Ho, Hl, Hoff.
  - rewrite <- Ho. exact Hset.
Qed.

(** ** Claims about the query builder *)

(** C4: each of [filter], [filter_by], [order_by], [limit] and [offset], called
    on a query of state [v], returns a query that was not in the heap before
    and whose state is [v] with the request appended or replaced; the heap
    before the call is only extended, so the query the call was made on keeps
    its filters, parameters, order, limit and offset.  [filter_by] and
    [order_by] raise when a name is no field of the schema, and then too
    nothing that was there has changed. *)
Theorem builder_calls_return_new_query (h : list Obj) (self : loc)
    (v : QueryState) :
  view h self = Some v ->
  (forall conditions,
     returns_new h self (Query_filter self conditions h)
       (add_filters conditions v))
  /\ (forall kwargs,
        match resolve (target v) (dict_keys kwargs) with
        | Ok cols =>
            returns_new h self (Query_filter_by self kwargs h)
              (add_equalities cols (dict_values kwargs) v)
        | Raise e => raises_unchanged h self (Query_filter_by self kwargs h) e
        end)
  /\ (forall field_name ascending,
        match dict_get field_name (__fields__ (target v)) with
        | Some f =>
            returns_new h self (Query_order_by self field_name ascending h)
              (replace_order
                 (name f +:+ " " +:+ (if ascending then "ASC" else "DESC")) v)
        | None =>
            raises_unchanged h self (Query_order_by self field_name ascending h)
              (ValueError (__name__ (target v) +:+ " has no field named "
                           +:+ field_name))
        end)
  /\ (forall n, returns_new h self (Query_limit self n h) (replace_limit n v))
  /\ (forall n, returns_new h self (Query_offset self n h) (replace_offset n v)).
Proof.
  intros Hview. repeat split.
  - intros conditions. now apply filter_run.
  - intros kwargs. now apply filter_by_run.
  - intros field_name ascending. now apply order_by_run.
  - intros n. now apply limit_run.
  - intros n. now apply offset_run.
Qed.

(** On the query [TestModel.select(db)] made in an empty heap. *)
Lemma builder_calls_return_new_query_witness :
  view selected_heap 2 = Some (initial TestModel)
  /\ returns_new selected_heap 2
       (Query_filter_by 2 [("active", VBool true)] selected_heap)
       (add_equalities ["active"] [VBool true] (initial TestModel))
  /\ returns_new selected_heap 2
       (Query_order_by 2 "price" false selected_heap)
       (replace_order "price DESC" (initial TestModel))
  /\ raises_unchanged selected_heap 2
       (Query_order_by 2 "colour" true selected_heap)
       (ValueError "TestModel has no field named colour").
Proof.
  destruct (builder_calls_return_new_query selected_heap 2 (initial TestModel)
              eq_refl) as (_ & Hby & Horder & _ & _).
  split; [reflexivity|]. split; [|split].
  - apply (Hby [("active", VBool true)]).
  - apply (Horder "price" false).
  - apply (Horder "colour" true).
Defined.

(** Every state a query gets through [select] and the builder calls has its
    ordering, when set, naming a column. *)
Lemma order_set_kept :
  (forall cls, order_set (initial cls))
  /\ (forall v,
        order_set v ->
        (forall c, order_set (add_filters c v))
        /\ (forall cols vals, order_set (add_equalities cols vals v))
        /\ (forall n, order_set (replace_limit n v))
        /\ (forall n, order_set (replace_offset n v)))
  /\ (forall v f (ascending : bool),
        order_set
          (replace_order
             (name f +:+ " " +:+ (if ascending then "ASC" else "DESC")) v)).
Proof.
  unfold order_set. split; [discriminate|]. split.
  - intros v Hv. repeat split; intros; exact Hv.
  - intros v f ascending. simpl. intros [= H].
    destruct (name f); destruct ascending; discriminate.
Qed.

(** C5: the statement [_build_sql] compiles is the [SELECT ... FROM ...]
    clause followed, in this order and separated by one space, by the [WHERE]
    clause joining the filters with [AND] when there are filters, the
    [ORDER BY] clause when an order is set, the [LIMIT] clause and the
    [OFFSET] clause; with an offset and no limit the [LIMIT] clause is the
    sentinel [LIMIT -1], right before [OFFSET]. *)
Theorem build_sql_clause_order (h : list Obj) (q : loc) (v : QueryState) :
  view h q = Some v ->
  order_set v ->
  _build_sql q h
  = (Ok (String.concat " "
           (select_clause (target v)
              :: where_clause (filters_of v) ++ order_clause (order_of v)
              ++ limit_clause (limit_of v) (offset_of v)
              ++ offset_clause (offset_of v)),
         params_of v),
     h)
  /\ (forall m,
        offset_of v = Some m -> limit_of v = None ->
        limit_clause (limit_of v) (offset_of v) ++ offset_clause (offset_of v)
        = ["LIMIT -1"; "OFFSET " +:+ str_of_int m]).
Proof.
  intros Hv Hset. split.
  - now apply build_sql_view.
  - intros m -> ->. reflexivity.
Qed.

(** [TestModel.select(db).offset(2)] compiles with the sentinel. *)
Lemma build_sql_clause_order_witness :
  _build_sql 5 paged_heap
  = (Ok ("SELECT id, name, description, active, price FROM test_models LIMIT -1 OFFSET 2",
         []),
     paged_heap).
Proof.
  destruct (build_sql_clause_order paged_heap 5
              (replace_offset 2 (initial TestModel))) as [Hsql _].
  - reflexivity.
  - discriminate.
  - exact Hsql.
Defined.

(** ** Running [first] and [get] *)

Lemma bind_Ok_inv {S A B} (m : M S A) (k : A -> M S B) s b s' :
  bind m k s = (Ok b, s') ->
  exists a s1, m s = (Ok a, s1) /\ k a s1 = (Ok b, s').
Proof.
  unfold bind. destruct (m s) as [[a|e] s1]; [eauto|discriminate].
Qed.

Lemma on_fst_run {S T A} (m : M S A) s (t : T) r s' :
  m s = (r, s') -> on_fst m (s, t) = (r, (s', t)).
Proof. intros H. unfold on_fst; simpl. now rewrite H. Qed.

Lemma dict_of_row_truthy row :
  truthy_row row = true -> truthy_row (dict_of_row row) = true.
Proof.
  unfold dict_of_row.
  assert (H : forall (r acc : list (string * Value)),
             acc <> [] ->
             fold_left (fun d kv => dict_set (fst kv) (snd kv) d) r acc <> []).
  { induction r as [|kv r IH]; simpl; intros acc Hacc; [exact Hacc|].
    apply IH. apply dict_set_nonempty. }
  destruct row as [|kv row]; [discriminate|]. intros _. simpl.
  specialize (H row [(fst kv, snd kv)]).
  destruct (fold_left _ row _); [exfalso; now apply H|reflexivity].
Qed.

Section Get.

Context {Store : Type}.
Variable exec : Store -> string -> list Value -> result Cursor * Store.

Lemma fetch_one_truthy sql params (db db' : Database Store) row :
  Database_fetch_one exec sql params db = (Ok (Some row), db') ->
  truthy_row row = true.
Proof.
  unfold Database_fetch_one, bind.
  destruct (Database_execute exec sql params db) as [[cursor|e] db1];
    [|discriminate].
  destruct (fetchone cursor) as [r|]; [|discriminate].
  destruct (truthy_row r) eqn:E; [|discriminate].
  intros [= <- _]. now apply dict_of_row_truthy.
Qed.

(** [first] on a query of state [v]: one statement, the query's with
    [LIMIT 1], and the row fetched decides the result. *)
Lemma first_run (h : list Obj) (db : Database Store) self v :
  view h self = Some v ->
  order_set v ->
  exists h',
    extends h h'
    /\ view h' self = Some v
    /\ Query_first exec self (h, db)
       = match Database_fetch_one exec (select_statement (replace_limit 1 v))
                 (params_of v) db with
         | (Ok (Some row), db') =>
             (match _row_to_model (target v) row with
              | Ok m => Ok (Some m)
              | Raise e => Raise e
              end, (h', db'))
         | (Ok None, db') => (Ok None, (h', db'))
         | (Raise e, db') => (Raise e, (h', db'))
         end.
Proof.
  intros Hv Hset.
  destruct (limit_run h self v Hv 1%Z) as (q & h' & Hrun & _ & Hext & Hq & Hself).
  rewrite Hv in Hself.
  exists h'. split; [exact Hext|]. split; [exact Hself|].
  unfold Query_limit in Hrun.
  apply bind_Ok_inv in Hrun as (q1 & h1 & Hclone & Hrun).
  apply bind_Ok_inv in Hrun as ([] & h2 & Hset1 & Hret).
  unfold ret in Hret. injection Hret as -> ->.
  unfold Query_first.
  run_step ltac:(apply on_fst_run; exact Hclone).
  run_step ltac:(apply on_fst_run; exact Hset1).
  run_step ltac:(apply on_fst_run; apply (build_sql_view _ _ _ Hq); exact Hset).
  unfold bind at 1. unfold on_snd at 1. cbn [fst snd].
  change (params_of (replace_limit 1 v)) with (params_of v).
  destruct (Database_fetch_one exec _ (params_of v) db) as [[[row|]|e] db'] eqn:E;
    try reflexivity.
  rewrite (fetch_one_truthy _ _ _ _ _ E).
  destruct (view_inv _ _ _ Hself) as (o & Ho & _ & _ & Ht & _).
  run_step ltac:(apply on_fst_run; apply attr_base; exact Ho).
  rewrite <- Ht. unfold bind, lift, ret.
  now destruct (_row_to_model (target v) row).
Qed.

Lemma extends_trans (h1 h2 h3 : list Obj) :
  extends h1 h2 -> extends h2 h3 -> extends h1 h3.
Proof.
  intros [e1 ->] [e2 ->]. exists (e1 ++ e2). now rewrite app_assoc.
Qed.

(** [get] on a record type with a primary key: the statement of the query
    filtered by the key, with [LIMIT 1], and what [_row_to_model] makes of
    the row that comes back. *)
Lemma get_run (cls : Class) (pk : Field) (id : Value) (h : list Obj)
    (db : Database Store) :
  wf_class cls ->
  __primary_key__ cls = Some pk ->
  exists h',
    extends h h'
    /\ Model_get exec cls id (h, db)
       = match Database_fetch_one exec
                 (select_statement
                    {| target := cls;
                       filters_of := [name pk +:+ " = ?"];
                       params_of := [id]; order_of := None;
                       limit_of := Some 1%Z; offset_of := None |})
                 [id] db with
         | (Ok (Some row), db') =>
             (match _row_to_model cls row with
              | Ok m => Ok (Some m)
              | Raise e => Raise e
              end, (h', db'))
         | (Ok None, db') => (Ok None, (h', db'))
         | (Raise e, db') => (Raise e, (h', db'))
         end.
Proof.
  intros Hwf Hpk.
  destruct (wf_primary_key _ _ Hwf Hpk) as [Hin _].
  pose proof (wf_lookup _ _ _ Hwf Hin) as Hget.
  destruct (select_run cls h) as (h1 & Hsel & Hext1 & Hv1).
  pose proof (filter_by_run h1 _ _ Hv1 [(_attr_name pk, id)]) as Hby.
  simpl in Hby. rewrite Hget in Hby. simpl in Hby.
  destruct Hby as (q2 & h2 & Hrun2 & _ & Hext2 & Hv2 & _).
  destruct (first_run h2 db q2 _ Hv2) as (h3 & Hext3 & _ & Hfirst);
    [discriminate|].
  exists h3. split; [eauto using extends_trans|].
  unfold Model_get. rewrite Hpk.
  run_step ltac:(apply on_fst_run; exact Hsel).
  run_step ltac:(apply on_fst_run; exact Hrun2).
  exact Hfirst.
Qed.

End Get.

(** * Further properties *)

(** ** Fields *)

Lemma dict_set_twice {V} k (v : V) d : dict_set k v (dict_set k v d) = dict_set k v d.
Proof.
  induction d as [|[k0 v0] d IH]; simpl.
  - now rewrite String.eqb_refl.
  - destruct (String.eqb_spec k k0) as [->|Hne]; simpl.
    + now rewrite String.eqb_refl.
    + destruct (String.eqb_spec k k0); [contradiction|]. now rewrite IH.
Qed.

(** What the setter accepts, it accepts again in the form it stored. *)
Lemma setattr_stored inst f v inst' :
  setattr inst f v = Ok inst' ->
  validate f (stored f v) = Ok tt
  /\ (nullable f = false -> stored f v <> VNone)
  /\ stored f (stored f v) = stored f v.
Proof.
  unfold setattr, __set__, BooleanField___set__, Field___set__, stored, validate.
  destruct (field_class f) eqn:Hc; destruct (nullable f); destruct v as [|n|s|b|d|x];
    simpl; intros H; try discriminate;
    repeat match type of H with
           | context [if ?c then _ else _] => destruct c eqn:?
           end;
    try discriminate; repeat split; try reflexivity; try discriminate;
    try (intros; discriminate); try (now destruct b);
    try (now destruct (bool_of (VInt n))).
Qed.

Lemma accepted_value inst f v :
  validate f v = Ok tt ->
  (nullable f = false -> v <> VNone) ->
  setattr inst f v = Ok (store_attr inst (_attr_name f) (stored f v)).
Proof.
  intros Hv Hn.
  assert (Hguard : (negb (nullable f) && is_None v)%bool = false).
  { destruct (nullable f); [reflexivity|]. destruct v; try reflexivity.
    now destruct Hn. }
  unfold setattr, __set__, BooleanField___set__, Field___set__, stored.
  rewrite Hguard, Hv. now destruct (field_class f).
Qed.

(** X1: after an assignment that is accepted, the field reads back the value
    in the form it is stored, assigning what is read changes nothing, and
    no attribute of another name has changed. *)
Theorem setattr_then_getattr (inst inst' : Model) (f : Field) (v : Value) :
  setattr inst f v = Ok inst' ->
  getattr inst' f = stored f v
  /\ setattr inst' f (getattr inst' f) = Ok inst'
  /\ (forall g, _attr_name g <> _attr_name f -> getattr inst' g = getattr inst g).
Proof.
  intros H. pose proof (setattr_stored _ _ _ _ H) as (Hv & Hn & Hs).
  apply setattr_Ok in H. subst inst'. rewrite getattr_store.
  split; [reflexivity|]. split.
  - rewrite (accepted_value _ _ _ Hv Hn), Hs.
    unfold store_attr; simpl. now rewrite dict_set_twice.
  - intros g Hg. unfold getattr, __get__, store_attr, dict_get_default; simpl.
    rewrite dict_get_set.
    destruct (String.eqb_spec (_attr_name g) (_attr_name f)); [contradiction|].
    reflexivity.
Qed.

Lemma setattr_then_getattr_witness :
  exists inst',
    setattr (blank TestModel) (field_of TestModel "active") (VInt 1) = Ok inst'
    /\ getattr inst' (field_of TestModel "active") = VBool true
    /\ setattr inst' (field_of TestModel "active") (VBool true) = Ok inst'.
Proof.
  eexists. split; [reflexivity|].
  match goal with
  | |- getattr ?i _ = _ /\ _ =>
      destruct (setattr_then_getattr (blank TestModel) i
                  (field_of TestModel "active") (VInt 1) eq_refl) as (Hr & Hi & _)
  end.
  split; [exact Hr|exact Hi].
Defined.

(** X2: a [StringField] accepts a string exactly when its length is at most
    [max_length], a string of exactly that length included; a longer one is
    the length error, whatever [nullable] is. *)
Theorem string_field_length_bound (f : Field) (max_length : Z) (inst : Model)
    (s : string) :
  field_class f = StringField max_length ->
  setattr inst f (VStr s)
  = if (Z.of_nat (String.length s) <=? max_length)%Z
    then Ok (store_attr inst (_attr_name f) (VStr s))
    else Raise (ValueError (_attr_name f +:+ " cannot exceed "
                            +:+ str_of_int max_length +:+ " characters")).
Proof.
  intros Hc. unfold setattr, __set__, Field___set__, validate. rewrite Hc. simpl.
  rewrite Bool.andb_false_r. rewrite Z.gtb_ltb, Z.leb_antisym.
  now destruct (max_length <? Z.of_nat (String.length s))%Z.
Qed.

Lemma string_field_length_bound_witness :
  setattr (blank Tag) (field_of Tag "code") (VStr "0123456789")
  = Ok (store_attr (blank Tag) "code" (VStr "0123456789"))
  /\ setattr (blank Tag) (field_of Tag "code") (VStr "0123456789a")
     = Raise (ValueError "code cannot exceed 10 characters").
Proof.
  split.
  - apply (string_field_length_bound (field_of Tag "code") 10). reflexivity.
  - apply (string_field_length_bound (field_of Tag "code") 10). reflexivity.
Defined.

(** ** Constructed records *)

Lemma given_del kw k0 k f : k0 <> k -> given (dict_del k0 kw) k f = given kw k f.
Proof.
  intros Hne. unfold given, dict_get_default. rewrite dict_get_del.
  now destruct (String.eqb_spec k0 k).
Qed.

Lemma init_fields_exact items : forall self kw self' kw',
  List.NoDup (dict_keys items) ->
  (forall k f, In (k, f) items -> _attr_name f = k) ->
  (forall k, In k (dict_keys items) -> ~ In k (dict_keys (__dict__ self))) ->
  init_fields items self kw = Ok (self', kw') ->
  __dict__ self'
  = __dict__ self
      ++ map (fun kv => (fst kv, stored (snd kv) (given kw (fst kv) (snd kv)))) items.
Proof.
  induction items as [|[k0 f0] items IH]; simpl; intros self kw self' kw' Hnd Hb Hfresh.
  - intros [= <- _]. now rewrite app_nil_r.
  - apply NoDup_cons_iff in Hnd as [Hk Hnd].
    destruct (setattr self f0 _) eqn:E; simpl; [|discriminate].
    intros H. apply setattr_Ok in E. subst a.
    assert (Hf0 : _attr_name f0 = k0) by (apply Hb; now left).
    rewrite Hf0 in H.
    apply IH in H; [| exact Hnd | intros k f I; apply Hb; now right |].
    + rewrite H. simpl. rewrite dict_set_fresh by (apply Hfresh; now left).
      rewrite <- app_assoc. simpl. f_equal. f_equal.
      apply map_ext_in. intros [k f] I. simpl.
      rewrite given_del; [reflexivity|].
      intros ->. apply Hk. apply (in_map fst) in I. exact I.
    + intros k I. simpl. rewrite dict_set_keys. intros [->|I']; [tauto|].
      apply (Hfresh k); [now right|exact I'].
Qed.

Lemma init_fields_accepted items : forall self kw,
  List.NoDup (dict_keys items) ->
  (forall k f, In (k, f) items ->
     forall inst, is_Ok (setattr inst f (given kw k f)) = true) ->
  exists self' kw', init_fields items self kw = Ok (self', kw').
Proof.
  induction items as [|[k0 f0] items IH]; simpl; intros self kw Hnd Hacc; [eauto|].
  apply NoDup_cons_iff in Hnd as [Hk Hnd].
  pose proof (Hacc k0 f0 (or_introl eq_refl) self) as H0. unfold given in H0.
  destruct (setattr self f0 _) as [self1|]; [simpl|discriminate].
  apply IH; [exact Hnd|]. intros k f I inst. rewrite given_del.
  - apply Hacc. now right.
  - intros ->. apply Hk. apply (in_map fst) in I. exact I.
Qed.

Lemma is_Ok_setattr_any inst1 inst2 f v :
  is_Ok (setattr inst1 f v) = is_Ok (setattr inst2 f v).
Proof.
  pose proof (setattr_any inst1 inst2 f v) as H.
  destruct (setattr inst1 f v), (setattr inst2 f v); simpl; tauto.
Qed.

Lemma init_rest_keys cls kwargs self rest :
  init_fields (__fields__ cls) (blank cls) kwargs = Ok (self, rest) ->
  dict_keys rest = unexpected cls kwargs.
Proof.
  intros E. apply init_fields_rest in E. subst rest. unfold unexpected.
  apply (filter_key_keys (fun k => negb (dict_contains k (__fields__ cls)))).
Qed.

(** X3: in a declared record type, a construction succeeds exactly when no
    keyword argument is unexpected and every field accepts the value it is
    given, its default when none is. *)
Theorem construction_succeeds_iff (def : ClassDef) (cls : Class)
    (kwargs : list (string * Value)) :
  declare def = Ok cls ->
  (is_Ok (Model___init__ cls kwargs) = true
   <-> unexpected cls kwargs = []
       /\ forall k f, In (k, f) (__fields__ cls) ->
                      is_Ok (setattr (blank cls) f (given kwargs k f)) = true).
Proof.
  intros Hd. destruct (declare_wf _ _ Hd) as (Hnd & Hb & _).
  unfold Model___init__. split.
  - destruct (init_fields _ _ _) as [[s rest]|e] eqn:E; simpl; [|discriminate].
    pose proof (init_rest_keys _ _ _ _ E) as Hkeys.
    destruct rest; [|discriminate]. intros _. split; [now rewrite <- Hkeys|].
    intros k f Hin.
    destruct (is_Ok (setattr (blank cls) f (given kwargs k f))) eqn:Hacc;
      [reflexivity|].
    destruct (init_fields_rejected _ (blank cls) kwargs k f Hnd Hin) as [msg Hr].
    + intros inst. fold (given kwargs k f).
      now rewrite (is_Ok_setattr_any inst (blank cls)).
    + rewrite Hr in E. discriminate.
  - intros [Hun Hacc].
    destruct (init_fields_accepted _ (blank cls) kwargs Hnd) as (s & rest & E).
    + intros k f Hin inst.
      rewrite (is_Ok_setattr_any inst (blank cls)). now apply Hacc.
    + rewrite E. simpl. pose proof (init_rest_keys _ _ _ _ E) as Hkeys.
      rewrite Hun in Hkeys. now destruct rest.
Qed.

Lemma construction_succeeds_iff_witness :
  is_Ok (Model___init__ TestModel [("name", VStr "Item 1"); ("price", VInt 3)]) = true.
Proof.
  apply (construction_succeeds_iff TestModel_def TestModel
           [("name", VStr "Item 1"); ("price", VInt 3)] eq_refl).
  split; [reflexivity|].
  intros k f [E|[E|[E|[E|[E|[]]]]]]; injection E as <- <-; reflexivity.
Defined.

(** X4: a record built by the constructor of a declared type holds exactly
    the declared fields, in declaration order, each with the stored form of
    the value given or of its default; [to_dict] returns that dictionary. *)
Theorem constructed_record_fields (def : ClassDef) (cls : Class)
    (kwargs : list (string * Value)) (self : Model) :
  declare def = Ok cls ->
  Model___init__ cls kwargs = Ok self ->
  __class__ self = cls
  /\ __dict__ self
     = map (fun kv => (fst kv, stored (snd kv) (given kwargs (fst kv) (snd kv))))
         (__fields__ cls)
  /\ to_dict self = __dict__ self.
Proof.
  intros Hd. destruct (declare_wf _ _ Hd) as (Hnd & Hb & _).
  unfold Model___init__.
  destruct (init_fields _ _ _) as [[s rest]|e] eqn:E; simpl; [|discriminate].
  destruct rest; [|discriminate]. intros [= <-].
  pose proof (init_fields_class _ _ _ _ _ E) as Hc. simpl in Hc.
  assert (Hfresh : forall k, In k (dict_keys (__fields__ cls)) ->
                     ~ In k (dict_keys (__dict__ (blank cls))))
    by (intros k _ []).
  pose proof (init_fields_exact _ _ _ _ _ Hnd Hb Hfresh E) as Hx.
  simpl in Hx. destruct (init_fields_stored _ _ _ _ _ Hnd Hb E) as [Hs _].
  split; [exact Hc|]. split; [exact Hx|].
  unfold to_dict. rewrite Hc, Hx. apply map_ext_in. intros [k f] I. simpl.
  f_equal. now apply Hs.
Qed.

Lemma constructed_record_fields_witness :
  exists self,
    Model___init__ TestModel [("name", VStr "Item 1"); ("active", VInt 0)] = Ok self
    /\ to_dict self
       = [("id", VNone); ("name", VStr "Item 1"); ("description", VNone);
          ("active", VBool false); ("price", VFloat 0%float)].
Proof.
  eexists. split; [reflexivity|].
  match goal with
  | |- to_dict ?s = _ =>
      destruct (constructed_record_fields TestModel_def TestModel
                  [("name", VStr "Item 1"); ("active", VInt 0)] s eq_refl eq_refl)
        as (_ & _ & Hd)
  end.
  rewrite Hd. reflexivity.
Defined.

Lemma init_accepts items self kw self' kw' k f :
  List.NoDup (dict_keys items) ->
  init_fields items self kw = Ok (self', kw') ->
  In (k, f) items ->
  exists inst', setattr self f (given kw k f) = Ok inst'.
Proof.
  intros Hnd E Hin. destruct (setattr self f (given kw k f)) as [inst'|e] eqn:Hs;
    [eauto|].
  destruct (init_fields_rejected _ self kw k f Hnd Hin) as [msg Hr].
  - intros inst. fold (given kw k f).
    rewrite (is_Ok_setattr_any inst self), Hs. reflexivity.
  - rewrite Hr in E. discriminate.
Qed.

Lemma wf_same_attr cls k1 f1 k2 f2 :
  wf_class cls ->
  In (k1, f1) (__fields__ cls) -> In (k2, f2) (__fields__ cls) ->
  _attr_name f1 = _attr_name f2 -> f1 = f2.
Proof.
  intros (Hnd & Hb & _) H1 H2 Heq.
  rewrite (Hb _ _ H1), (Hb _ _ H2) in Heq. subst k2.
  pose proof (In_dict_get _ _ _ Hnd H1) as G1.
  pose proof (In_dict_get _ _ _ Hnd H2) as G2. congruence.
Qed.

Lemma well_typed_setattr self k f v self' :
  wf_class (__class__ self) ->
  well_typed self ->
  In (k, f) (__fields__ (__class__ self)) ->
  setattr self f v = Ok self' ->
  well_typed self' /\ __class__ self' = __class__ self.
Proof.
  intros Hwf Hwt Hin Hs.
  pose proof (setattr_stored _ _ _ _ Hs) as Hst.
  pose proof (setattr_Ok _ _ _ _ Hs) as ->.
  split; [|reflexivity]. intros k' g Hg. simpl in Hg.
  destruct (String.eqb_spec (_attr_name g) (_attr_name f)) as [Heq|Hne].
  - assert (g = f) by (eapply wf_same_attr; eauto). subst g.
    now rewrite getattr_store.
  - assert (Hfr : getattr (store_attr self (_attr_name f) (stored f v)) g
                  = getattr self g).
    { unfold getattr, __get__, store_attr, dict_get_default; simpl.
      rewrite dict_get_set.
      now destruct (String.eqb_spec (_attr_name g) (_attr_name f)). }
    rewrite Hfr. now apply (Hwt k').
Qed.

Lemma init_well_typed def cls kwargs self :
  declare def = Ok cls ->
  Model___init__ cls kwargs = Ok self ->
  well_typed self.
Proof.
  intros Hd. destruct (declare_wf _ _ Hd) as (Hnd & Hb & _).
  unfold Model___init__.
  destruct (init_fields _ _ _) as [[s rest]|e] eqn:E; simpl; [|discriminate].
  destruct rest; [|discriminate]. intros [= <-].
  pose proof (init_fields_class _ _ _ _ _ E) as Hc. simpl in Hc.
  destruct (init_fields_stored _ _ _ _ _ Hnd Hb E) as [Hs _].
  intros k f Hin. rewrite Hc in Hin. rewrite (Hs k f Hin).
  destruct (init_accepts _ _ _ _ _ k f Hnd E Hin) as [inst' Hacc].
  exact (setattr_stored _ _ _ _ Hacc).
Qed.

(** X5: every record built by the constructor of a declared type is well
    typed (each field holds a value its validation accepts, never [None]
    when the field is not nullable, in the form the field stores), and an
    accepted assignment to one of its fields keeps it so. *)
Theorem records_stay_well_typed :
  (forall def cls kwargs self,
     declare def = Ok cls ->
     Model___init__ cls kwargs = Ok self ->
     well_typed self)
  /\ (forall def self k f v self',
        declare def = Ok (__class__ self) ->
        well_typed self ->
        In (k, f) (__fields__ (__class__ self)) ->
        setattr self f v = Ok self' ->
        well_typed self').
Proof.
  split.
  - intros def cls kwargs self. apply init_well_typed.
  - intros def self k f v self' Hd Hwt Hin Hs.
    exact (proj1 (well_typed_setattr _ _ _ _ _ (declare_wf _ _ Hd) Hwt Hin Hs)).
Qed.

Lemma records_stay_well_typed_witness :
  exists self self',
    Model___init__ TestModel [("name", VStr "Item 1")] = Ok self
    /\ setattr self (field_of TestModel "price") (VInt 4) = Ok self'
    /\ well_typed self /\ well_typed self'.
Proof.
  destruct records_stay_well_typed as [Hnew Hset].
  eexists. eexists. split; [reflexivity|]. split; [reflexivity|].
  assert (Hwt : well_typed
                  {| __class__ := TestModel;
                     __dict__ := [("id", VNone); ("name", VStr "Item 1");
                                  ("description", VNone); ("active", VBool true);
                                  ("price", VFloat 0%float)] |}).
  { apply (Hnew TestModel_def TestModel [("name", VStr "Item 1")]); reflexivity. }
  split; [exact Hwt|].
  apply (Hset TestModel_def
           {| __class__ := TestModel;
              __dict__ := [("id", VNone); ("name", VStr "Item 1");
                           ("description", VNone); ("active", VBool true);
                           ("price", VFloat 0%float)] |}
           "price" (field_of TestModel "price") (VInt 4));
    [reflexivity|exact Hwt| |reflexivity].
  do 4 right; left; reflexivity.
Defined.

(** ** Hydration *)

Lemma row_kwargs_keys items row : forall acc k,
  In k (dict_keys (row_kwargs items row acc)) ->
  In k (dict_keys acc) \/ In k (dict_keys items).
Proof.
  induction items as [|[k0 f0] items IH]; simpl; intros acc k H; [tauto|].
  destruct (dict_get (name f0) row).
  - apply IH in H as [H|H]; [|tauto].
    apply dict_set_keys in H as [->|H]; tauto.
  - apply IH in H. tauto.
Qed.

Lemma row_kwargs_agree items row1 row2 :
  (forall k f, In (k, f) items -> dict_get (name f) row1 = dict_get (name f) row2) ->
  forall acc, row_kwargs items row1 acc = row_kwargs items row2 acc.
Proof.
  induction items as [|[k0 f0] items IH]; simpl; intros Hag acc; [reflexivity|].
  rewrite (Hag k0 f0) by now left.
  destruct (dict_get (name f0) row2); apply IH; intros k f I; apply (Hag k);
    now right.
Qed.

Lemma filter_all_false {A} (g : A -> bool) (l : list A) :
  (forall x, In x l -> g x = false) -> List.filter g l = [].
Proof.
  induction l as [|a l IH]; simpl; intros H; [reflexivity|].
  rewrite (H a) by now left. apply IH. intros x I. apply H. now right.
Qed.

Lemma init_no_unexpected cls kwargs :
  (forall k, In k (dict_keys kwargs) -> In k (dict_keys (__fields__ cls))) ->
  Model___init__ cls kwargs
  = rbind (init_fields (__fields__ cls) (blank cls) kwargs) (fun sk => Ok (fst sk)).
Proof.
  intros Hsub. unfold Model___init__.
  destruct (init_fields _ _ _) as [[s rest]|e] eqn:E; simpl; [|reflexivity].
  pose proof (init_rest_keys _ _ _ _ E) as Hkeys. unfold unexpected in Hkeys.
  rewrite filter_all_false in Hkeys.
  - now destruct rest.
  - intros k Hk. apply Hsub in Hk. apply dict_contains_In in Hk. now rewrite Hk.
Qed.

(** X6: hydrating a row never fails for unexpected arguments, only on a value
    a field rejects; and it reads the row at the columns of the declared
    fields only, so two rows that agree there hydrate alike, whatever other
    columns they have. *)
Theorem hydration_reads_declared_columns (cls : Class) :
  (forall row e,
     _row_to_model cls row = Raise e -> exists msg, e = ValueError msg)
  /\ (forall row1 row2,
        (forall k f, In (k, f) (__fields__ cls) ->
                     dict_get (name f) row1 = dict_get (name f) row2) ->
        _row_to_model cls row1 = _row_to_model cls row2).
Proof.
  split.
  - intros row e. unfold _row_to_model. rewrite init_no_unexpected.
    + destruct (init_fields _ _ _) as [[s rest]|e'] eqn:E; simpl; [discriminate|].
      intros [= <-]. eapply init_fields_ValueError; eauto.
    + intros k Hk. apply row_kwargs_keys in Hk as [[]|Hk]. exact Hk.
  - intros row1 row2 Hag. unfold _row_to_model.
    now rewrite (row_kwargs_agree _ _ _ Hag).
Qed.

Lemma hydration_reads_declared_columns_witness :
  _row_to_model TestModel (item_row ++ [("rowid", VInt 7)])
  = _row_to_model TestModel item_row.
Proof.
  destruct (hydration_reads_declared_columns TestModel) as [_ Hag].
  apply Hag.
  intros k f [E|[E|[E|[E|[E|[]]]]]]; injection E as <- <-; reflexivity.
Defined.

Lemma row_kwargs_exact (row : list (string * Value)) (value : Field -> Value) items :
  List.NoDup (dict_keys items) ->
  (forall k f, In (k, f) items -> dict_get (name f) row = Some (value f)) ->
  forall acc,
    (forall k, In k (dict_keys items) -> ~ In k (dict_keys acc)) ->
    row_kwargs items row acc
    = acc ++ map (fun kv => (fst kv, value (snd kv))) items.
Proof.
  induction items as [|[k0 f0] items IH]; simpl; intros Hnd Hrow acc Hfresh.
  - now rewrite app_nil_r.
  - apply NoDup_cons_iff in Hnd as [Hk Hnd].
    rewrite (Hrow k0 f0) by now left.
    rewrite dict_set_fresh by (apply Hfresh; now left).
    rewrite IH; [now rewrite <- app_assoc | exact Hnd | |].
    + intros k f I. apply (Hrow k). now right.
    + intros k I. unfold dict_keys. rewrite map_app, in_app_iff. simpl.
      intros [I'|[->|[]]]; [|tauto]. apply (Hfresh k); [now right|exact I'].
Qed.

Lemma dict_as_lookup (D : list (string * Value)) :
  List.NoDup (dict_keys D) ->
  forall (fields : list (string * Field)) (d : list (string * Value)),
    dict_keys d = dict_keys fields ->
    (forall kv, In kv d -> In kv D) ->
    (forall k f, In (k, f) fields -> _attr_name f = k) ->
    map (fun kv => (fst kv,
                    dict_get_default (_attr_name (snd kv)) (default (snd kv)) D))
      fields
    = d.
Proof.
  intros HD. induction fields as [|[k f] fields IH]; intros [|[k' v] d] Hk Hin Hb;
    try discriminate; [reflexivity|].
  simpl in Hk. injection Hk as -> Hk. simpl.
  rewrite (Hb k f) by now left. unfold dict_get_default at 1.
  rewrite (In_dict_get k v D HD) by (apply Hin; now left).
  f_equal. apply IH; [exact Hk| |].
  - intros kv I. apply Hin. now right.
  - intros k0 f0 I. apply Hb. now right.
Qed.

(** X7: in a declared record type whose columns have distinct names, a well
    typed record that holds exactly the declared fields (as every constructed
    or saved record does) is hydrated back from the row of its own column
    values. *)
Theorem hydrate_row_of (def : ClassDef) (self : Model) :
  declare def = Ok (__class__ self) ->
  List.NoDup (map name (dict_values (__fields__ (__class__ self)))) ->
  well_typed self ->
  dict_keys (__dict__ self) = dict_keys (__fields__ (__class__ self)) ->
  _row_to_model (__class__ self) (row_of self) = Ok self.
Proof.
  intros Hd Hnames Hwt Hkeys. destruct (declare_wf _ _ Hd) as (Hnd & Hb & _).
  destruct self as [cls D]; simpl in *.
  set (self := {| __class__ := cls; __dict__ := D |}) in *.
  assert (Hrow : forall k f, In (k, f) (__fields__ cls) ->
                   dict_get (name f) (row_of self) = Some (getattr self f)).
  { intros k f I. apply In_dict_get.
    - unfold row_of, dict_keys, dict_values in *. simpl.
      rewrite map_map in *. exact Hnames.
    - unfold row_of; simpl. apply in_map_iff. now exists (k, f). }
  unfold _row_to_model.
  rewrite (row_kwargs_exact (row_of self) (getattr self) _ Hnd Hrow [])
    by (intros k _ []).
  simpl.
  set (kw := map (fun kv => (fst kv, getattr self (snd kv))) (__fields__ cls)).
  assert (Hkw : dict_keys kw = dict_keys (__fields__ cls)).
  { unfold kw, dict_keys. rewrite map_map. reflexivity. }
  assert (Hgiven : forall k f, In (k, f) (__fields__ cls) ->
                     given kw k f = getattr self f).
  { intros k f I. unfold given, dict_get_default.
    rewrite (In_dict_get k (getattr self f) kw); [reflexivity| |].
    - now rewrite Hkw.
    - unfold kw. apply in_map_iff. now exists (k, f). }
  rewrite init_no_unexpected by (intros k; now rewrite Hkw).
  destruct (init_fields_accepted _ (blank cls) kw Hnd) as (s & rest & E).
  { intros k f I inst. rewrite (Hgiven k f I).
    destruct (Hwt k f I) as (Hv & Hn & Hs).
    now rewrite (accepted_value inst f _ Hv Hn). }
  rewrite E. simpl. f_equal.
  pose proof (init_fields_class _ _ _ _ _ E) as Hc. simpl in Hc.
  assert (Hfresh : forall k, In k (dict_keys (__fields__ cls)) ->
                     ~ In k (dict_keys (__dict__ (blank cls))))
    by (intros k _ []).
  pose proof (init_fields_exact _ _ _ _ _ Hnd Hb Hfresh E) as Hx. simpl in Hx.
  destruct s as [c d]; simpl in *. subst c. unfold self. f_equal. rewrite Hx.
  transitivity
    (map (fun kv => (fst kv,
                     dict_get_default (_attr_name (snd kv)) (default (snd kv)) D))
       (__fields__ cls)).
  - apply map_ext_in. intros [k f] I. simpl. rewrite (Hgiven k f I).
    destruct (Hwt k f I) as (_ & _ & Hs). now rewrite Hs.
  - apply dict_as_lookup; [now rewrite Hkeys | exact Hkeys | tauto | exact Hb].
Qed.

Lemma hydrate_row_of_witness :
  exists self,
    Model___init__ TestModel [("id", VInt 7); ("name", VStr "Item 1")] = Ok self
    /\ _row_to_model TestModel (row_of self) = Ok self.
Proof.
  eexists. split; [reflexivity|].
  match goal with
  | |- _row_to_model _ (row_of ?s) = _ =>
      apply (hydrate_row_of TestModel_def s eq_refl)
  end.
  - repeat constructor; simpl; intuition discriminate.
  - apply (init_well_typed TestModel_def TestModel
             [("id", VInt 7); ("name", VStr "Item 1")]); reflexivity.
  - reflexivity.
Defined.

(** ** The claim about [get] *)

Lemma setattr_accepts inst f v inst' :
  setattr inst f v = Ok inst' -> accepts f v.
Proof.
  unfold setattr, __set__, BooleanField___set__, Field___set__, accepts.
  intros H.
  assert (G : (negb (nullable f) && is_None v)%bool = false
              /\ validate f v = Ok tt).
  { destruct (field_class f); destruct (negb (nullable f) && is_None v)%bool;
      try discriminate; destruct (validate f v) as [[]|]; simpl in H;
      try discriminate; auto. }
  destruct G as [G Hv]. split; [exact Hv|]. intros Hn ->. rewrite Hn in G.
  discriminate.
Qed.

(** The keyword arguments taken from a row, key by key. *)
Lemma row_kwargs_lookup items row : forall acc k,
  List.NoDup (dict_keys items) ->
  dict_get k (row_kwargs items row acc)
  = match dict_get k items with
    | Some f => match dict_get (name f) row with
                | Some v => Some v
                | None => dict_get k acc
                end
    | None => dict_get k acc
    end.
Proof.
  induction items as [|[k0 f0] items IH]; simpl; intros acc k Hnd; [reflexivity|].
  apply NoDup_cons_iff in Hnd as [Hk Hnd].
  destruct (String.eqb_spec k k0) as [->|Hne].
  - apply dict_get_None in Hk.
    destruct (dict_get (name f0) row) as [v|]; rewrite (IH _ _ Hnd), Hk;
      [|reflexivity].
    now rewrite dict_get_set, String.eqb_refl.
  - destruct (dict_get (name f0) row) as [v|]; rewrite (IH _ _ Hnd);
      [|reflexivity].
    rewrite dict_get_set. destruct (String.eqb_spec k k0); [contradiction|].
    reflexivity.
Qed.

Lemma row_kwargs_given items row k f :
  List.NoDup (dict_keys items) ->
  In (k, f) items ->
  given (row_kwargs items row []) k f = column_value row f.
Proof.
  intros Hnd Hin. unfold given, column_value, dict_get_default.
  rewrite (row_kwargs_lookup _ _ _ _ Hnd), (In_dict_get k f items Hnd Hin).
  simpl. now destruct (dict_get (name f) row).
Qed.

(** What hydration makes of a row. *)
Lemma hydrate_outcome (cls : Class) (row : list (string * Value)) :
  wf_class cls ->
  (row_accepted cls row -> _row_to_model cls row = Ok (hydrated cls row))
  /\ (~ row_accepted cls row ->
      exists msg, _row_to_model cls row = Raise (ValueError msg)).
Proof.
  intros (Hnd & Hb & _).
  set (kw := row_kwargs (__fields__ cls) row []).
  assert (Hsub : forall k, In k (dict_keys kw) -> In k (dict_keys (__fields__ cls))).
  { intros k Hk. apply row_kwargs_keys in Hk as [[]|Hk]. exact Hk. }
  unfold _row_to_model. fold kw. rewrite (init_no_unexpected _ _ Hsub).
  split.
  - intros Hacc.
    destruct (init_fields_accepted _ (blank cls) kw Hnd) as (s & rest & E).
    { intros k f I inst. unfold kw. rewrite (row_kwargs_given _ _ _ _ Hnd I).
      destruct (Hacc k f I) as [Hv Hn]. now rewrite (accepted_value inst f _ Hv Hn). }
    rewrite E. simpl. f_equal.
    pose proof (init_fields_class _ _ _ _ _ E) as Hc. simpl in Hc.
    assert (Hfresh : forall k, In k (dict_keys (__fields__ cls)) ->
                       ~ In k (dict_keys (__dict__ (blank cls))))
      by (intros k _ []).
    pose proof (init_fields_exact _ _ _ _ _ Hnd Hb Hfresh E) as Hx. simpl in Hx.
    destruct s as [c d]; simpl in *. subst c. unfold hydrated. f_equal. rewrite Hx.
    apply map_ext_in. intros [k f] I. simpl. unfold kw.
    now rewrite (row_kwargs_given _ _ _ _ Hnd I).
  - intros Hnot.
    destruct (init_fields _ _ _) as [[s rest]|e] eqn:E; simpl.
    + exfalso. apply Hnot. intros k f I.
      destruct (init_accepts _ _ _ _ _ k f Hnd E I) as [inst' Hs].
      unfold kw in Hs. rewrite (row_kwargs_given _ _ _ _ Hnd I) in Hs.
      now apply setattr_accepts in Hs.
    + destruct (init_fields_ValueError _ _ _ _ E) as [msg ->]. eauto.
Qed.

Section GetRecord.

Context {Store : Type}.
Variable exec : Store -> string -> list Value -> result Cursor * Store.

(** C7, as the code has it: on a record type with a primary key, [get(id)]
    is [select().filter_by(primary_key = id).first()].  It executes the
    statement of that query with [LIMIT 1] and the key as parameter and only
    extends the heap of queries.  When no row comes back it returns [None].
    When a row comes back and every declared field accepts the value the row
    gives it, it returns the record hydrated from the row: the declared
    fields in declaration order, each with the value of its column, its
    default when the row has no such column, in the form the field stores.
    When a field rejects its value, [get] raises a [ValueError].  Without a
    primary key [get] raises and nothing is executed. *)
Theorem get_is_select_filter_first (def : ClassDef) (cls : Class) (id : Value)
    (h : list Obj) (db : Database Store) :
  declare def = Ok cls ->
  (forall pk,
     __primary_key__ cls = Some pk ->
     Model_get exec cls id = get_spec exec cls pk id
     /\ exists h',
          extends h h'
          /\ match Database_fetch_one exec
                     (select_statement
                        {| target := cls;
                           filters_of := [name pk +:+ " = ?"];
                           params_of := [id]; order_of := None;
                           limit_of := Some 1%Z; offset_of := None |})
                     [id] db with
             | (Ok (Some row), db') =>
                 (row_accepted cls row ->
                  Model_get exec cls id (h, db)
                  = (Ok (Some (hydrated cls row)), (h', db')))
                 /\ (~ row_accepted cls row ->
                     exists msg,
                       Model_get exec cls id (h, db)
                       = (Raise (ValueError msg), (h', db')))
             | (Ok None, db') => Model_get exec cls id (h, db) = (Ok None, (h', db'))
             | (Raise e, db') => Model_get exec cls id (h, db) = (Raise e, (h', db'))
             end)
  /\ (__primary_key__ cls = None ->
      Model_get exec cls id (h, db)
      = (Raise (ValueError (__name__ cls +:+ " has no primary key")), (h, db))).
Proof.
  intros Hd. pose proof (declare_wf _ _ Hd) as Hwf. split.
  - intros pk Hpk.
    split; [unfold Model_get, get_spec; now rewrite Hpk|].
    destruct (get_run exec cls pk id h db Hwf Hpk) as (h' & Hext & Hrun).
    exists h'. split; [exact Hext|]. rewrite Hrun.
    destruct (Database_fetch_one exec _ _ db) as [[[row|]|e] db'];
      try reflexivity.
    destruct (hydrate_outcome cls row Hwf) as [Hyes Hno]. split.
    + intros Hacc. now rewrite (Hyes Hacc).
    + intros Hnot. destruct (Hno Hnot) as [msg ->]. now exists msg.
  - intros Hpk. unfold Model_get. now rewrite Hpk.
Qed.

End GetRecord.

(** [TestModel.get(db, 7)] on a storage that answers with one row, and [get]
    on a record type without a primary key. *)
Lemma get_is_select_filter_first_witness :
  (exists h',
     Model_get (recording [item_row]) TestModel (VInt 7) ([], fresh_db)
     = (Ok (Some {| __class__ := TestModel;
                    __dict__ := [("id", VInt 7); ("name", VStr "Test Item");
                                 ("description", VNone); ("active", VBool true);
                                 ("price", VFloat 10.5%float)] |}),
        (h',
         {| db_url := "test.db";
            _cursor :=
              Some [("SELECT id, name, description, active, price FROM test_models WHERE id = ? LIMIT 1",
                     [VInt 7])] |})))
  /\ Model_get (recording [item_row]) Note (VInt 7) ([], fresh_db)
     = (Raise (ValueError "Note has no primary key"), ([], fresh_db)).
Proof.
  split.
  - destruct (get_is_select_filter_first (recording [item_row]) TestModel_def
                TestModel (VInt 7) [] fresh_db eq_refl) as [Hget _].
    destruct (Hget (field_of TestModel "id") eq_refl) as (_ & h' & _ & Hrun).
    exists h'. apply (proj1 Hrun).
    intros k f [E|[E|[E|[E|[E|[]]]]]]; injection E as <- <-;
      (split; [reflexivity|intros; discriminate]).
  - destruct (get_is_select_filter_first (recording [item_row]) Note_def
                Note (VInt 7) [] fresh_db eq_refl) as [_ Hno].
    now apply Hno.
Defined.

(** C7, the claim refuted: the storage answers [User.get(db, 1)] with a row
    whose [created_at] column holds text.  The row matches, the field rejects
    the text, and [get] raises instead of returning a record. *)
Lemma get_raises_on_rejected_row :
  declare User_def = Ok User
  /\ __primary_key__ User = Some (field_of User "id")
  /\ exists h',
       Model_get (recording [user_row]) User (VInt 1) ([], fresh_db)
       = (Raise (ValueError "created_at must be a datetime object"),
          (h',
           {| db_url := "test.db";
              _cursor :=
                Some [("SELECT id, username, email, password, is_active, created_at, updated_at, balance FROM users WHERE id = ? LIMIT 1",
                       [VInt 1])] |})).
Proof.
  split; [reflexivity|]. split; [reflexivity|]. eexists. reflexivity.
Qed.

(** ** Persistence, further *)

Lemma dict_set_keys_same {V} k (v : V) d :
  In k (dict_keys d) -> dict_keys (dict_set k v d) = dict_keys d.
Proof.
  induction d as [|[k0 v0] d IH]; simpl; [tauto|].
  destruct (String.eqb_spec k k0) as [->|Hne]; simpl; [reflexivity|].
  intros [E|I]; [congruence|]. now rewrite IH.
Qed.

Lemma holds_fields_setattr self k f v self' :
  wf_class (__class__ self) ->
  holds_fields self ->
  In (k, f) (__fields__ (__class__ self)) ->
  setattr self f v = Ok self' ->
  holds_fields self'.
Proof.
  intros (_ & Hb & _) Hh Hin Hs. apply setattr_Ok in Hs. subst self'.
  unfold holds_fields in *; simpl. rewrite dict_set_keys_same; [exact Hh|].
  rewrite Hh, (Hb _ _ Hin). apply (in_map fst) in Hin. exact Hin.
Qed.

Lemma init_holds_fields def cls kwargs self :
  declare def = Ok cls ->
  Model___init__ cls kwargs = Ok self ->
  holds_fields self.
Proof.
  intros Hd. destruct (declare_wf _ _ Hd) as (Hnd & Hb & _).
  unfold Model___init__.
  destruct (init_fields _ _ _) as [[s rest]|e] eqn:E; simpl; [|discriminate].
  destruct rest; [|discriminate]. intros [= <-].
  pose proof (init_fields_class _ _ _ _ _ E) as Hc. simpl in Hc.
  assert (Hfresh : forall k, In k (dict_keys (__fields__ cls)) ->
                     ~ In k (dict_keys (__dict__ (blank cls))))
    by (intros k _ []).
  pose proof (init_fields_exact _ _ _ _ _ Hnd Hb Hfresh E) as Hx. simpl in Hx.
  unfold holds_fields. rewrite Hc, Hx. unfold dict_keys. now rewrite map_map.
Qed.

Section PersistenceMore.

Context {Store : Type}.
Variable exec : Store -> string -> list Value -> result Cursor * Store.

Lemma set_self_outcome (self self' : Model) (db db' : Database Store) pk v r :
  set_self pk v (self, db) = (r, (self', db')) ->
  db' = db /\ (self' = self \/ setattr self pk v = Ok self').
Proof.
  unfold set_self; simpl. destruct (setattr self pk v) as [s|e];
    intros [= _ <- <-]; auto.
Qed.

(** The record after [save] or [delete]: as it was, or with its primary key
    set through [setattr]. *)
Lemma save_outcome (self self' : Model) (db db' : Database Store) r :
  Model_save exec (self, db) = (r, (self', db')) ->
  self' = self
  \/ exists pk v, __primary_key__ (__class__ self) = Some pk
                  /\ setattr self pk v = Ok self'.
Proof.
  assert (Hins : _insert exec (self, db) = (r, (self', db')) ->
                 self' = self
                 \/ exists pk v, __primary_key__ (__class__ self) = Some pk
                                 /\ setattr self pk v = Ok self').
  { rewrite insert_run.
    destruct (Database_execute _ _ _ db) as [[cursor|e] db1];
      [|intros [= _ <- _]; now left].
    destruct (__primary_key__ (__class__ self)) as [pk|] eqn:Hpk;
      [|intros [= _ <- _]; now left].
    destruct (is_None (getattr self pk)); [|intros [= _ <- _]; now left].
    intros H. apply set_self_outcome in H as [_ [H|H]]; [now left|].
    right. eauto. }
  unfold Model_save, bind, gets; cbn [fst snd].
  destruct (__primary_key__ (__class__ self)) as [pk|] eqn:Hpk; [|exact Hins].
  destruct (is_None (getattr self pk)); [exact Hins|].
  rewrite (update_run exec self db pk Hpk).
  destruct (Database_execute _ _ _ db) as [[cursor|e] db1];
    intros [= _ <- _]; now left.
Qed.

Lemma delete_outcome (self self' : Model) (db db' : Database Store) r :
  Model_delete exec (self, db) = (r, (self', db')) ->
  self' = self
  \/ exists pk v, __primary_key__ (__class__ self) = Some pk
                  /\ setattr self pk v = Ok self'.
Proof.
  unfold Model_delete, bind, gets, on_snd; cbn [fst snd].
  destruct (__primary_key__ (__class__ self)) as [pk|] eqn:Hpk;
    [|intros [= _ <- _]; now left].
  cbn [fst snd].
  destruct (Database_execute _ _ _ db) as [[cursor|e] db1];
    [|intros [= _ <- _]; now left].
  intros H. apply set_self_outcome in H as [_ [H|H]]; [now left|].
  right. eauto.
Qed.

(** X8: the constructor of a declared type gives a well typed record that
    holds exactly the declared fields, and [save] and [delete] keep both,
    whatever the storage answers and whether they return or raise. *)
Theorem persistence_keeps_records_sound (def : ClassDef) :
  (forall cls kwargs self,
     declare def = Ok cls ->
     Model___init__ cls kwargs = Ok self ->
     well_typed self /\ holds_fields self)
  /\ (forall self self' (db db' : Database Store) r,
        declare def = Ok (__class__ self) ->
        well_typed self -> holds_fields self ->
        Model_save exec (self, db) = (r, (self', db'))
        \/ Model_delete exec (self, db) = (r, (self', db')) ->
        well_typed self' /\ holds_fields self'
        /\ __class__ self' = __class__ self).
Proof.
  split.
  - intros cls kwargs self Hd Hi.
    split; [eapply init_well_typed | eapply init_holds_fields]; eauto.
  - intros self self' db db' r Hd Hwt Hh Hrun.
    pose proof (declare_wf _ _ Hd) as Hwf.
    assert (Hout : self' = self
                   \/ exists pk v, __primary_key__ (__class__ self) = Some pk
                                   /\ setattr self pk v = Ok self').
    { destruct Hrun as [H|H]; [eapply save_outcome|eapply delete_outcome]; eauto. }
    destruct Hout as [->|(pk & v & Hpk & Hs)]; [tauto|].
    destruct (wf_primary_key _ _ Hwf Hpk) as [Hin _].
    destruct (well_typed_setattr _ _ _ _ _ Hwf Hwt Hin Hs) as [H1 H2].
    split; [exact H1|]. split; [|exact H2].
    eapply holds_fields_setattr; eauto.
Qed.

Lemma Database_execute_closed sql params (db : Database Store) :
  _cursor db = None ->
  Database_execute exec sql params db = (Raise not_connected, db).
Proof. intros H. unfold Database_execute. now rewrite H. Qed.

(** X9: on a database that is not connected, [save] raises the
    connection error and leaves the record and the database as they were,
    whether it would insert or update; so does [delete] on a schema with a
    primary key. *)
Theorem save_delete_need_connection (self : Model) (db : Database Store) :
  _cursor db = None ->
  Model_save exec (self, db) = (Raise not_connected, (self, db))
  /\ (forall pk,
        __primary_key__ (__class__ self) = Some pk ->
        Model_delete exec (self, db) = (Raise not_connected, (self, db))).
Proof.
  intros Hc. split.
  - assert (Hins : _insert exec (self, db) = (Raise not_connected, (self, db))).
    { rewrite insert_run. now rewrite Database_execute_closed. }
    unfold Model_save, bind, gets; cbn [fst snd].
    destruct (__primary_key__ (__class__ self)) as [pk|] eqn:Hpk; [|exact Hins].
    destruct (is_None (getattr self pk)); [exact Hins|].
    rewrite (update_run exec self db pk Hpk).
    now rewrite Database_execute_closed.
  - intros pk Hpk. unfold Model_delete, bind, gets, on_snd; cbn [fst snd].
    rewrite Hpk; cbn [fst snd]. now rewrite Database_execute_closed.
Qed.

(** X10: saving twice.  When the first [save] of a record with an integer
    primary key still [None] has inserted it, the second [save] is an
    update: one [UPDATE] statement whose last parameter is the row
    identifier the insert was given, and the record is not changed by it. *)
Theorem save_twice_updates (def : ClassDef) (self : Model)
    (db db1 : Database Store) (pk : Field) (cursor : Cursor) :
  declare def = Ok (__class__ self) ->
  __primary_key__ (__class__ self) = Some pk ->
  field_class pk = IntegerField ->
  getattr self pk = VNone ->
  Database_execute exec (insert_sql self)
    (map (getattr self) (insert_fields self)) db = (Ok cursor, db1) ->
  exists self1,
    Model_save exec (self, db) = (Ok tt, (self1, db1))
    /\ getattr self1 pk = VInt (lastrowid cursor)
    /\ Model_save exec (self1, db1)
       = match Database_execute exec (update_sql self pk)
                 (map (getattr self)
                    (List.filter (fun field => negb (primary_key field))
                       (dict_values (__fields__ (__class__ self))))
                  ++ [VInt (lastrowid cursor)]) db1 with
         | (Ok _, db2) => (Ok tt, (self1, db2))
         | (Raise e, db2) => (Raise e, (self1, db2))
         end.
Proof.
  intros Hd Hpk Hc Hv Hex. pose proof (declare_wf _ _ Hd) as Hwf.
  exists (store_attr self (_attr_name pk) (VInt (lastrowid cursor))).
  set (self1 := store_attr self (_attr_name pk) (VInt (lastrowid cursor))).
  assert (Hget : getattr self1 pk = VInt (lastrowid cursor))
    by apply getattr_store.
  split; [|split; [exact Hget|]].
  - unfold Model_save, bind, gets; cbn [fst snd]. rewrite Hpk, Hv. simpl.
    rewrite insert_run, Hex, Hpk, Hv. simpl. unfold set_self; simpl.
    now rewrite (setattr_rowid _ _ _ (or_introl Hc)).
  - unfold Model_save, bind, gets; cbn [fst snd].
    change (__class__ self1) with (__class__ self). rewrite Hpk, Hget. simpl.
    rewrite (update_run exec self1 db1 pk Hpk). rewrite Hget.
    change (__class__ self1) with (__class__ self).
    change (update_sql self1 pk) with (update_sql self pk).
    replace (map (getattr self1)
               (List.filter (fun field => negb (primary_key field))
                  (dict_values (__fields__ (__class__ self)))))
      with (map (getattr self)
              (List.filter (fun field => negb (primary_key field))
                 (dict_values (__fields__ (__class__ self))))); [reflexivity|].
    apply map_ext_in. intros g Hg. apply filter_In in Hg as [Hg Hflag].
    unfold dict_values in Hg. apply in_map_iff in Hg as ([k g'] & <- & Hg).
    simpl in *. unfold self1, getattr, __get__, store_attr, dict_get_default; simpl.
    rewrite dict_get_set.
    destruct (String.eqb_spec (_attr_name g') (_attr_name pk)) as [Heq|]; [|reflexivity].
    destruct (wf_primary_key _ _ Hwf Hpk) as [Hin Hpkflag].
    assert (g' = pk) by (eapply wf_same_attr; eauto). subst g'.
    rewrite Hpkflag in Hflag. discriminate.
Qed.


End PersistenceMore.

Lemma persistence_keeps_records_sound_witness :
  Model___init__ TestModel [("name", VStr "Item 1")] = Ok new_item
  /\ Model_save (recording []) (new_item, fresh_db) = (Ok tt, saved_item)
  /\ well_typed (fst saved_item) /\ holds_fields (fst saved_item).
Proof.
  destruct (persistence_keeps_records_sound (recording []) TestModel_def)
    as [Hnew Hkeep].
  split; [reflexivity|]. split; [reflexivity|].
  destruct (Hnew TestModel [("name", VStr "Item 1")] new_item eq_refl eq_refl)
    as [Hwt Hh].
  destruct (Hkeep new_item (fst saved_item) fresh_db (snd saved_item) (Ok tt)
              eq_refl Hwt Hh (or_introl eq_refl)) as (H1 & H2 & _).
  split; [exact H1|exact H2].
Defined.

Lemma save_delete_need_connection_witness :
  Model_save (recording []) (new_item, Database___init__ "test.db")
  = (Raise (RuntimeError "Database connection not established"),
     (new_item, Database___init__ "test.db")).
Proof.
  apply (save_delete_need_connection (recording [])). reflexivity.
Defined.

Lemma save_twice_updates_witness :
  Model_save (recording []) (new_item, fresh_db) = (Ok tt, saved_item)
  /\ Model_save (recording []) saved_item
     = (Ok tt,
        (fst saved_item,
         {| db_url := "test.db";
            _cursor :=
              Some [("INSERT INTO test_models (name, description, active, price) VALUES (?, ?, ?, ?)",
                     [VStr "Item 1"; VNone; VBool true; VFloat 0%float]);
                    ("UPDATE test_models SET name = ?, description = ?, active = ?, price = ? WHERE id = ?",
                     [VStr "Item 1"; VNone; VBool true; VFloat 0%float; VInt 1])] |})).
Proof.
  destruct (save_twice_updates (recording []) TestModel_def new_item fresh_db
              (snd saved_item) (field_of TestModel "id")
              {| lastrowid := 1; rows := [] |}
              eq_refl eq_refl eq_refl eq_refl eq_refl)
    as (self1 & H1 & _ & H2).
  split; [reflexivity|].
  assert (Hs : self1 = fst saved_item).
  { assert (H : Model_save (recording []) (new_item, fresh_db) = (Ok tt, saved_item))
      by reflexivity.
    rewrite H in H1. now injection H1 as <-. }
  subst self1. exact H2.
Defined.


(** ** The query builder, further *)

Lemma returns_new_yields (h : list Obj) self run v' :
  returns_new h self run v' ->
  exists q h', run = (Ok q, h') /\ view h' q = Some v' /\ view h' self = view h self.
Proof. intros (q & h' & Hrun & _ & _ & Hq & Hs). eauto. Qed.

Lemma resolve_app cls keys1 keys2 cols1 cols2 :
  resolve cls keys1 = Ok cols1 ->
  resolve cls keys2 = Ok cols2 ->
  resolve cls (keys1 ++ keys2) = Ok (cols1 ++ cols2).
Proof.
  revert cols1. induction keys1 as [|k keys1 IH]; simpl; intros cols1 H1 H2.
  - now injection H1 as <-.
  - destruct (dict_get k (__fields__ cls)); [|discriminate].
    destruct (resolve cls keys1) as [c|] eqn:E; simpl in H1; [|discriminate].
    injection H1 as <-. now rewrite (IH c eq_refl H2).
Qed.

(** X12: filters accumulate.  Two calls of [filter], or of [filter_by], one
    on the result of the other, give a query of the same state as one call
    with the conditions, or the keyword arguments, of both in that order. *)
Theorem filters_accumulate (h : list Obj) (self : loc) (v : QueryState) :
  view h self = Some v ->
  (forall c1 c2,
     exists q1 h1,
       Query_filter self c1 h = (Ok q1, h1)
       /\ yields (Query_filter q1 c2 h1) (add_filters (c1 ++ c2) v)
       /\ yields (Query_filter self (c1 ++ c2) h) (add_filters (c1 ++ c2) v))
  /\ (forall kw1 kw2 cols1 cols2,
        resolve (target v) (dict_keys kw1) = Ok cols1 ->
        resolve (target v) (dict_keys kw2) = Ok cols2 ->
        exists q1 h1,
          Query_filter_by self kw1 h = (Ok q1, h1)
          /\ yields (Query_filter_by q1 kw2 h1)
               (add_equalities (cols1 ++ cols2)
                  (dict_values kw1 ++ dict_values kw2) v)
          /\ yields (Query_filter_by self (kw1 ++ kw2) h)
               (add_equalities (cols1 ++ cols2)
                  (dict_values kw1 ++ dict_values kw2) v)).
Proof.
  intros Hv. split.
  - intros c1 c2.
    destruct (returns_new_yields _ _ _ _ (filter_run h self v Hv c1))
      as (q1 & h1 & Hr1 & Hq1 & _).
    destruct (returns_new_yields _ _ _ _ (filter_run h1 q1 _ Hq1 c2))
      as (q2 & h2 & Hr2 & Hq2 & _).
    destruct (returns_new_yields _ _ _ _ (filter_run h self v Hv (c1 ++ c2)))
      as (q3 & h3 & Hr3 & Hq3 & _).
    exists q1, h1. split; [exact Hr1|]. split.
    + exists q2, h2. split; [exact Hr2|]. rewrite Hq2. f_equal.
      unfold add_filters; simpl. now rewrite app_assoc.
    + exists q3, h3. tauto.
  - intros kw1 kw2 cols1 cols2 H1 H2.
    pose proof (filter_by_run h self v Hv kw1) as R1. rewrite H1 in R1.
    destruct (returns_new_yields _ _ _ _ R1) as (q1 & h1 & Hr1 & Hq1 & _).
    pose proof (filter_by_run h1 q1 _ Hq1 kw2) as R2.
    simpl in R2. rewrite H2 in R2.
    destruct (returns_new_yields _ _ _ _ R2) as (q2 & h2 & Hr2 & Hq2 & _).
    pose proof (filter_by_run h self v Hv (kw1 ++ kw2)) as R3.
    unfold dict_keys in R3. rewrite map_app in R3.
    fold (dict_keys kw1) (dict_keys kw2) in R3.
    rewrite (resolve_app _ _ _ _ _ H1 H2) in R3.
    destruct (returns_new_yields _ _ _ _ R3) as (q3 & h3 & Hr3 & Hq3 & _).
    exists q1, h1. split; [exact Hr1|]. split.
    + exists q2, h2. split; [exact Hr2|]. rewrite Hq2. f_equal.
      unfold add_equalities; simpl. now rewrite List.map_app, <- !app_assoc.
    + exists q3, h3. split; [exact Hr3|]. rewrite Hq3. f_equal.
      unfold add_equalities, dict_values; simpl. now rewrite !List.map_app.
Qed.

Lemma filters_accumulate_witness :
  exists q1 h1,
    Query_filter_by 2 [("active", VBool true)] selected_heap = (Ok q1, h1)
    /\ yields (Query_filter_by q1 [("name", VStr "Item 2")] h1)
         (add_equalities ["active"; "name"] [VBool true; VStr "Item 2"]
            (initial TestModel))
    /\ yields (Query_filter_by 2 [("active", VBool true); ("name", VStr "Item 2")]
                 selected_heap)
         (add_equalities ["active"; "name"] [VBool true; VStr "Item 2"]
            (initial TestModel)).
Proof.
  destruct (filters_accumulate selected_heap 2 (initial TestModel) eq_refl)
    as [_ Hby].
  apply (Hby [("active", VBool true)] [("name", VStr "Item 2")]
           ["active"] ["name"]); reflexivity.
Defined.

(** X13: limit, offset and order are replaced, and limit and offset do not
    interfere.  A second [limit] (or [offset], or [order_by]) on the result
    of a first leaves only the second; [limit] then [offset] gives the same
    state as [offset] then [limit]. *)
Theorem pagination_replaces_and_commutes (h : list Obj) (self : loc)
    (v : QueryState) :
  view h self = Some v ->
  forall a b,
    (exists q1 h1,
       Query_limit self a h = (Ok q1, h1)
       /\ yields (Query_limit q1 b h1) (replace_limit b v))
    /\ (exists q1 h1,
          Query_offset self a h = (Ok q1, h1)
          /\ yields (Query_offset q1 b h1) (replace_offset b v))
    /\ (exists q1 h1 q2 h2,
          Query_limit self a h = (Ok q1, h1)
          /\ Query_offset self b h = (Ok q2, h2)
          /\ yields (Query_offset q1 b h1) (replace_offset b (replace_limit a v))
          /\ yields (Query_limit q2 a h2) (replace_offset b (replace_limit a v)))
    /\ (forall n1 n2 f1 f2 (asc1 asc2 : bool),
          dict_get n1 (__fields__ (target v)) = Some f1 ->
          dict_get n2 (__fields__ (target v)) = Some f2 ->
          exists q1 h1,
            Query_order_by self n1 asc1 h = (Ok q1, h1)
            /\ yields (Query_order_by q1 n2 asc2 h1)
                 (replace_order
                    (name f2 +:+ " " +:+ (if asc2 then "ASC" else "DESC")) v)).
Proof.
  intros Hv a b.
  destruct (returns_new_yields _ _ _ _ (limit_run h self v Hv a))
    as (q1 & h1 & Hr1 & Hq1 & _).
  destruct (returns_new_yields _ _ _ _ (offset_run h self v Hv a))
    as (q2 & h2 & Hr2 & Hq2 & _).
  destruct (returns_new_yields _ _ _ _ (offset_run h self v Hv b))
    as (q3 & h3 & Hr3 & Hq3 & _).
  split; [|split; [|split]].
  - exists q1, h1. split; [exact Hr1|].
    destruct (returns_new_yields _ _ _ _ (limit_run h1 q1 _ Hq1 b))
      as (q & h' & Hr & Hq & _).
    exists q, h'. split; [exact Hr|]. now rewrite Hq.
  - exists q2, h2. split; [exact Hr2|].
    destruct (returns_new_yields _ _ _ _ (offset_run h2 q2 _ Hq2 b))
      as (q & h' & Hr & Hq & _).
    exists q, h'. split; [exact Hr|]. now rewrite Hq.
  - exists q1, h1, q3, h3. split; [exact Hr1|]. split; [exact Hr3|]. split.
    + destruct (returns_new_yields _ _ _ _ (offset_run h1 q1 _ Hq1 b))
        as (q & h' & Hr & Hq & _).
      exists q, h'. split; [exact Hr|]. now rewrite Hq.
    + destruct (returns_new_yields _ _ _ _ (limit_run h3 q3 _ Hq3 a))
        as (q & h' & Hr & Hq & _).
      exists q, h'. split; [exact Hr|]. now rewrite Hq.
  - intros n1 n2 f1 f2 asc1 asc2 H1 H2.
    pose proof (order_by_run h self v Hv n1 asc1) as R1. rewrite H1 in R1.
    destruct (returns_new_yields _ _ _ _ R1) as (q & h' & Hr & Hq & _).
    exists q, h'. split; [exact Hr|].
    pose proof (order_by_run h' q _ Hq n2 asc2) as R2. simpl in R2.
    rewrite H2 in R2.
    destruct (returns_new_yields _ _ _ _ R2) as (q' & h'' & Hr' & Hq' & _).
    exists q', h''. split; [exact Hr'|]. now rewrite Hq'.
Qed.

Lemma pagination_replaces_and_commutes_witness :
  exists q1 h1,
    Query_limit 2 10 selected_heap = (Ok q1, h1)
    /\ yields (Query_limit q1 2 h1) (replace_limit 2 (initial TestModel)).
Proof.
  destruct (pagination_replaces_and_commutes selected_heap 2 (initial TestModel)
              eq_refl 10%Z 2%Z) as (H & _).
  exact H.
Defined.

(** ** Running queries, further *)

Lemma on_snd_run {S T A} (m : M T A) (s : S) t r t' :
  m t = (r, t') -> on_snd m (s, t) = (r, (s, t')).
Proof. intros H. unfold on_snd; simpl. now rewrite H. Qed.

Section Running.

Context {Store : Type}.
Variable exec : Store -> string -> list Value -> result Cursor * Store.

Lemma count_run (h : list Obj) (db : Database Store) q v :
  view h q = Some v ->
  Query_count exec q (h, db)
  = match Database_fetch_one exec (count_sql (target v) (filters_of v))
            (params_of v) db with
    | (Ok (Some row), db') =>
        (Ok match dict_get "COUNT(*)" row with
            | Some value => Got value
            | None => KeyError "COUNT(*)"
            end, (h, db'))
    | (Ok None, db') => (Ok (Got (VInt 0)), (h, db'))
    | (Raise e, db') => (Raise e, (h, db'))
    end.
Proof.
  intros Hv.
  destruct (view_inv _ _ _ Hv) as (o & Hq & Hfs & Hps & Ht & _).
  unfold Query_count.
  run_step ltac:(apply on_fst_run; apply attr_base; exact Hq).
  run_step ltac:(apply on_fst_run; apply attr_base; exact Hq).
  run_step ltac:(apply on_fst_run; apply load_vals_base; exact Hps).
  run_step ltac:(apply on_fst_run; apply attr_base; exact Hq).
  run_step ltac:(apply on_fst_run; apply load_strs_base; exact Hfs).
  rewrite <- Ht. unfold bind at 1. unfold on_snd at 1. cbn [fst snd].
  destruct (Database_fetch_one exec _ _ db) as [[[row|]|e] db'] eqn:E;
    try reflexivity.
  rewrite (fetch_one_truthy _ _ _ _ _ _ E). unfold ret.
  now destruct (dict_get "COUNT(*)" row).
Qed.

Lemma count_sql_statement (v : QueryState) :
  count_sql (target v) (filters_of v) = count_statement v.
Proof.
  unfold count_sql, count_statement, where_clause.
  now destruct (filters_of v).
Qed.

(** X14: [count] executes one statement,
    [SELECT COUNT( * ) FROM <table>] followed by [WHERE] and the filters
    joined by [AND] when there are filters, with the parameters of the
    filters, and leaves the heap of queries as it was: it returns the
    [COUNT( * )] column of the row that comes back, and 0 when none does.  The
    statement is built from the table and the filters alone, so two queries
    with the same filters and parameters count alike whatever their order,
    limit and offset.  When the storage returns no row [exists] is false, and
    when the count is the integer [n], [exists] is [n > 0]. *)
Theorem count_ignores_pagination (h : list Obj) (db : Database Store)
    (q1 q2 : loc) (v1 v2 : QueryState) :
  view h q1 = Some v1 ->
  view h q2 = Some v2 ->
  same_filters v1 v2 ->
  Query_count exec q1 (h, db)
  = match Database_fetch_one exec (count_statement v1) (params_of v1) db with
    | (Ok (Some row), db') =>
        (Ok match dict_get "COUNT(*)" row with
            | Some value => Got value
            | None => KeyError "COUNT(*)"
            end, (h, db'))
    | (Ok None, db') => (Ok (Got (VInt 0)), (h, db'))
    | (Raise e, db') => (Raise e, (h, db'))
    end
  /\ Query_count exec q1 (h, db) = Query_count exec q2 (h, db)
  /\ fst (snd (Query_count exec q1 (h, db))) = h
  /\ (forall db',
        Database_fetch_one exec (count_statement v1) (params_of v1) db
        = (Ok None, db') ->
        Query_count exec q1 (h, db) = (Ok (Got (VInt 0)), (h, db'))
        /\ Query_exists exec q1 (h, db) = (Ok (Got false), (h, db')))
  /\ (forall n st,
        Query_count exec q1 (h, db) = (Ok (Got (VInt n)), st) ->
        Query_exists exec q1 (h, db) = (Ok (Got (0 <? n)%Z), st)).
Proof.
  intros H1 H2 (Ht & Hf & Hp).
  assert (Hst : count_statement v2 = count_statement v1)
    by (unfold count_statement; now rewrite Ht, Hf).
  pose proof (count_run h db q1 v1 H1) as R1. rewrite count_sql_statement in R1.
  pose proof (count_run h db q2 v2 H2) as R2.
  rewrite count_sql_statement, Hst, <- Hp in R2.
  split; [exact R1|]. split; [now rewrite R1, R2|]. split.
  - rewrite R1. now destruct (Database_fetch_one exec _ _ db) as [[[row|]|e] db'].
  - split.
    + intros db' E. unfold Query_exists, bind. rewrite R1, E. split; reflexivity.
    + intros n st E. unfold Query_exists, bind. now rewrite E.
Qed.


Lemma hydrate_rows cls (rows_ : list (list (string * Value))) :
  match fold_right (fun row acc =>
          rbind (_row_to_model cls row) (fun m =>
          rbind acc (fun ms => Ok (m :: ms)))) (Ok []) rows_ with
  | Ok ms => Forall2 (fun row m => _row_to_model cls row = Ok m) rows_ ms
  | Raise e => exists row, In row rows_ /\ _row_to_model cls row = Raise e
  end.
Proof.
  induction rows_ as [|row rows_ IH]; simpl; [constructor|].
  destruct (_row_to_model cls row) as [m|e] eqn:E; simpl.
  - destruct (fold_right _ _ rows_) as [ms|e]; simpl.
    + now constructor.
    + destruct IH as (r & I & Hr). exists r. tauto.
  - exists row. tauto.
Qed.

Lemma all_run (h : list Obj) (db : Database Store) q v :
  view h q = Some v ->
  order_set v ->
  Query_all exec q (h, db)
  = match Database_fetch_all exec (select_statement v) (params_of v) db with
    | (Ok rows_, db') =>
        (fold_right (fun row acc =>
           rbind (_row_to_model (target v) row) (fun m =>
           rbind acc (fun ms => Ok (m :: ms)))) (Ok []) rows_, (h, db'))
    | (Raise e, db') => (Raise e, (h, db'))
    end.
Proof.
  intros Hv Hset.
  destruct (view_inv _ _ _ Hv) as (o & Hq & _ & _ & Ht & _).
  unfold Query_all.
  run_step ltac:(apply on_fst_run; apply (build_sql_view _ _ _ Hv Hset)).
  unfold bind at 1. unfold on_snd at 1. cbn [fst snd].
  destruct (Database_fetch_all exec _ _ db) as [[rows_|e] db']; [|reflexivity].
  run_step ltac:(apply on_fst_run; apply attr_base; exact Hq).
  now rewrite <- Ht.
Qed.

(** X16: [all] executes the compiled statement of the query once and leaves
    the heap of queries as it was.  When it returns, it returns one record
    per row, in the order of the rows, each hydrated from its row; otherwise
    it raises the error of the storage or the validation error of a row. *)
Theorem all_hydrates_every_row (h : list Obj) (db : Database Store) (q : loc)
    (v : QueryState) :
  view h q = Some v ->
  order_set v ->
  match Database_fetch_all exec (select_statement v) (params_of v) db with
  | (Raise e, db') => Query_all exec q (h, db) = (Raise e, (h, db'))
  | (Ok rows_, db') =>
      exists r,
        Query_all exec q (h, db) = (r, (h, db'))
        /\ match r with
           | Ok ms =>
               Forall2 (fun row m => _row_to_model (target v) row = Ok m) rows_ ms
           | Raise e =>
               exists row, In row rows_ /\ _row_to_model (target v) row = Raise e
           end
  end.
Proof.
  intros Hv Hset. rewrite (all_run h db q v Hv Hset).
  destruct (Database_fetch_all exec _ _ db) as [[rows_|e] db']; [|reflexivity].
  eexists. split; [reflexivity|]. apply hydrate_rows.
Qed.

End Running.

Lemma count_ignores_pagination_witness :
  Query_count (recording [[("COUNT(*)", VInt 3)]]) 10 (filtered_heap, fresh_db)
  = (Ok (Got (VInt 3)),
     (filtered_heap,
      {| db_url := "test.db";
         _cursor :=
           Some [("SELECT COUNT(*) FROM test_models WHERE active = ?", [VInt 1])] |}))
  /\ Query_count (recording [[("COUNT(*)", VInt 3)]]) 5 (paged_heap, fresh_db)
     = Query_count (recording [[("COUNT(*)", VInt 3)]]) 2 (paged_heap, fresh_db)
  /\ Query_exists (recording []) 5 (paged_heap, fresh_db)
     = (Ok (Got false),
        (paged_heap,
         {| db_url := "test.db";
            _cursor := Some [("SELECT COUNT(*) FROM test_models", [])] |})).
Proof.
  split; [|split].
  - destruct (count_ignores_pagination (recording [[("COUNT(*)", VInt 3)]])
                filtered_heap fresh_db 10 10
                (add_equalities ["active"] [VInt 1]
                   (replace_offset 2 (initial TestModel)))
                _ eq_refl eq_refl) as (Hrun & _); [repeat split|].
    exact Hrun.
  - destruct (count_ignores_pagination (recording [[("COUNT(*)", VInt 3)]])
                paged_heap fresh_db 5 2 (replace_offset 2 (initial TestModel))
                (initial TestModel) eq_refl eq_refl) as (_ & Hsame & _);
      [repeat split|].
    exact Hsame.
  - destruct (count_ignores_pagination (recording []) paged_heap fresh_db 5 2
                (replace_offset 2 (initial TestModel)) (initial TestModel)
                eq_refl eq_refl) as (_ & _ & _ & Hnone & _); [repeat split|].
    apply Hnone. reflexivity.
Defined.


Lemma all_hydrates_every_row_witness :
  exists ms,
    Query_all (recording [item_row; item_row]) 2 (selected_heap, fresh_db)
    = (Ok ms,
       (selected_heap,
        {| db_url := "test.db";
           _cursor :=
             Some [("SELECT id, name, description, active, price FROM test_models", [])] |}))
    /\ length ms = 2.
Proof.
  pose proof (all_hydrates_every_row (recording [item_row; item_row])
                selected_heap fresh_db 2 (initial TestModel) eq_refl) as H.
  simpl in H. destruct H as (r & Hrun & Hr); [discriminate|].
  eexists. split; reflexivity.
Defined.

(** X17: the dynamic [filter_by_<field>].  Asked for an attribute whose name
    starts with [filter_by_], a query gives a function that, called on a
    query of state [v] with keyword arguments holding the field, behaves as
    [filter_by] with that one keyword (the others are ignored), and that
    raises when the field is not among them; any other unknown attribute is
    an [AttributeError]. *)
Theorem dynamic_filter_by (h : list Obj) (self : loc) (v : QueryState)
    (field_name : string) :
  view h self = Some v ->
  (exists g,
     Query___getattr__ self ("filter_by_" +:+ field_name) = Ok g
     /\ (forall kwargs value f,
           dict_get field_name kwargs = Some value ->
           dict_get field_name (__fields__ (target v)) = Some f ->
           returns_new h self (g kwargs h) (add_equalities [name f] [value] v))
     /\ (forall kwargs,
           dict_get field_name kwargs = None ->
           g kwargs h
           = (Raise (ValueError ("Missing required parameter " +:+ field_name)), h)))
  /\ (forall name_,
        String.prefix "filter_by_" name_ = false ->
        Query___getattr__ self name_
        = Raise (AttributeError ("Query object has no attribute " +:+ name_))).
Proof.
  intros Hv. split.
  - assert (Hp : String.prefix "filter_by_" ("filter_by_" +:+ field_name) = true)
      by (cbn; now destruct field_name).
    exists (fun kwargs =>
              match dict_get field_name kwargs with
              | None =>
                  raise (ValueError ("Missing required parameter " +:+ field_name))
              | Some value => Query_filter_by self [(field_name, value)]
              end).
    split; [unfold Query___getattr__; now rewrite Hp|]. split.
    + intros kwargs value f Hk Hf. rewrite Hk.
      pose proof (filter_by_run h self v Hv [(field_name, value)]) as R.
      simpl in R. rewrite Hf in R. exact R.
    + intros kwargs Hk. now rewrite Hk.
  - intros name_ Hp. unfold Query___getattr__. now rewrite Hp.
Qed.

Lemma dynamic_filter_by_witness :
  exists g,
    Query___getattr__ 2 "filter_by_name" = Ok g
    /\ returns_new selected_heap 2
         (g [("name", VStr "Item 2"); ("other", VInt 1)] selected_heap)
         (add_equalities ["name"] [VStr "Item 2"] (initial TestModel)).
Proof.
  destruct (dynamic_filter_by selected_heap 2 (initial TestModel) "name" eq_refl)
    as [(g & Hg & Hcall & _) _].
  exists g. split; [exact Hg|].
  apply (Hcall [("name", VStr "Item 2"); ("other", VInt 1)] (VStr "Item 2")
           (field_of TestModel "name")); reflexivity.
Defined.

(** ** Declared classes, further *)

Lemma namespace_In body k a :
  In (k, a) (namespace body) -> In (k, a) body.
Proof.
  unfold namespace.
  assert (H : forall (acc : list (string * Attr FieldArgs)),
             In (k, a) (fold_left (fun ns kv => dict_set (fst kv) (snd kv) ns) body acc) ->
             In (k, a) acc \/ In (k, a) body).
  { induction body as [|[k0 a0] body IH]; simpl; intros acc H; [tauto|].
    apply IH in H as [H|H]; [|tauto].
    assert (G : forall d : list (string * Attr FieldArgs),
               In (k, a) (dict_set k0 a0 d) -> (k0, a0) = (k, a) \/ In (k, a) d).
    { induction d as [|[k1 a1] d IHd]; simpl; [tauto|].
      destruct (String.eqb k0 k1); simpl; [tauto|].
      intros [E|I]; [tauto|]. apply IHd in I. tauto. }
    apply G in H. tauto. }
  intros I. apply H in I as [[]|I]. exact I.
Qed.

Lemma field_items_In items k f :
  In (k, f) (field_items items) -> In (k, AField f) items.
Proof.
  induction items as [|[k0 [f0|]] items IH]; simpl; [tauto| |tauto].
  intros [E|I]; [left; congruence|tauto].
Qed.

(** X18: what a declared class is made of.  Its fields have distinct
    attribute names and are found under them; each is a field of the class
    body bound to its attribute, the column named after the attribute unless
    a name was given; the primary key, if any, is one of the fields and is
    marked, and without one no field is marked; the table is the [__table__]
    of the body, or the lower-cased class name followed by [s]. *)
Theorem declared_class_invariants (def : ClassDef) (cls : Class) :
  declare def = Ok cls ->
  List.NoDup (dict_keys (__fields__ cls))
  /\ (forall k f,
        In (k, f) (__fields__ cls) ->
        dict_get k (__fields__ cls) = Some f
        /\ _attr_name f = k
        /\ exists args,
             In (k, AField args) (def_body def)
             /\ f = __set_name__ args k
             /\ name f = match arg_name args with Some n => n | None => k end)
  /\ (forall pk,
        __primary_key__ cls = Some pk ->
        In (_attr_name pk, pk) (__fields__ cls) /\ primary_key pk = true)
  /\ (__primary_key__ cls = None ->
      forall k f, In (k, f) (__fields__ cls) -> primary_key f = false)
  /\ __name__ cls = def_name def
  /\ __table__ cls = match def_table def with
                     | Some t => t
                     | None => lower (def_name def) +:+ "s"
                     end.
Proof.
  intros Hd. pose proof (declare_wf _ _ Hd) as Hwf.
  destruct (declare_fields _ _ Hd) as [Hf _].
  split; [apply Hwf|]. split; [|split; [|split; [|split]]].
  - intros k f Hin. split; [now apply wf_lookup|].
    split; [now apply (proj1 (proj2 Hwf))|].
    rewrite Hf in Hin. apply field_items_In in Hin.
    apply in_map_iff in Hin as ([k0 a] & Hb & Hin).
    apply namespace_In in Hin. destruct a as [args|]; unfold bind_attr in Hb;
      simpl in Hb; [|discriminate].
    injection Hb as -> <-. exists args. repeat split; assumption || reflexivity.
  - intros pk. now apply wf_primary_key.
  - intros Hpk k f. now apply wf_no_primary_key.
  - revert Hd. unfold declare, model_fields. destruct (collect_fields _ _ _).
    now intros [= <-].
  - revert Hd. unfold declare, model_fields. destruct (collect_fields _ _ _).
    now intros [= <-].
Qed.

Lemma declared_class_invariants_witness :
  __table__ Pair = "pairs"
  /\ (exists args,
        In ("right", AField args) (def_body Pair_def)
        /\ name (field_of Pair "right") = "right").
Proof.
  destruct (declared_class_invariants Pair_def Pair eq_refl)
    as (_ & Hfield & _ & _ & _ & Htable).
  split; [exact Htable|].
  destruct (Hfield "right" (field_of Pair "right")) as (_ & _ & args & Hin & _ & Hn).
  - right; left; reflexivity.
  - exists args. split; [exact Hin|]. reflexivity.
Defined.

(** ** Tables and connections *)

Section LifecycleFacts.

Context {Store : Type}.
Variable exec : Store -> string -> list Value -> result Cursor * Store.
Variable connect : string -> result Store.
Variable commit : Store -> result unit * Store.
Variable rollback : Store -> result unit * Store.
Variable str_float : float -> string.
Variable str_datetime : datetime -> string.

Lemma column_sql_Ok field :
  field_class field <> BaseField ->
  exists col, column_sql str_float str_datetime field = Ok col.
Proof.
  intros Hc. unfold column_sql, db_type.
  destruct (field_class field); [contradiction| | | | |]; simpl; eauto.
Qed.

Lemma columns_sql_Ok fields :
  (forall f, In f fields -> field_class f <> BaseField) ->
  exists cols,
    columns_sql str_float str_datetime fields = Ok cols
    /\ length cols = length fields.
Proof.
  induction fields as [|f fields IH]; simpl; intros H; [now exists []|].
  destruct (column_sql_Ok f) as [col Hcol]; [apply H; now left|].
  destruct IH as (cols & Hcols & Hlen); [intros g I; apply H; now right|].
  rewrite Hcol, Hcols. simpl. exists (col :: cols). simpl. now rewrite Hlen.
Qed.

Lemma columns_sql_plain fields f :
  In f fields -> field_class f = BaseField ->
  columns_sql str_float str_datetime fields
  = Raise (RuntimeError "NotImplementedError").
Proof.
  induction fields as [|g fields IH]; simpl; [tauto|].
  intros [->|I] Hc.
  - unfold column_sql, db_type. now rewrite Hc.
  - unfold column_sql at 1, db_type at 1.
    destruct (field_class g); simpl; try reflexivity;
      rewrite (IH I Hc); reflexivity.
Qed.

(** X19: [create_table] on a class with a plain [Field] raises before
    anything is executed and leaves the database as it was.  On a class
    without one it executes one [CREATE TABLE IF NOT EXISTS] statement with
    one column definition per declared field and no parameter, and commits
    only when that statement has succeeded. *)
Theorem create_table_runs (cls : Class) (db : Database Store) :
  (forall k f,
     In (k, f) (__fields__ cls) -> field_class f = BaseField ->
     create_table exec commit str_float str_datetime cls db
     = (Raise (RuntimeError "NotImplementedError"), db))
  /\ ((forall k f, In (k, f) (__fields__ cls) -> field_class f <> BaseField) ->
      exists cols,
        length cols = length (__fields__ cls)
        /\ create_table exec commit str_float str_datetime cls db
           = match Database_execute exec
                     ("CREATE TABLE IF NOT EXISTS " +:+ __table__ cls +:+ " ("
                      +:+ String.concat ", " cols +:+ ")") [] db with
             | (Ok _, db1) => Database_commit commit db1
             | (Raise e, db1) => (Raise e, db1)
             end).
Proof.
  split.
  - intros k f Hin Hc. unfold create_table, bind, lift.
    rewrite (columns_sql_plain _ f); [reflexivity| |exact Hc].
    unfold dict_values. apply in_map_iff. now exists (k, f).
  - intros Hall.
    destruct (columns_sql_Ok (dict_values (__fields__ cls))) as (cols & Hc & Hl).
    { intros f Hf. unfold dict_values in Hf.
      apply in_map_iff in Hf as ([k g] & <- & Hin). now apply (Hall k). }
    exists cols. split.
    + rewrite Hl. unfold dict_values. now rewrite length_map.
    + unfold create_table, bind, lift. rewrite Hc.
      now destruct (Database_execute exec _ _ db) as [[c|e] db1].
Qed.

(** X20: the block [with Database(url) as db].  When the connection cannot
    be opened the body does not run.  Otherwise, with the connection still
    open after the body, it is committed when the body returned and rolled
    back when it raised; when that succeeds the database is closed and the
    block gives the body's result or raises the body's exception, and when it
    fails that error is raised and the connection stays open.  A body that
    closed the database itself makes the end of the block fail. *)
Theorem with_Database_releases {S A : Type} (url : string)
    (body : M (S * Database Store) A) (s : S) (db0 : Database Store) :
  match connect url with
  | Raise e =>
      with_Database connect commit rollback url body (s, db0)
      = (Raise e, (s, Database___init__ url))
  | Ok st0 =>
      match body (s, {| db_url := url; _cursor := Some st0 |}) with
      | (r, (s', db2)) =>
          match _cursor db2 with
          | None =>
              exists e,
                with_Database connect commit rollback url body (s, db0)
                = (Raise (AttributeError e), (s', db2))
          | Some st =>
              match (if is_Ok r then commit st else rollback st) with
              | (Ok _, st') =>
                  with_Database connect commit rollback url body (s, db0)
                  = (r, (s', {| db_url := db_url db2; _cursor := None |}))
              | (Raise e, st') =>
                  with_Database connect commit rollback url body (s, db0)
                  = (Raise e, (s', {| db_url := db_url db2; _cursor := Some st' |}))
              end
          end
      end
  end.
Proof.
  unfold with_Database, Database___enter__, Database_connect, Database___init__;
    cbn [fst snd db_url].
  destruct (connect url) as [st0|e]; [|reflexivity].
  destruct (body _) as [r [s' db2]].
  destruct (_cursor db2) as [st|] eqn:Hc.
  - destruct r as [a|e]; simpl; unfold Database___exit__; rewrite Hc.
    + destruct (commit st) as [[[]|e] st']; reflexivity.
    + destruct (rollback st) as [[[]|e'] st']; reflexivity.
  - destruct r as [a|e]; unfold Database___exit__; rewrite Hc; eauto.
Qed.

(** A closed database refuses everything.  After [close], [execute],
    [fetch_one], [fetch_all], [commit], [rollback] and [get_cursor] raise the
    connection error without reaching the engine, the database stays
    closed, and closing again changes nothing. *)
Lemma closed_database_refuses (db : Database Store) (sql : string)
    (params : list Value) :
  let closed := snd (Database_close db) in
  Database_execute exec sql params closed = (Raise not_connected, closed)
  /\ Database_fetch_one exec sql params closed = (Raise not_connected, closed)
  /\ Database_fetch_all exec sql params closed = (Raise not_connected, closed)
  /\ Database_commit commit closed = (Raise not_connected, closed)
  /\ Database_rollback rollback closed = (Raise not_connected, closed)
  /\ Database_get_cursor closed = (Raise not_connected, closed)
  /\ Database_close closed = (Ok tt, closed).
Proof. repeat split. Qed.

End LifecycleFacts.

Lemma create_table_runs_witness :
  create_table (recording []) recording_commit (fun _ => "0.0") (fun _ => "")
    TestModel fresh_db
  = (Ok tt,
     {| db_url := "test.db";
        _cursor :=
          Some [("CREATE TABLE IF NOT EXISTS test_models (id INTEGER PRIMARY KEY, name VARCHAR(100) NOT NULL, description VARCHAR(500), active BOOLEAN DEFAULT True, price FLOAT DEFAULT 0.0)", []);
                ("COMMIT", [])] |}).
Proof.
  destruct (create_table_runs (recording []) recording_commit (fun _ => "0.0")
              (fun _ => "") TestModel fresh_db) as [_ H].
  destruct H as (cols & _ & Hrun).
  - intros k f [E|[E|[E|[E|[E|[]]]]]]; injection E as <- <-; discriminate.
  - reflexivity.
Defined.

Lemma with_Database_releases_witness :
  with_Database recording_connect recording_commit recording_rollback "test.db"
    (on_snd (Database_execute (recording []) "SELECT 1" [])) (tt, fresh_db)
  = (Ok {| lastrowid := 1; rows := [] |},
     (tt, {| db_url := "test.db"; _cursor := None |})).
Proof.
  exact (with_Database_releases recording_connect recording_commit
           recording_rollback "test.db"
           (on_snd (Database_execute (recording []) "SELECT 1" [])) tt fresh_db).
Defined.
